(** * Program Tester: static analyser, sandbox runner and verdict scorer

    A shallow embedding of [src/test.py] (the three-stage pipeline
    static analysis -> sandboxed unit test -> verdict) together with the
    properties its specification states about it.

    Conventions of the embedding:
    - a Python [str] is a [string]; each [ascii] stands for one code point
      in the range 0..255;
    - a Python [int] that the program only ever obtains by counting
      ([len], [+= 1], [sum(1 for ...)]) is a [nat]; the running score,
      which is subtracted from, is a [Z];
    - a [float] is the rational [Q] it denotes, and arithmetic on floats
      rounds to the nearest binary64 number;
    - the captured output of a child process is a [str] or a [bytes]
      object, as Python has it at run time;
    - a dictionary with a fixed set of keys is a record, a dictionary with
      two shapes is an inductive type with two constructors;
    - a call that may raise returns a [result];
    - the Python run time and the operating system (the parser, the
      tokenizer, the interpreter's recursion limit, the file system, child
      processes) are the variables of [Section Pipeline];
    - the window is a record of the attributes and button states its
      handlers touch ([Module Gui]); the Tk widgets themselves are left
      out. *)

From Stdlib Require Import Strings.String Strings.Ascii Lists.List.
From Stdlib Require Import ZArith.ZArith Arith.PeanoNat Bool.Bool micromega.Lia.
From Stdlib Require Import QArith.QArith Numbers.DecimalString.
From Stdlib Require Import Sorting.Permutation Sorting.Sorted.
Import ListNotations.

Set Warnings "-register-all".

Open Scope list_scope.
Open Scope nat_scope.
Open Scope string_scope.

(* ================================================================== *)
(** * Python values used by the program *)
(* ================================================================== *)

(** An exception object: its class and what [str(e)] gives. *)
Record exn : Type := mkExn { exn_class : string; exn_str : string }.

(** The outcome of a call: a value, or an exception that propagates. *)
Inductive result (A : Type) : Type :=
| Returns (a : A)
| Raises (e : exn).
Arguments Returns {A} a.
Arguments Raises {A} e.

Definition bind {A B : Type} (r : result A) (k : A -> result B) : result B :=
  match r with
  | Returns a => k a
  | Raises e => Raises e
  end.

Notation "x <- r ;; k" := (bind r (fun x => k))
  (at level 61, r at next level, right associativity).

(** Truth value of an [int]. *)
Definition truthy (n : nat) : bool := negb (Nat.eqb n 0).

(** [str(n)] and [f"{n}"] for a non-negative [int]. *)
Definition str_of_nat (n : nat) : string :=
  NilEmpty.string_of_uint (Nat.to_uint n).

(** ** [str] methods *)

Definition tab : ascii := "009"%char.
Definition newline : ascii := "010"%char.
Definition carriage_return : ascii := "013"%char.
Definition space : ascii := " "%char.

Fixpoint mem_char (c : ascii) (chars : string) : bool :=
  match chars with
  | EmptyString => false
  | String d rest => Ascii.eqb c d || mem_char c rest
  end.

Definition is_empty (s : string) : bool :=
  match s with EmptyString => true | String _ _ => false end.

(** [s.startswith(p)] *)
Definition startswith (s p : string) : bool := String.prefix p s.

Fixpoint rev_string (s : string) : string :=
  match s with
  | EmptyString => EmptyString
  | String c rest => rev_string rest ++ String c EmptyString
  end.

(** [s.endswith(p)] *)
Definition endswith (s p : string) : bool :=
  String.prefix (rev_string p) (rev_string s).

(** [sub in s] *)
Fixpoint contains (sub s : string) : bool :=
  String.prefix sub s ||
  match s with
  | EmptyString => false
  | String _ rest => contains sub rest
  end.

(** [s.rstrip(chars)] *)
Fixpoint rstrip (chars s : string) : string :=
  match s with
  | EmptyString => EmptyString
  | String c rest =>
      let rest' := rstrip chars rest in
      if is_empty rest' && mem_char c chars then EmptyString
      else String c rest'
  end.

(** [s.lstrip(chars)] *)
Fixpoint lstrip (chars s : string) : string :=
  match s with
  | EmptyString => EmptyString
  | String c rest => if mem_char c chars then lstrip chars rest else s
  end.

(** The characters [str.strip()] removes, among the code points 0..255:
    tab, LF, VT, FF, CR, FS, GS, RS, US, space, NEL and NBSP. *)
Definition whitespace : string :=
  String "009" (String "010" (String "011" (String "012" (String "013"
  (String "028" (String "029" (String "030" (String "031" (String " "
  (String "133" (String "160" EmptyString))))))))))).

(** [s.strip()] *)
Definition strip (s : string) : string := rstrip whitespace (lstrip whitespace s).

(** The line boundaries of [str.splitlines], among the code points 0..255:
    LF, VT, FF, CR, FS, GS, RS and NEL; CR LF counts as one boundary. *)
Definition line_boundaries : string :=
  String "010" (String "011" (String "012" (String "013" (String "028"
  (String "029" (String "030" (String "133" EmptyString))))))).

Definition keep (keepends : bool) (ending : string) : string :=
  if keepends then ending else EmptyString.

Fixpoint splitlines_from (keepends : bool) (cur s : string) : list string :=
  match s with
  | EmptyString => if is_empty cur then [] else [cur]
  | String c rest =>
      if mem_char c line_boundaries then
        match rest with
        | String d rest' =>
            if Ascii.eqb c carriage_return && Ascii.eqb d newline
            then (cur ++ keep keepends (String c (String d EmptyString)))
                   :: splitlines_from keepends EmptyString rest'
            else (cur ++ keep keepends (String c EmptyString))
                   :: splitlines_from keepends EmptyString rest
        | EmptyString => [cur ++ keep keepends (String c EmptyString)]
        end
      else splitlines_from keepends (cur ++ String c EmptyString) rest
  end.

(** [s.splitlines(keepends)] *)
Definition splitlines (keepends : bool) (s : string) : list string :=
  splitlines_from keepends EmptyString s.

(** [s[-n:]] for a positive [n] *)
Definition tail_chars (n : nat) (s : string) : string :=
  String.substring (String.length s - n) n s.

(** ** Captured output

    What [RunResult.stdout] and [RunResult.stderr] hold at run time: a
    [str], or a [bytes] object ([TimeoutExpired] carries the bytes read so
    far where [subprocess.run] raises it before they are decoded). *)
Inductive captured : Type :=
| Text (s : string)
| Bytes (b : string).

(** The characters of a [str], the bytes of a [bytes]. *)
Definition content (c : captured) : string :=
  match c with Text s => s | Bytes b => b end.

Definition is_text (c : captured) : bool :=
  match c with Text _ => true | Bytes _ => false end.

Definition double_quote : string := String "034" EmptyString.

(** [a + b] *)
Definition concat (a b : captured) : result captured :=
  match a, b with
  | Text s, Text t => Returns (Text (s ++ t))
  | Bytes s, Bytes t => Returns (Bytes (s ++ t))
  | Text _, Bytes _ =>
      Raises (mkExn "TypeError"
                ("can only concatenate str (not " ++ double_quote ++ "bytes"
                 ++ double_quote ++ ") to str"))
  | Bytes _, Text _ =>
      Raises (mkExn "TypeError" "can't concat str to bytes")
  end.

(** [sub in c] for a [str] [sub] *)
Definition str_in (sub : string) (c : captured) : result bool :=
  match c with
  | Text s => Returns (contains sub s)
  | Bytes _ =>
      Raises (mkExn "TypeError" "a bytes-like object is required, not 'str'")
  end.

(** [c[-n:]] for a positive [n] *)
Definition tail (n : nat) (c : captured) : captured :=
  match c with
  | Text s => Text (tail_chars n s)
  | Bytes b => Bytes (tail_chars n b)
  end.

(** [xs[:n]] *)
Definition take {A : Type} (n : nat) (xs : list A) : list A := firstn n xs.

(** ** [float]

    A [float] is the rational it denotes.  [nearest_float] gives the
    binary64 number nearest to a rational (53 significant bits, ties to the
    even significand): the result of an [int / int] division and of the
    conversion of a decimal.  The range of exponents is not limited: the
    program divides and rounds counts and seconds only. *)
Definition round_half_even (x : Q) : Z :=
  let n := Qnum x in
  let d := Zpos (Qden x) in
  let q := (n / d)%Z in
  let r := (n mod d)%Z in
  match (2 * r ?= d)%Z with
  | Lt => q
  | Gt => (q + 1)%Z
  | Eq => if Z.even q then q else (q + 1)%Z
  end.

(** [x * 2^e] *)
Definition scale2 (x : Q) (e : Z) : Q :=
  if (0 <=? e)%Z
  then (x * inject_Z (2 ^ e))%Q
  else (x / inject_Z (2 ^ (- e)))%Q.

Definition nearest_float (x : Q) : Q :=
  let n := Z.abs (Qnum x) in
  let d := Zpos (Qden x) in
  if (n =? 0)%Z then 0%Q
  else
    (* 2^(k-1) < |x| < 2^(k+1) *)
    let k := (Z.log2 n - Z.log2 d)%Z in
    let at_least_2_52 :=
      Qle_bool (inject_Z (2 ^ 52)) (scale2 (Qmake n (Qden x)) (52 - k)) in
    let e := if at_least_2_52 then (k - 52)%Z else (k - 53)%Z in
    (* 2^52 <= |x| / 2^e < 2^53 *)
    scale2 (inject_Z (round_half_even (scale2 x (- e)))) e.

(** [a / b] for two [int]s, [b] positive *)
Definition true_div (a b : nat) : Q :=
  nearest_float (Qmake (Z.of_nat a) (Pos.of_nat b)).

(** [round(x, ndigits)] for a [float]: the decimal with [ndigits] digits
    nearest to the exact value of [x], ties to the even digit, converted
    back to a [float]. *)
Definition round (x : Q) (ndigits : nat) : Q :=
  let scale := Z.to_pos (10 ^ Z.of_nat ndigits) in
  nearest_float (Qmake (round_half_even (x * Qmake (Zpos scale) 1)) scale).

(** [xs.append(x)] *)
Definition append {A : Type} (xs : list A) (x : A) : list A := (xs ++ [x])%list.

(* ================================================================== *)
(** * The syntax tree of the [ast] module *)
(* ================================================================== *)

(** The node classes the program tells apart by [isinstance], and one
    constructor for every other class. *)
Inductive node_class : Type :=
| If | For | AsyncFor | While | With | AsyncWith
| Try | TryStar | ExceptHandler | Match
| Other (class_name : string).

Inductive constant : Type :=
| Str (s : string)
| NotStr.

(** A node, with the fields the program reads ([name], [lineno], [body],
    [values], [value]) and its child nodes in the order of
    [ast.iter_child_nodes].  [args] are the children that come before the
    body (the [arguments] node of a function, the bases and keywords of a
    class), [rest] those that come after it (decorators, return annotation,
    type parameters). *)
Inductive ast : Type :=
| Module (body : list ast)
| FunctionDef (name : string) (lineno : Z) (args body rest : list ast)
| AsyncFunctionDef (name : string) (lineno : Z) (args body rest : list ast)
| ClassDef (name : string) (lineno : Z) (args body rest : list ast)
| Expr (value : ast)
| Constant (value : constant)
| BoolOp (op : ast) (values : list ast)
| Node (cls : node_class) (children : list ast).

(** [ast.iter_child_nodes(node)] *)
Definition iter_child_nodes (node : ast) : list ast :=
  match node with
  | Module body => body
  | FunctionDef _ _ args body rest => (args ++ body ++ rest)%list
  | AsyncFunctionDef _ _ args body rest => (args ++ body ++ rest)%list
  | ClassDef _ _ args body rest => (args ++ body ++ rest)%list
  | Expr value => [value]
  | Constant _ => []
  | BoolOp op values => op :: values
  | Node _ children => children
  end.

(** The number of nodes of a tree. *)
Fixpoint size (node : ast) : nat :=
  S match node with
    | Module body => list_sum (map size body)
    | FunctionDef _ _ args body rest
    | AsyncFunctionDef _ _ args body rest
    | ClassDef _ _ args body rest =>
        list_sum (map size args) + list_sum (map size body)
        + list_sum (map size rest)
    | Expr value => size value
    | Constant _ => 0
    | BoolOp op values => size op + list_sum (map size values)
    | Node _ children => list_sum (map size children)
    end.

(** The nodes of the subtree below (and including) a node, parents before
    children. *)
Fixpoint subtree (node : ast) : list ast :=
  node ::
  match node with
  | Module body => flat_map subtree body
  | FunctionDef _ _ args body rest
  | AsyncFunctionDef _ _ args body rest
  | ClassDef _ _ args body rest =>
      (flat_map subtree args ++ flat_map subtree body
       ++ flat_map subtree rest)%list
  | Expr value => subtree value
  | Constant _ => []
  | BoolOp op values => (subtree op ++ flat_map subtree values)%list
  | Node _ children => flat_map subtree children
  end.

(** [ast.walk(node)]: the loop
    [todo = deque([node]); while todo: node = todo.popleft();
     todo.extend(iter_child_nodes(node)); yield node].
    One unit of [fuel] is one iteration of the loop. *)
Fixpoint walk_loop (fuel : nat) (todo : list ast) : list ast :=
  match fuel with
  | O => []
  | S fuel' =>
      match todo with
      | [] => []
      | node :: todo' =>
          node :: walk_loop fuel' (todo' ++ iter_child_nodes node)%list
      end
  end.

(** The loop pops one node per iteration and every node of the tree enters
    the queue once, so [size node] iterations empty the queue
    (lemma [walk_loop_enough]). *)
Definition walk (node : ast) : list ast := walk_loop (size node) [node].

(** [ast.get_docstring(node)] before its final [inspect.cleandoc], which
    [get_docstring] below applies.  The program calls it on modules,
    functions and classes only (for another node Python raises
    [TypeError]). *)
Definition raw_docstring (node : ast) : option string :=
  let body :=
    match node with
    | Module body => body
    | FunctionDef _ _ _ body _ => body
    | AsyncFunctionDef _ _ _ body _ => body
    | ClassDef _ _ _ body _ => body
    | _ => []
    end in
  match body with
  | Expr (Constant (Str text)) :: _ => Some text
  | _ => None
  end.

(* ================================================================== *)
(** * Reports *)
(* ================================================================== *)

(** [RunResult] *)
Record RunResult : Type := mkRunResult {
  ok : bool;
  returncode : Z;
  stdout : captured;
  stderr : captured;
  seconds : Q;
  timed_out : bool
}.

(** The ["error"] entry of the dictionary [syntax_check] returns. *)
Record SyntaxErrorInfo : Type := mkSyntaxErrorInfo {
  err_type : string;
  err_msg : string;
  err_lineno : option Z;
  err_offset : option Z;
  err_text : string
}.

(** The dictionary [syntax_check] returns: [{"ok": ..., "error": ...}]. *)
Record SyntaxResult : Type := mkSyntaxResult {
  syn_ok : bool;
  syn_error : option SyntaxErrorInfo
}.

Record StyleCounts : Type := mkStyleCounts {
  total_lines : nat;
  long_lines_gt_100 : nat;
  trailing_whitespace_lines : nat;
  tab_char_lines : nat;
  mixed_indentation : nat
}.

(** An entry of [issues]; [issue_line] is [None] for a whole-file issue. *)
Record StyleIssue : Type := mkStyleIssue {
  issue_line : option nat;
  issue_type : string;
  issue_detail : string
}.

Record StyleReport : Type := mkStyleReport {
  counts : StyleCounts;
  issues : list StyleIssue
}.

Record RiskFlag : Type := mkRiskFlag {
  flag_pattern : string;
  flag_detail : string
}.

Record RiskReport : Type := mkRiskReport { flags : list RiskFlag }.

Record CommentReport : Type := mkCommentReport {
  comment_lines : nat;
  comment_total_lines : nat;
  comment_density : Q;
  sample_comments : list string
}.

(** An entry of [function_complexities], and of [complexity_all]. *)
Record ComplexityEntry : Type := mkComplexityEntry {
  fn_name : string;
  fn_lineno : Z;
  complexity : nat
}.

(** An entry of [fn_info] and [cls_info]. *)
Record DefInfo : Type := mkDefInfo {
  def_name : string;
  def_lineno : Z;
  has_docstring : bool
}.

Record NamingIssue : Type := mkNamingIssue {
  naming_type : string;
  naming_name : string;
  naming_lineno : Z
}.

Record DocNamingReport : Type := mkDocNamingReport {
  module_has_docstring : bool;
  module_docstring_length : nat;
  functions : list DefInfo;
  classes : list DefInfo;
  missing_function_docstrings : nat;
  missing_class_docstrings : nat;
  naming_issues : list NamingIssue
}.

(** The two shapes of [ast_block]. *)
Inductive AstBlock : Type :=
| AstOk (docstrings_naming : DocNamingReport)
        (complexity_top5 complexity_all : list ComplexityEntry)
| AstFailed (error : string).

(** [ast_block.get("ok")] *)
Definition ast_ok (b : AstBlock) : bool :=
  match b with AstOk _ _ _ => true | AstFailed _ => false end.

Record StaticReport : Type := mkStaticReport {
  syntax : SyntaxResult;
  style : StyleReport;
  risky : RiskReport;
  comments : CommentReport;
  ast_block : AstBlock
}.

(** The dictionary [run_basic_unit_test] returns. *)
Record TestReport : Type := mkTestReport {
  test_ok : bool;
  test_returncode : Z;
  test_seconds : Q;
  test_timed_out : bool;
  test_command : list string;
  test_stdout : captured;
  test_stderr : captured
}.

Record Verdict : Type := mkVerdict {
  score : Z;
  level : string;
  notes : list string
}.

(* ================================================================== *)
(** * Static checks that need no parser *)
(* ================================================================== *)

(** ** [style_check] *)

(** The variables the loop of [style_check] updates. *)
Record StyleScan : Type := mkStyleScan {
  scan_long : nat;
  scan_trailing : nat;
  scan_tabs : nat;
  scan_issues : list StyleIssue;
  has_tab_indent : bool;
  has_space_indent : bool
}.

Definition scan_start : StyleScan := mkStyleScan 0 0 0 [] false false.

Definition spaces_and_tabs : string := String space (String tab EmptyString).

(** One iteration of [for i, line in enumerate(lines, start=1)]. *)
Definition style_line (i : nat) (line : string) (st : StyleScan) : StyleScan :=
  let raw := rstrip (String newline EmptyString) line in
  let long := Nat.ltb 100 (String.length raw) in
  let trailing := negb (String.eqb raw (rstrip spaces_and_tabs raw)) in
  let issues1 :=
    if long
    then append (scan_issues st)
           (mkStyleIssue (Some i) "LongLine"
              ("Length=" ++ str_of_nat (String.length raw) ++ " > 100"))
    else scan_issues st in
  let issues2 :=
    if trailing
    then append issues1
           (mkStyleIssue (Some i) "TrailingWhitespace" "Trailing spaces/tabs")
    else issues1 in
  mkStyleScan
    (if long then S (scan_long st) else scan_long st)
    (if trailing then S (scan_trailing st) else scan_trailing st)
    (if contains (String tab EmptyString) line
     then S (scan_tabs st) else scan_tabs st)
    issues2
    (if startswith line (String tab EmptyString)
     then true else has_tab_indent st)
    (if startswith line (String space EmptyString)
     then true else has_space_indent st).

Fixpoint style_loop (i : nat) (lines : list string) (st : StyleScan)
  : StyleScan :=
  match lines with
  | [] => st
  | line :: lines' => style_loop (S i) lines' (style_line i line st)
  end.

Definition mixed_issue : StyleIssue :=
  mkStyleIssue None "MixedIndentation"
    "Both tabs and spaces used for indentation".

Definition style_check (source : string) : StyleReport :=
  let lines := splitlines true source in
  let st := style_loop 1 lines scan_start in
  let mixed := has_tab_indent st && has_space_indent st in
  mkStyleReport
    (mkStyleCounts (List.length lines) (scan_long st) (scan_trailing st)
       (scan_tabs st) (if mixed then 1 else 0))
    (take 200
       (if mixed then append (scan_issues st) mixed_issue
        else scan_issues st)).

(** ** [risky_patterns] *)

Definition patterns : list (string * string) :=
  [ ("eval(", "Use of eval()");
    ("exec(", "Use of exec()");
    ("os.system", "Shell execution via os.system");
    ("subprocess.Popen", "Process spawning via subprocess.Popen");
    ("pickle.loads", "Unsafe deserialization risk (pickle.loads)");
    ("import *", "Wildcard import reduces clarity") ].

Definition risky_patterns (source : string) : RiskReport :=
  mkRiskReport
    (fold_left
       (fun flags km =>
          if contains (fst km) source
          then append flags (mkRiskFlag (fst km) (snd km))
          else flags)
       patterns []).

(* ================================================================== *)
(** * Checks on the syntax tree *)
(* ================================================================== *)

(** ** [ComplexityVisitor] *)

(** What one node adds to [inc] in [_complexity_of]. *)
Definition increment (n : ast) : nat :=
  match n with
  | Node If _ | Node For _ | Node While _ | Node With _
  | Node AsyncWith _ | Node Try _ | Node ExceptHandler _ => 1
  | BoolOp _ values => Nat.max 1 (List.length values - 1)
  | Node Match _ => 1
  | _ => 0
  end.

Definition _complexity_of (fn : ast) : nat :=
  let inc := fold_left (fun inc n => inc + increment n) (walk fn) 0 in
  1 + inc.

(** What [visit(node)] leaves in [self.function_complexities] when the
    interpreter carries its recursion through: a function definition
    records its entry and then visits its children ([generic_visit]); every
    other node only visits its children.  The call itself, which the
    interpreter may cut short, is [visit] in [Section Pipeline]. *)
Fixpoint traverse (node : ast) (function_complexities : list ComplexityEntry)
  : list ComplexityEntry :=
  let visit_all nodes acc :=
    fold_left (fun acc n => traverse n acc) nodes acc in
  match node with
  | Module body => visit_all body function_complexities
  | FunctionDef name lineno args body rest
  | AsyncFunctionDef name lineno args body rest =>
      let c := _complexity_of node in
      let acc := append function_complexities
                   (mkComplexityEntry name lineno c) in
      visit_all rest (visit_all body (visit_all args acc))
  | ClassDef _ _ args body rest =>
      visit_all rest (visit_all body (visit_all args function_complexities))
  | Expr value => traverse value function_complexities
  | Constant _ => function_complexities
  | BoolOp op values => visit_all values (traverse op function_complexities)
  | Node _ children => visit_all children function_complexities
  end.

(** [sorted(comps, key=lambda x: x["complexity"], reverse=True)]: a
    stable sort, so entries of equal complexity keep their order. *)
Fixpoint insert_desc (x : ComplexityEntry) (sorted : list ComplexityEntry)
  : list ComplexityEntry :=
  match sorted with
  | [] => [x]
  | y :: rest =>
      if Nat.ltb (complexity x) (complexity y)
      then y :: insert_desc x rest
      else x :: sorted
  end.

Definition sorted_desc (comps : list ComplexityEntry) : list ComplexityEntry :=
  fold_right insert_desc [] comps.

(** ** [docstrings_and_naming] *)

Definition in_range (lo hi : nat) (c : ascii) : bool :=
  Nat.leb lo (nat_of_ascii c) && Nat.leb (nat_of_ascii c) hi.

Definition is_lower (c : ascii) : bool := in_range 97 122 c.
Definition is_upper (c : ascii) : bool := in_range 65 90 c.
Definition is_digit (c : ascii) : bool := in_range 48 57 c.
Definition is_underscore (c : ascii) : bool := Ascii.eqb c "_"%char.

(** [cls*$] at the current position: characters of the class up to the
    end of the string, where [$] also matches just before one final
    newline. *)
Fixpoint star_then_end (cls : ascii -> bool) (s : string) : bool :=
  match s with
  | EmptyString => true
  | String c rest =>
      if cls c then star_then_end cls rest
      else Ascii.eqb c newline && is_empty rest
  end.

(** [re.match] of [^head tail*$] *)
Definition re_match (head tail : ascii -> bool) (s : string) : bool :=
  match s with
  | EmptyString => false
  | String c rest => head c && star_then_end tail rest
  end.

(** [SNAKE_CASE_RE = ^[a-z_][a-z0-9_]*$] *)
Definition SNAKE_CASE_RE : string -> bool :=
  re_match (fun c => is_lower c || is_underscore c)
           (fun c => is_lower c || is_digit c || is_underscore c).

(** [PASCAL_CASE_RE = ^[A-Z][A-Za-z0-9]*$] *)
Definition PASCAL_CASE_RE : string -> bool :=
  re_match is_upper (fun c => is_upper c || is_lower c || is_digit c).

(** The three lists the loop of [docstrings_and_naming] fills. *)
Record DocScan : Type := mkDocScan {
  fn_info : list DefInfo;
  cls_info : list DefInfo;
  scan_naming_issues : list NamingIssue
}.

(** [sum(1 for d in infos if not d["has_docstring"])] *)
Definition missing_docs (infos : list DefInfo) : nat :=
  List.length (filter (fun d => negb (has_docstring d)) infos).

(* ================================================================== *)
(** * The Python run time and the operating system *)
(* ================================================================== *)

(** A [SyntaxError] object: [str(e)], [e.lineno], [e.offset], [e.text]. *)
Record SyntaxError : Type := mkSyntaxError {
  se_str : string;
  se_lineno : option Z;
  se_offset : option Z;
  se_text : option string
}.

(** What [compile(source, "<uploaded>", "exec")] does: it returns a code
    object, raises [SyntaxError], or raises something else ([ValueError]
    for a null character before Python 3.12, [RecursionError] or
    [MemoryError] for deeply nested source). *)
Inductive compile_outcome : Type :=
| Compiled
| RaisesSyntaxError (e : SyntaxError)
| RaisesOther (e : exn).

Inductive token_type : Type := COMMENT | OTHER_TOKEN.

(** What [subprocess.run(..., text=True, timeout=...)] does: the child
    exits (its output is decoded), the timeout expires (the child is
    killed, and [TimeoutExpired] carries what was captured: on POSIX the
    bytes read so far, or [None] if there were none; on Windows the decoded
    output), or the call raises something else. *)
Inductive process_outcome : Type :=
| Completed (p_returncode : Z) (p_stdout p_stderr : option string)
| TimeoutExpired (e_stdout e_stderr : option captured)
| ProcessError (e : exn).

(** [x or default] for an optional string *)
Definition or_default (x : option string) (default : string) : string :=
  match x with
  | Some s => if is_empty s then default else s
  | None => default
  end.

(** [x or default] for what [TimeoutExpired] carries: [None], an empty
    [str] and an empty [bytes] are false. *)
Definition or_text (x : option captured) (default : string) : captured :=
  match x with
  | Some c => if is_empty (content c) then Text default else c
  | None => Text default
  end.

Definition Path : Type := string.

Section Pipeline.

(** [compile] *)
Variable py_compile : string -> compile_outcome.
(** [ast.parse] *)
Variable ast_parse : string -> result ast.
(** The interpreter's recursion limit.  [NodeVisitor.visit] and
    [generic_visit] call each other once per level of the tree, so the
    interpreter raises [RecursionError] in the middle of [cv.visit(tree)]
    when the tree is nested more deeply than [sys.getrecursionlimit()],
    less the frames in use, allows; [recursion_error tree] is that
    exception, and [None] when the recursion goes through. *)
Variable recursion_error : ast -> option exn.
(** [inspect.cleandoc] *)
Variable cleandoc : string -> string.
(** [tokenize.generate_tokens], run to its end: the type and string of
    every token, or the exception the generator raised. *)
Variable generate_tokens : string -> result (list (token_type * string)).
(** [Path.read_text(encoding="utf-8", errors=...)]; [true] stands for
    [errors="replace"]. *)
Variable path_read_text : Path -> bool -> result string.
(** [subprocess.run(cmd, cwd=..., capture_output=True, text=True,
    timeout=...)] together with the wall-clock time it took. *)
Variable subprocess_run : list string -> Path -> nat -> process_outcome * Q.
(** The temporary directory of [run_basic_unit_test], with the program
    copied in under the module name and [test_basic.py] written; the
    directory is removed when the [with] block is left. *)
Variable stage : Path -> string -> result Path.
(** [sys.executable] *)
Variable sys_executable : string.

(** ** [read_text] *)
Definition read_text (path : Path) : result string :=
  match path_read_text path false with
  | Returns text => Returns text
  | Raises e =>
      if String.eqb (exn_class e) "UnicodeDecodeError"
      then path_read_text path true
      else Raises e
  end.

(** ** [safe_run] *)
Definition safe_run (cmd : list string) (cwd : Path) (timeout_sec : nat)
  : result RunResult :=
  let '(outcome, dt) := subprocess_run cmd cwd timeout_sec in
  match outcome with
  | Completed rc out err =>
      Returns (mkRunResult (Z.eqb rc 0) rc (Text (or_default out ""))
                 (Text (or_default err "")) dt false)
  | TimeoutExpired out err =>
      Returns (mkRunResult false 124 (or_text out "")
                 (or_text err "Process timed out.") dt true)
  | ProcessError e => Raises e
  end.

(** ** [syntax_check] *)
Definition syntax_check (source : string) : result SyntaxResult :=
  match py_compile source with
  | Compiled => Returns (mkSyntaxResult true None)
  | RaisesSyntaxError e =>
      Returns (mkSyntaxResult false
        (Some (mkSyntaxErrorInfo "SyntaxError" (se_str e) (se_lineno e)
                 (se_offset e)
                 (rstrip (String newline EmptyString)
                    (or_default (se_text e) "")))))
  | RaisesOther e => Raises e
  end.

(** ** [comment_stats] *)
Definition comment_stats (source : string) : CommentReport :=
  let comments :=
    match generate_tokens source with
    | Returns toks =>
        fold_left
          (fun comments tok =>
             match fst tok with
             | COMMENT => append comments (strip (lstrip "#" (snd tok)))
             | OTHER_TOKEN => comments
             end)
          toks []
    | Raises _ => []
    end in
  let total := Nat.max 1 (List.length (splitlines false source)) in
  let n := List.length comments in
  let density := true_div n total in
  mkCommentReport n total (round density 4) (take 8 comments).

(** ** [docstrings_and_naming] *)

(** [ast.get_docstring(node)] *)
Definition get_docstring (node : ast) : option string :=
  option_map cleandoc (raw_docstring node).

Definition is_some {A : Type} (o : option A) : bool :=
  match o with Some _ => true | None => false end.

(** One iteration of [for node in tree.body]. *)
Definition doc_node (node : ast) (st : DocScan) : DocScan :=
  match node with
  | FunctionDef name lineno _ _ _ | AsyncFunctionDef name lineno _ _ _ =>
      let has_doc := is_some (get_docstring node) in
      let exempt :=
        startswith name "_"
        || (startswith name "__" && endswith name "__") in
      mkDocScan
        (append (fn_info st) (mkDefInfo name lineno has_doc))
        (cls_info st)
        (if negb exempt && negb (SNAKE_CASE_RE name)
         then append (scan_naming_issues st)
                (mkNamingIssue "FunctionNameNotSnakeCase" name lineno)
         else scan_naming_issues st)
  | ClassDef name lineno _ _ _ =>
      let has_doc := is_some (get_docstring node) in
      mkDocScan
        (fn_info st)
        (append (cls_info st) (mkDefInfo name lineno has_doc))
        (if negb (startswith name "_") && negb (PASCAL_CASE_RE name)
         then append (scan_naming_issues st)
                (mkNamingIssue "ClassNameNotPascalCase" name lineno)
         else scan_naming_issues st)
  | _ => st
  end.

(** [getattr(tree, "body", [])] *)
Definition body_of (tree : ast) : list ast :=
  match tree with
  | Module body => body
  | FunctionDef _ _ _ body _ => body
  | AsyncFunctionDef _ _ _ body _ => body
  | ClassDef _ _ _ body _ => body
  | Node _ _ | Expr _ | Constant _ | BoolOp _ _ => []
  end.

Definition docstrings_and_naming (tree : ast) : DocNamingReport :=
  let module_doc := get_docstring tree in
  let st := fold_left (fun st node => doc_node node st) (body_of tree)
              (mkDocScan [] [] []) in
  mkDocNamingReport
    (is_some module_doc)
    (match module_doc with
     | Some d => if is_empty d then 0 else String.length d
     | None => 0
     end)
    (fn_info st)
    (cls_info st)
    (missing_docs (fn_info st))
    (missing_docs (cls_info st))
    (scan_naming_issues st).

(** ** [ComplexityVisitor.visit]

    [cv.visit(tree)] on a new visitor: the entries of
    [cv.function_complexities] afterwards, or the exception that ended the
    recursion. *)
Definition visit (tree : ast) : result (list ComplexityEntry) :=
  match recursion_error tree with
  | Some e => Raises e
  | None => Returns (traverse tree [])
  end.

(** ** [static_analysis] *)
Definition static_analysis (program_path : Path) : result StaticReport :=
  source <- read_text program_path ;;
  syn <- syntax_check source ;;
  let style := style_check source in
  let risky := risky_patterns source in
  let comm := comment_stats source in
  let ast_block :=
    if syn_ok syn then
      (* try: ... except Exception as e: ... *)
      match
        tree <- ast_parse source ;;
        function_complexities <- visit tree ;;
        let comps_sorted := sorted_desc function_complexities in
        let ds := docstrings_and_naming tree in
        Returns (AstOk ds (take 5 comps_sorted) comps_sorted)
      with
      | Returns block => block
      | Raises e => AstFailed (exn_str e)
      end
    else AstFailed "Skipped due to syntax error." in
  Returns (mkStaticReport syn style risky comm ast_block).

(** ** [run_basic_unit_test] *)
Definition run_basic_unit_test (program_path : Path) (timeout_sec : nat)
  : result TestReport :=
  let module_name := "target_module" in
  tdir <- stage program_path module_name ;;
  let cmd1 := [sys_executable; "-I"; "-m"; "unittest"; "discover"; "-v"] in
  r1 <- safe_run cmd1 tdir timeout_sec ;;
  retry <-
    (if negb (ok r1)
     then
       both <- concat (stderr r1) (stdout r1) ;;
       str_in "ModuleNotFoundError" both
     else Returns false) ;;
  used <-
    (if retry
     then
       let cmd2 := [sys_executable; "-m"; "unittest"; "discover"; "-v"] in
       r2 <- safe_run cmd2 tdir timeout_sec ;;
       Returns (cmd2, r2)
     else Returns (cmd1, r1)) ;;
  let '(used_cmd, rr) := used in
  Returns (mkTestReport (ok rr) (returncode rr) (round (seconds rr) 3)
             (timed_out rr) used_cmd
             (tail 20000 (stdout rr)) (tail 20000 (stderr rr))).

End Pipeline.

(* ================================================================== *)
(** * The verdict *)
(* ================================================================== *)

(** [str(z)] for an [int] *)
Definition str_of_Z (z : Z) : string := NilEmpty.string_of_int (Z.to_int z).

(** The two variables [verdict] updates: [score] and [notes]. *)
Definition Tally : Type := (Z * list string)%type.

(** [score -= amount; notes.append(note)] *)
Definition deduct (amount : Z) (note : string) (t : Tally) : Tally :=
  ((fst t - amount)%Z, append (snd t) note).

(** [if cond: score -= amount; notes.append(note)] *)
Definition deduct_if (cond : bool) (amount : Z) (note : string) (t : Tally)
  : Tally :=
  if cond then deduct amount note t else t.

(** The body of [verdict] up to, and without, the final clamp. *)
Definition tally (static_rep : StaticReport) (test_rep : option TestReport)
  : Tally :=
  let t : Tally := (100%Z, []) in
  let t := deduct_if (negb (syn_ok (syntax static_rep))) 80
             "Syntax error: the file does not compile." t in
  let style_counts := counts (style static_rep) in
  let t := deduct_if (truthy (mixed_indentation style_counts)) 10
             "Mixed indentation (tabs + spaces)." t in
  let ll := long_lines_gt_100 style_counts in
  let t := deduct_if (truthy ll)
             (Z.min 10 (Z.of_nat ll / 10 + 1))
             (str_of_nat ll ++ " long lines (> 100 chars).") t in
  let risky := flags (risky static_rep) in
  let t := deduct_if (negb (Nat.eqb (List.length risky) 0))
             (Z.min 25 (5 * Z.of_nat (List.length risky)))
             ("Risky patterns detected: " ++ str_of_nat (List.length risky)
              ++ " hit(s).") t in
  let t :=
    match ast_block static_rep with
    | AstOk ds _ _ =>
        let t := deduct_if (negb (module_has_docstring ds)) 5
                   "Missing module docstring." t in
        let mfd := missing_function_docstrings ds in
        let t := deduct_if (truthy mfd) (Z.min 10 (Z.of_nat mfd))
                   (str_of_nat mfd ++ " function(s) missing docstrings.") t in
        let naming_issues := naming_issues ds in
        deduct_if (negb (Nat.eqb (List.length naming_issues) 0))
          (Z.min 10 (Z.of_nat (List.length naming_issues)))
          ("Naming convention issues: "
           ++ str_of_nat (List.length naming_issues) ++ " item(s).") t
    | AstFailed _ => t
    end in
  match test_rep with
  | Some test_rep =>
      let t := deduct_if (negb (test_ok test_rep)) 30
                 "Unit test failed (or crashed)." t in
      deduct_if (test_timed_out test_rep) 20 "Unit test timed out." t
  | None => t
  end.

(** ["Excellent" if score >= 90 else "Good" if score >= 75 else ...] *)
Definition level_of (score : Z) : string :=
  if (90 <=? score)%Z then "Excellent"
  else if (75 <=? score)%Z then "Good"
  else if (55 <=? score)%Z then "Fair"
  else "Poor".

Definition verdict (static_rep : StaticReport) (test_rep : option TestReport)
  : Verdict :=
  let '(score, notes) := tally static_rep test_rep in
  let score := Z.max 0 (Z.min 100 score) in
  mkVerdict score (level_of score) notes.

(** The summary [_render_report] logs first: one string per [_log] call. *)
Definition render_summary (v : Verdict) : list string :=
  let nl := String newline EmptyString in
  ["=== Summary ===" ++ nl;
   "Score: " ++ str_of_Z (score v) ++ "   Level: " ++ level v ++ nl]
  ++ match notes v with
     | [] => ["Notes:" ++ nl ++ "  - No major issues detected." ++ nl]
     | _ :: _ =>
         ("Notes:" ++ nl) :: map (fun n => "  - " ++ n ++ nl) (notes v)
     end.

(** The note lines of the summary: what follows ["  - "] on each. *)
Definition rendered_notes (v : Verdict) : list string :=
  match notes v with
  | [] => ["No major issues detected."]
  | _ :: _ => notes v
  end.

(* ================================================================== *)
(** * The pipeline: [_run_checks_thread] *)
(* ================================================================== *)

Section Checks.

Variable py_compile : string -> compile_outcome.
Variable ast_parse : string -> result ast.
Variable recursion_error : ast -> option exn.
Variable cleandoc : string -> string.
Variable generate_tokens : string -> result (list (token_type * string)).
Variable path_read_text : Path -> bool -> result string.
Variable subprocess_run : list string -> Path -> nat -> process_outcome * Q.
Variable stage : Path -> string -> result Path.
Variable sys_executable : string.

(** The three values handed to [_render_report]; an exception is what
    the [except Exception] of the thread logs as an unexpected error
    instead of a report. *)
Definition _run_checks_thread (program : Path)
  : result (StaticReport * option TestReport * Verdict) :=
  static_rep <- static_analysis py_compile ast_parse recursion_error
                  cleandoc generate_tokens path_read_text program ;;
  test_rep <-
    (if syn_ok (syntax static_rep)
     then
       r <- run_basic_unit_test subprocess_run stage sys_executable
              program 20 ;;
       Returns (Some r)
     else Returns None) ;;
  let v := verdict static_rep test_rep in
  Returns (static_rep, test_rep, v).

End Checks.

(* ================================================================== *)
(** * The specification's reading of the verdict table *)
(* ================================================================== *)

(** A row of the deduction table that applies: what it takes off and the
    note it adds. *)
Definition Row : Type := (Z * string)%type.

Definition when (cond : bool) (row : Row) : list Row :=
  if cond then [row] else [].

(** The rows of the table of deductions, each with its amount and note. *)
Definition row_syntax : Row :=
  (80%Z, "Syntax error: the file does not compile.").
Definition row_mixed : Row := (10%Z, "Mixed indentation (tabs + spaces).").
Definition row_long_lines (count : nat) : Row :=
  (Z.min 10 (Z.of_nat count / 10 + 1),
   str_of_nat count ++ " long lines (> 100 chars).").
Definition row_risky (hits : nat) : Row :=
  (Z.min 25 (5 * Z.of_nat hits),
   "Risky patterns detected: " ++ str_of_nat hits ++ " hit(s).").
Definition row_module_doc : Row := (5%Z, "Missing module docstring.").
Definition row_function_docs (count : nat) : Row :=
  (Z.min 10 (Z.of_nat count),
   str_of_nat count ++ " function(s) missing docstrings.").
Definition row_naming (count : nat) : Row :=
  (Z.min 10 (Z.of_nat count),
   "Naming convention issues: " ++ str_of_nat count ++ " item(s).").
Definition row_failed : Row := (30%Z, "Unit test failed (or crashed).").
Definition row_timed_out : Row := (20%Z, "Unit test timed out.").

(** The rows that apply to the static checks on the syntax tree. *)
Definition ast_deductions (b : AstBlock) : list Row :=
  match b with
  | AstOk ds _ _ =>
      let mfd := missing_function_docstrings ds in
      let bad := List.length (naming_issues ds) in
      app (when (negb (module_has_docstring ds)) row_module_doc)
        (app (when (negb (Nat.eqb mfd 0)) (row_function_docs mfd))
           (when (negb (Nat.eqb bad 0)) (row_naming bad)))
  | AstFailed _ => []
  end.

(** The rows that apply to the sandbox run. *)
Definition test_deductions (t : option TestReport) : list Row :=
  match t with
  | Some r =>
      app (when (negb (test_ok r)) row_failed)
        (when (test_timed_out r) row_timed_out)
  | None => []
  end.

(** The rows of the table that apply to a report, in the order of the
    table. *)
Definition spec_deductions (s : StaticReport) (t : option TestReport)
  : list Row :=
  let c := counts (style s) in
  let hits := List.length (flags (risky s)) in
  app (when (negb (syn_ok (syntax s))) row_syntax)
    (app (when (negb (Nat.eqb (mixed_indentation c) 0)) row_mixed)
       (app (when (negb (Nat.eqb (long_lines_gt_100 c) 0))
               (row_long_lines (long_lines_gt_100 c)))
          (app (when (negb (Nat.eqb hits 0)) (row_risky hits))
             (app (ast_deductions (ast_block s)) (test_deductions t))))).

(** The sum of what the rows take off. *)
Definition total_deduction (rows : list Row) : Z :=
  fold_right (fun row acc => (fst row + acc)%Z) 0%Z rows.

(** Subtracting the rows from a tally, and adding their notes. *)
Definition apply_rows (rows : list Row) (t : Tally) : Tally :=
  ((fst t - total_deduction rows)%Z, (snd t ++ map snd rows)%list).

(** What the two inputs of [verdict] must have in common for the verdict
    to be the same. *)
Definition same_ast_facts (a b : AstBlock) : Prop :=
  match a, b with
  | AstOk da _ _, AstOk db _ _ =>
      module_has_docstring da = module_has_docstring db
      /\ missing_function_docstrings da = missing_function_docstrings db
      /\ List.length (naming_issues da) = List.length (naming_issues db)
  | AstFailed _, AstFailed _ => True
  | _, _ => False
  end.

Definition same_test_facts (a b : option TestReport) : Prop :=
  match a, b with
  | Some ra, Some rb =>
      test_ok ra = test_ok rb /\ test_timed_out ra = test_timed_out rb
  | None, None => True
  | _, _ => False
  end.

Definition same_verdict_inputs (s1 s2 : StaticReport)
           (t1 t2 : option TestReport) : Prop :=
  syn_ok (syntax s1) = syn_ok (syntax s2)
  /\ mixed_indentation (counts (style s1))
     = mixed_indentation (counts (style s2))
  /\ long_lines_gt_100 (counts (style s1))
     = long_lines_gt_100 (counts (style s2))
  /\ List.length (flags (risky s1)) = List.length (flags (risky s2))
  /\ same_ast_facts (ast_block s1) (ast_block s2)
  /\ same_test_facts t1 t2.

(* ================================================================== *)
(** * A concrete run, used to exercise the definitions *)
(* ================================================================== *)

(** ["\n".join(lines) + "\n"] *)
Definition unlines (lines : list string) : string :=
  fold_right (fun line text => line ++ String newline text) EmptyString lines.

(** A small valid program: a module docstring and one documented
    function. *)
Definition example_source : string :=
  unlines [ "'''A tiny module.'''";
            "def twice(x):";
            "    '''Return two times x.'''";
            "    return x + x" ].

(** The tree [ast.parse] gives for [example_source]. *)
Definition example_tree : ast :=
  Module
    [ Expr (Constant (Str "A tiny module."));
      FunctionDef "twice" 2
        [ Node (Other "arguments") [Node (Other "arg") []] ]
        [ Expr (Constant (Str "Return two times x."));
          Node (Other "Return")
            [ Node (Other "BinOp")
                [ Node (Other "Name") [Node (Other "Load") []];
                  Node (Other "Add") [];
                  Node (Other "Name") [Node (Other "Load") []] ] ] ]
        [] ].

(** A Python and an operating system in which the file at every path is
    [example_source], and the unit test passes in a tenth of a second. *)
Definition example_compile (source : string) : compile_outcome := Compiled.
Definition example_parse (source : string) : result ast := Returns example_tree.
Definition example_recursion (tree : ast) : option exn := None.
Definition example_cleandoc (doc : string) : string := strip doc.
Definition example_tokens (source : string)
  : result (list (token_type * string)) := Returns [].
Definition example_read (path : Path) (replace : bool) : result string :=
  Returns example_source.
Definition example_subprocess (cmd : list string) (cwd : Path) (timeout : nat)
  : process_outcome * Q :=
  (Completed 0 (Some "") (Some "Ran 2 tests in 0.001s OK"), 1 # 10).
Definition example_stage (program : Path) (module_name : string)
  : result Path := Returns "/tmp/program_tester_0".
Definition example_executable : string := "/usr/bin/python3".

(** A child process that never ends and writes nothing: the timeout
    expires. *)
Definition hanging_subprocess (cmd : list string) (cwd : Path) (timeout : nat)
  : process_outcome * Q :=
  (TimeoutExpired None None, Qmake (Z.of_nat timeout) 1).

(** The unit test of a file whose top-level code never ends
    ([while True: pass]), on POSIX: [unittest -v] has written the name of
    the first test to the standard error stream when the import blocks, and
    [TimeoutExpired] carries these bytes. *)
Definition started_test : string :=
  "test_has_public_names (test_basic.BasicTests.test_has_public_names) ... ".

Definition posix_hanging_subprocess (cmd : list string) (cwd : Path)
  (timeout : nat) : process_outcome * Q :=
  (TimeoutExpired None (Some (Bytes started_test)), Qmake (Z.of_nat timeout) 1).

(** The same on Windows, where [subprocess.run] reads the output of the
    killed child once more, decoded. *)
Definition windows_hanging_subprocess (cmd : list string) (cwd : Path)
  (timeout : nat) : process_outcome * Q :=
  (TimeoutExpired (Some (Text "")) (Some (Text started_test)),
   Qmake (Z.of_nat timeout) 1).

(** The report of the static checks on [example_source]. *)
Definition example_report : StaticReport :=
  mkStaticReport
    (mkSyntaxResult true None)
    (style_check example_source)
    (risky_patterns example_source)
    (mkCommentReport 0 4 0 [])
    (AstOk
       (mkDocNamingReport true 14 [mkDefInfo "twice" 2 true] [] 0 0 [])
       [mkComplexityEntry "twice" 2 1] [mkComplexityEntry "twice" 2 1]).

(** A report that differs from [example_report] in the comments, the
    trailing white space, the lines with tabs, the class docstrings and the
    complexity of the functions. *)
Definition example_report_variant : StaticReport :=
  mkStaticReport
    (mkSyntaxResult true None)
    (mkStyleReport (mkStyleCounts 40 0 7 3 0)
       [mkStyleIssue (Some 5) "TrailingWhitespace" "Trailing spaces/tabs"])
    (mkRiskReport [])
    (mkCommentReport 12 40 (3 # 10) ["a comment"])
    (AstOk
       (mkDocNamingReport true 3 [mkDefInfo "g" 9 true]
          [mkDefInfo "K" 20 false] 0 1 [])
       [mkComplexityEntry "g" 9 31] [mkComplexityEntry "g" 9 31]).

Definition passed_test : TestReport :=
  mkTestReport true 0 (1 # 10) false
    ["/usr/bin/python3"; "-I"; "-m"; "unittest"; "discover"; "-v"]
    (Text "") (Text "OK").

Definition slower_passed_test : TestReport :=
  mkTestReport true 0 (19 # 1) false
    ["/usr/bin/python3"; "-m"; "unittest"; "discover"; "-v"]
    (Text "...") (Text "OK").

(** A file that holds one null character. *)
Definition null_source : string := String "000" EmptyString.

Definition null_error : exn :=
  mkExn "ValueError" "source code string cannot contain null bytes".

(** [compile] before Python 3.12: a source with a null character raises
    [ValueError]; what happens to any other source is left to [base]. *)
Definition null_checking_compile (base : string -> compile_outcome)
  (source : string) : compile_outcome :=
  if contains null_source source then RaisesOther null_error else base source.

(** A file with a syntax error, and a [compile] that rejects it. *)
Definition broken_source : string := unlines ["def twice(x:"; "    return x"].

Definition broken_error : SyntaxError :=
  mkSyntaxError "'(' was never closed (<uploaded>, line 1)" (Some 1%Z)
    (Some 10%Z) (Some ("def twice(x:" ++ String newline EmptyString)).

Definition rejecting_compile (source : string) : compile_outcome :=
  RaisesSyntaxError broken_error.

Definition broken_read (path : Path) (replace : bool) : result string :=
  Returns broken_source.

(** [def outer(xs): ... def inner(x): if x and x > 0 and x < 9: ...;
    for x in xs: inner(x)] *)
Definition example_inner : ast :=
  FunctionDef "inner" 2
    [ Node (Other "arguments") [] ]
    [ Node If
        [ BoolOp (Node (Other "And") [])
            [ Node (Other "Name") []; Node (Other "Compare") [];
              Node (Other "Compare") [] ];
          Node (Other "Pass") [] ] ]
    [].

Definition example_outer : ast :=
  FunctionDef "outer" 1
    [ Node (Other "arguments") [] ]
    [ example_inner;
      Node For [ Node (Other "Name") []; Node (Other "Name") [];
                 Expr (Node (Other "Call") []) ] ]
    [].

(** [class Shape: def Area(self): return 0] and
    [class Shape: def area(self): return 0]: the same top-level class, with
    a method that is named badly in the first and well in the second. *)
Definition class_with_method (method_name : string) : ast :=
  Module
    [ ClassDef "Shape" 1 []
        [ FunctionDef method_name 2
            [ Node (Other "arguments") [Node (Other "arg") []] ]
            [ Node (Other "Return") [Constant NotStr] ]
            [] ]
        [] ].

(** A child process that ends by itself with exit code 124. *)
Definition exit_124_subprocess (cmd : list string) (cwd : Path) (timeout : nat)
  : process_outcome * Q :=
  (Completed 124 (Some "") (Some "exit 124"), 1 # 2).

(** A child process that cannot find a module in isolated mode ([-I]) and
    passes without it. *)
Definition needs_site_subprocess (cmd : list string) (cwd : Path)
  (timeout : nat) : process_outcome * Q :=
  match cmd with
  | _ :: flag :: _ =>
      if String.eqb flag "-I"
      then (Completed 1 (Some "")
              (Some "ModuleNotFoundError: No module named 'numpy'"), 1 # 5)
      else (Completed 0 (Some "") (Some "OK"), 3 # 10)
  | _ => (Completed 2 None None, 0 # 1)
  end.

(** A tokenizer and a parser that fail. *)
Definition failing_tokens (source : string)
  : result (list (token_type * string)) :=
  Raises (mkExn "TokenError" "EOF in multi-line statement").

Definition failing_parse (source : string) : result ast :=
  Raises (mkExn "RecursionError" "maximum recursion depth exceeded").

(** The number of levels of a tree. *)
Fixpoint height (node : ast) : nat :=
  S match node with
    | Module body => list_max (map height body)
    | FunctionDef _ _ args body rest
    | AsyncFunctionDef _ _ args body rest
    | ClassDef _ _ args body rest =>
        Nat.max (list_max (map height args))
          (Nat.max (list_max (map height body)) (list_max (map height rest)))
    | Expr value => height value
    | Constant _ => 0
    | BoolOp op values => Nat.max (height op) (list_max (map height values))
    | Node _ children => list_max (map height children)
    end.

(** An interpreter that carries the visitor through the trees of at most
    [levels] levels (about 500 with the recursion limit 1000 of
    CPython). *)
Definition limited_recursion (levels : nat) (tree : ast) : option exn :=
  if Nat.ltb levels (height tree)
  then Some (mkExn "RecursionError" "maximum recursion depth exceeded")
  else None.

(** A module without docstring whose only statement nests [depth] unary
    operators, one per line: the text, and the tree [ast.parse] gives for
    it. *)
Fixpoint minus_lines (depth : nat) : list string :=
  match depth with
  | O => []
  | S d => "-" :: minus_lines d
  end.

Definition deep_source (depth : nat) : string :=
  unlines (["x = ("] ++ minus_lines depth ++ ["1)"])%list.

Fixpoint nested_minus (depth : nat) : ast :=
  match depth with
  | O => Constant NotStr
  | S d => Node (Other "UnaryOp") [Node (Other "USub") []; nested_minus d]
  end.

Definition deep_tree (depth : nat) : ast :=
  Module [ Node (Other "Assign")
             [ Node (Other "Name") [Node (Other "Store") []];
               nested_minus depth ] ].

Definition failed_test : TestReport :=
  mkTestReport false 1 (1 # 10) false
    ["/usr/bin/python3"; "-I"; "-m"; "unittest"; "discover"; "-v"]
    (Text "") (Text "FAILED (failures=1)").

(** A Python in which the file at every path is [deep_source 600]. *)
Definition deep_read (path : Path) (replace : bool) : result string :=
  Returns (deep_source 600).
Definition deep_parse (source : string) : result ast :=
  Returns (deep_tree 600).

(** [async def drain(queue): async for item in queue: pass] *)
Definition async_loop_function : ast :=
  AsyncFunctionDef "drain" 1
    [ Node (Other "arguments") [Node (Other "arg") []] ]
    [ Node AsyncFor
        [ Node (Other "Name") [Node (Other "Store") []];
          Node (Other "Name") [Node (Other "Load") []];
          Node (Other "Pass") [] ] ]
    [].

(** A file of 200 lines that end in a space, followed by a line that
    starts with a tab and a line that starts with a space. *)
Definition crowded_source : string :=
  unlines (repeat "x = 1 " 200
           ++ [String tab "y = 2"; String space "z = 3"])%list.

(* ================================================================== *)
(** * Statements of the specification that the proofs refer to *)
(* ================================================================== *)

(** What the claim "[syntax_check] never raises" says. *)
Definition syntax_check_never_raises : Prop :=
  forall (py_compile : string -> compile_outcome) (source : string),
  exists r, syntax_check py_compile source = Returns r.


(** The structural count the complexity is meant to be: one, plus what
    every node of the subtree of the function adds. *)
Definition structural_complexity (fn : ast) : nat :=
  1 + list_sum (map increment (subtree fn)).

(** The entry a node contributes to [function_complexities]: one for a
    function definition, none for any other node. *)
Definition own_entry (node : ast) : list ComplexityEntry :=
  match node with
  | FunctionDef name lineno _ _ _ | AsyncFunctionDef name lineno _ _ _ =>
      [mkComplexityEntry name lineno (_complexity_of node)]
  | _ => []
  end.

(** Descending order of complexity. *)
Definition complexity_ge (a b : ComplexityEntry) : Prop :=
  complexity b <= complexity a.

(** The entries of a ranking that have a given complexity, in the order of
    the ranking. *)
Definition with_complexity (c : nat) (entries : list ComplexityEntry)
  : list ComplexityEntry :=
  filter (fun e => Nat.eqb (complexity e) c) entries.

(** The per-line tests of [style_check]. *)
Definition is_long (line : string) : bool :=
  Nat.ltb 100 (String.length (rstrip (String newline EmptyString) line)).

Definition has_trailing_whitespace (line : string) : bool :=
  let raw := rstrip (String newline EmptyString) line in
  negb (String.eqb raw (rstrip spaces_and_tabs raw)).

Definition has_tab (line : string) : bool :=
  contains (String tab EmptyString) line.

Definition starts_with_tab (line : string) : bool :=
  startswith line (String tab EmptyString).

Definition starts_with_space (line : string) : bool :=
  startswith line (String space EmptyString).

(** How many lines pass a test. *)
Definition count_lines (test : string -> bool) (lines : list string) : nat :=
  List.length (filter test lines).

(** An issue that names a line from [first] up to, and without, [last]. *)
Definition names_line_between (first last : nat) (issue : StyleIssue) : Prop :=
  exists j, issue_line issue = Some j /\ first <= j < last.

(** [sub] occurs in [s]: some text, then [sub], then some text. *)
Definition occurs_in (sub s : string) : Prop :=
  exists before after, s = before ++ sub ++ after.

(** What [docstrings_and_naming] looks at in a top-level node: whether it
    defines a function or a class, its name, its line and its docstring. *)
Inductive def_kind : Type := FunctionKind | ClassKind.

Definition header (node : ast)
  : option (def_kind * string * Z * option string) :=
  match node with
  | FunctionDef name lineno _ _ _ | AsyncFunctionDef name lineno _ _ _ =>
      Some (FunctionKind, name, lineno, raw_docstring node)
  | ClassDef name lineno _ _ _ =>
      Some (ClassKind, name, lineno, raw_docstring node)
  | _ => None
  end.

(** The entry of [fn_info] a top-level node gives. *)
Definition function_info (node : ast) : list DefInfo :=
  match node with
  | FunctionDef name lineno _ _ _ | AsyncFunctionDef name lineno _ _ _ =>
      [mkDefInfo name lineno (is_some (raw_docstring node))]
  | _ => []
  end.

(** The entry of [cls_info] a top-level node gives. *)
Definition class_info (node : ast) : list DefInfo :=
  match node with
  | ClassDef name lineno _ _ _ =>
      [mkDefInfo name lineno (is_some (raw_docstring node))]
  | _ => []
  end.

(** The naming issue a top-level node gives. *)
Definition naming_issue_of (node : ast) : list NamingIssue :=
  match node with
  | FunctionDef name lineno _ _ _ | AsyncFunctionDef name lineno _ _ _ =>
      if negb (startswith name "_") && negb (SNAKE_CASE_RE name)
      then [mkNamingIssue "FunctionNameNotSnakeCase" name lineno]
      else []
  | ClassDef name lineno _ _ _ =>
      if negb (startswith name "_") && negb (PASCAL_CASE_RE name)
      then [mkNamingIssue "ClassNameNotPascalCase" name lineno]
      else []
  | _ => []
  end.

(** Every character of a string passes a test. *)
Fixpoint all_chars (test : ascii -> bool) (s : string) : bool :=
  match s with
  | EmptyString => true
  | String c rest => test c && all_chars test rest
  end.

Definition snake_head (c : ascii) : bool := is_lower c || is_underscore c.
Definition snake_tail (c : ascii) : bool :=
  is_lower c || is_digit c || is_underscore c.

(** The two command lines of [run_basic_unit_test]. *)
Definition cmd1 (sys_executable : string) : list string :=
  [sys_executable; "-I"; "-m"; "unittest"; "discover"; "-v"].

Definition cmd2 (sys_executable : string) : list string :=
  [sys_executable; "-m"; "unittest"; "discover"; "-v"].

(** What [TimeoutExpired] carries for a stream is a [bytes] object that
    is not empty. *)
Definition carries_bytes (x : option captured) : bool :=
  match x with
  | Some (Bytes b) => negb (is_empty b)
  | _ => false
  end.

(** Both streams of a run were captured as [str]. *)
Definition captured_as_text (r : RunResult) : Prop :=
  is_text (stderr r) = true /\ is_text (stdout r) = true.

(** The output of a run mentions a word: it occurs in what the standard
    error stream holds, followed by what the standard output holds. *)
Definition mentions (r : RunResult) (word : string) : Prop :=
  occurs_in word (content (stderr r) ++ content (stdout r)).

(** The report [run_basic_unit_test] makes of a run and its command line. *)
Definition report_of (cmd : list string) (rr : RunResult) : TestReport :=
  mkTestReport (ok rr) (returncode rr) (round (seconds rr) 3) (timed_out rr)
    cmd (tail 20000 (stdout rr)) (tail 20000 (stderr rr)).

(** The two shapes of the notes in the summary of [_render_report]. *)
Definition no_issues_line : string :=
  "Notes:" ++ String newline EmptyString
  ++ "  - No major issues detected." ++ String newline EmptyString.

Definition bullet (note : string) : string :=
  "  - " ++ note ++ String newline EmptyString.

(** A file the static checks have nothing to say about: it compiles, has
    no long line, does not mix tabs and spaces at the start of its lines,
    holds none of the risk patterns and, when it is parsed and the visitor
    gets through its tree, has a module docstring, a docstring for every
    top-level function and no naming issue. *)
Definition clean_file (py_compile : string -> compile_outcome)
  (ast_parse : string -> result ast) (recursion_error : ast -> option exn)
  (source : string) : Prop :=
  py_compile source = Compiled
  /\ count_lines is_long (splitlines true source) = 0
  /\ ~ ((exists l, In l (splitlines true source) /\ starts_with_tab l = true)
        /\ (exists l, In l (splitlines true source)
                      /\ starts_with_space l = true))
  /\ (forall key detail, In (key, detail) patterns -> ~ occurs_in key source)
  /\ (forall tree,
        ast_parse source = Returns tree -> recursion_error tree = None ->
        is_some (raw_docstring tree) = true
        /\ missing_docs (flat_map function_info (body_of tree)) = 0
        /\ flat_map naming_issue_of (body_of tree) = []).

(** ["".join(lines)] *)
Definition join (lines : list string) : string :=
  fold_right String.append EmptyString lines.

(** ** The constructs the complexity counts

    The kinds of node the specification names, one test each. *)
Definition is_conditional_branch (n : ast) : bool :=
  match n with Node If _ => true | _ => false end.

(** Every loop statement: [for], [while] and [async for]. *)
Definition is_loop (n : ast) : bool :=
  match n with
  | Node For _ | Node While _ | Node AsyncFor _ => true
  | _ => false
  end.

(** Every exception-handling block: [try] and [try ... except*]. *)
Definition is_exception_block (n : ast) : bool :=
  match n with Node Try _ | Node TryStar _ => true | _ => false end.

Definition is_exception_clause (n : ast) : bool :=
  match n with Node ExceptHandler _ => true | _ => false end.

(** [with] and [async with] *)
Definition is_resource_block (n : ast) : bool :=
  match n with Node With _ | Node AsyncWith _ => true | _ => false end.

Definition is_pattern_match (n : ast) : bool :=
  match n with Node Match _ => true | _ => false end.

(** [max(1, n - 1)] for a boolean combination of [n] operands. *)
Definition boolean_weight (n : ast) : nat :=
  match n with
  | BoolOp _ values => Nat.max 1 (List.length values - 1)
  | _ => 0
  end.

(** How many nodes of a list pass a test. *)
Definition count_nodes (test : ast -> bool) (nodes : list ast) : nat :=
  List.length (filter test nodes).

(** The count of the specification: one, plus one for every conditional
    branch, loop, exception-handling block, exception clause and
    resource-scoping block of the subtree, plus the weight of every boolean
    combination, plus one for every pattern match. *)
Definition claimed_complexity (fn : ast) : nat :=
  let nodes := subtree fn in
  1 + count_nodes is_conditional_branch nodes + count_nodes is_loop nodes
  + count_nodes is_exception_block nodes
  + count_nodes is_exception_clause nodes
  + count_nodes is_resource_block nodes
  + list_sum (map boolean_weight nodes)
  + count_nodes is_pattern_match nodes.

(** The loops and exception-handling blocks without their asynchronous and
    exception-group forms. *)
Definition is_plain_loop (n : ast) : bool :=
  match n with Node For _ | Node While _ => true | _ => false end.

Definition is_plain_exception_block (n : ast) : bool :=
  match n with Node Try _ => true | _ => false end.

Definition is_async_loop (n : ast) : bool :=
  match n with Node AsyncFor _ => true | _ => false end.

Definition is_exception_group_block (n : ast) : bool :=
  match n with Node TryStar _ => true | _ => false end.

(** The same count with the plain loops and the plain exception-handling
    blocks only. *)
Definition counted_complexity (fn : ast) : nat :=
  let nodes := subtree fn in
  1 + count_nodes is_conditional_branch nodes
  + count_nodes is_plain_loop nodes
  + count_nodes is_plain_exception_block nodes
  + count_nodes is_exception_clause nodes
  + count_nodes is_resource_block nodes
  + list_sum (map boolean_weight nodes)
  + count_nodes is_pattern_match nodes.

(** The issues of a style report that name no line. *)
Definition whole_file_issues (r : StyleReport) : list StyleIssue :=
  filter (fun issue => match issue_line issue with
                       | None => true
                       | Some _ => false
                       end)
         (issues r).

(** A function definition with a given name and line. *)
Definition defines_function (node : ast) (name : string) (lineno : Z) : Prop :=
  exists args body rest,
    node = FunctionDef name lineno args body rest
    \/ node = AsyncFunctionDef name lineno args body rest.

(* ================================================================== *)
(** * The window: [ProgramTesterApp] *)
(* ================================================================== *)

Module Gui.

(** The [state] option of a button. *)
Inductive button_state : Type := normal | disabled.

(** The attributes of [ProgramTesterApp] the handlers read and write, the
    [state] of its three buttons and the text of the status label.
    [threads] counts the [threading.Thread] objects started so far,
    [finished] the runs whose last callback has been executed. *)
Record App : Type := mkApp {
  program_path : option Path;
  is_running : bool;
  btn_upload : button_state;
  btn_test : button_state;
  btn_info : button_state;
  status : string;
  threads : nat;
  finished : nat
}.

(** [__init__] and [_build_ui] *)
Definition init : App :=
  mkApp None false normal disabled normal "Ready." 0 0.

(** [_set_running] *)
Definition _set_running (running : bool) (a : App) : App :=
  if running
  then mkApp (program_path a) true disabled disabled disabled "Running..."
         (threads a) (finished a)
  else mkApp (program_path a) false normal
         (match program_path a with Some _ => normal | None => disabled end)
         normal "Ready." (threads a) (finished a).

(** [on_upload]; [fp] is what the file dialog returned, the empty string
    when it was cancelled. *)
Definition on_upload (fp : string) (a : App) : App :=
  if is_empty fp then a
  else mkApp (Some fp) (is_running a) (btn_upload a) normal (btn_info a)
         (status a) (threads a) (finished a).

(** [on_test]; [exists_] is what [self.program_path.exists()] returns.
    The first two branches show an error box or do nothing; the last one
    starts the thread of the checks. *)
Definition on_test (exists_ : bool) (a : App) : App :=
  match program_path a with
  | None => a
  | Some _ =>
      if negb exists_ then a
      else if is_running a then a
      else
        let a' := _set_running true a in
        mkApp (program_path a') (is_running a') (btn_upload a') (btn_test a')
          (btn_info a') (status a') (S (threads a')) (finished a')
  end.

(** The last callback of a run: the end of [_render_report], or the
    second callback of the [except] branch of [_run_checks_thread]; both
    call [_set_running(False)]. *)
Definition run_finished (a : App) : App :=
  let a' := _set_running false a in
  mkApp (program_path a') (is_running a') (btn_upload a') (btn_test a')
    (btn_info a') (status a') (threads a') (S (finished a')).

(** What can happen to the window: a click on one of the buttons (with
    what the file dialog, or the file system, answers), and the end of a
    run. *)
Inductive event : Type :=
| click_upload (fp : string)
| click_test (exists_ : bool)
| click_info
| run_ends.

(** Tk calls the command of a button only when the button is not
    disabled, and the last callback of a run only when a run is under
    way. *)
Definition step (a : App) (ev : event) : App :=
  match ev with
  | click_upload fp =>
      match btn_upload a with normal => on_upload fp a | disabled => a end
  | click_test exists_ =>
      match btn_test a with normal => on_test exists_ a | disabled => a end
  | click_info => a
  | run_ends =>
      if Nat.ltb (finished a) (threads a) then run_finished a else a
  end.

(** The window after a sequence of events. *)
Definition run (events : list event) : App := fold_left step events init.

(** What holds of the window at any time. *)
Definition consistent (a : App) : Prop :=
  threads a = finished a + (if is_running a then 1 else 0)
  /\ (is_running a = true ->
      btn_upload a = disabled /\ btn_test a = disabled
      /\ btn_info a = disabled)
  /\ (is_running a = false ->
      btn_upload a = normal /\ btn_info a = normal
      /\ (btn_test a = normal <-> program_path a <> None)).

End Gui.

(* ================================================================== *)
(** * Properties of the verdict *)
(* ================================================================== *)

Lemma apply_rows_nil (t : Tally) : apply_rows [] t = t.
Proof.
  destruct t as [sc ns]. unfold apply_rows. simpl.
  rewrite app_nil_r. f_equal. lia.
Qed.

Lemma total_deduction_app (r1 r2 : list Row) :
  total_deduction (r1 ++ r2)%list
  = (total_deduction r1 + total_deduction r2)%Z.
Proof.
  induction r1 as [|row r1 IH]; simpl; [reflexivity|].
  rewrite IH. lia.
Qed.

Lemma apply_rows_app (r1 r2 : list Row) (t : Tally) :
  apply_rows r2 (apply_rows r1 t) = apply_rows (r1 ++ r2)%list t.
Proof.
  unfold apply_rows. simpl.
  rewrite total_deduction_app, map_app, app_assoc. f_equal. lia.
Qed.

Lemma deduct_if_rows (cond : bool) (amount : Z) (note : string) (t : Tally) :
  deduct_if cond amount note t = apply_rows (when cond (amount, note)) t.
Proof.
  destruct cond; simpl.
  - unfold deduct, apply_rows, append. simpl. f_equal. lia.
  - symmetry. apply apply_rows_nil.
Qed.

(** The body of [verdict] takes the rows of the table that apply off 100,
    and collects their notes. *)
Lemma tally_rows (s : StaticReport) (t : option TestReport) :
  tally s t = apply_rows (spec_deductions s t) (100%Z, []).
Proof.
  unfold tally, spec_deductions, truthy.
  rewrite !deduct_if_rows, !apply_rows_app.
  set (base := (when _ _ ++ when _ _ ++ when _ _ ++ when _ _)%list).
  assert (Hast :
    match ast_block s with
    | AstOk ds _ _ =>
        deduct_if (negb (Nat.eqb (List.length (naming_issues ds)) 0))
          (Z.min 10 (Z.of_nat (List.length (naming_issues ds))))
          ("Naming convention issues: "
           ++ str_of_nat (List.length (naming_issues ds)) ++ " item(s).")
          (deduct_if (negb (Nat.eqb (missing_function_docstrings ds) 0))
             (Z.min 10 (Z.of_nat (missing_function_docstrings ds)))
             (str_of_nat (missing_function_docstrings ds)
              ++ " function(s) missing docstrings.")
             (deduct_if (negb (module_has_docstring ds)) 5
                "Missing module docstring."
                (apply_rows base (100%Z, []))))
    | AstFailed _ => apply_rows base (100%Z, [])
    end
    = apply_rows (base ++ ast_deductions (ast_block s))%list (100%Z, [])).
  { destruct (ast_block s) as [ds ? ?|?]; simpl.
    - rewrite !deduct_if_rows, !apply_rows_app. reflexivity.
    - rewrite app_nil_r. reflexivity. }
  rewrite Hast. clear Hast.
  destruct t as [r|]; simpl.
  - rewrite !deduct_if_rows, !apply_rows_app.
    unfold base. rewrite <- !app_assoc. reflexivity.
  - rewrite app_nil_r. unfold base. rewrite <- !app_assoc. reflexivity.
Qed.

Lemma when_rows_positive (cond : bool) (row : Row) :
  (1 <= fst row)%Z -> Forall (fun r => (1 <= fst r)%Z) (when cond row).
Proof. destruct cond; simpl; auto. Qed.

Lemma Forall_app_intro {A : Type} (P : A -> Prop) (l1 l2 : list A) :
  Forall P l1 -> Forall P l2 -> Forall P (l1 ++ l2)%list.
Proof. intros H1 H2. apply Forall_app. split; assumption. Qed.

Lemma when_count_positive (n : nat) (row : Row) :
  (n <> 0 -> (1 <= fst row)%Z) ->
  Forall (fun r => (1 <= fst r)%Z) (when (negb (Nat.eqb n 0)) row).
Proof.
  intros H. destruct n as [|n]; simpl; [constructor|].
  constructor; [apply H; discriminate | constructor].
Qed.

(** Every row of the table that applies takes at least one point. *)
Lemma spec_deductions_positive (s : StaticReport) (t : option TestReport) :
  Forall (fun r => (1 <= fst r)%Z) (spec_deductions s t).
Proof.
  assert (Hdiv : forall n : nat, (1 <= Z.min 10 (Z.of_nat n / 10 + 1))%Z).
  { intro n. assert (0 <= Z.of_nat n / 10)%Z by (apply Z.div_pos; lia). lia. }
  unfold spec_deductions.
  apply Forall_app_intro; [apply when_rows_positive; simpl; lia|].
  apply Forall_app_intro; [apply when_rows_positive; simpl; lia|].
  apply Forall_app_intro; [apply when_rows_positive; apply Hdiv|].
  apply Forall_app_intro;
    [apply when_count_positive; unfold row_risky; cbn [fst]; lia|].
  apply Forall_app_intro.
  - unfold ast_deductions. destruct (ast_block s) as [ds ? ?|?]; [|constructor].
    apply Forall_app_intro; [apply when_rows_positive; simpl; lia|].
    apply Forall_app_intro;
      apply when_count_positive; unfold row_function_docs, row_naming;
      cbn [fst]; lia.
  - unfold test_deductions. destruct t as [r|]; [|constructor].
    apply Forall_app_intro; apply when_rows_positive; simpl; lia.
Qed.

Lemma total_deduction_lower (rows : list Row) :
  Forall (fun r => (1 <= fst r)%Z) rows ->
  (Z.of_nat (List.length rows) <= total_deduction rows)%Z.
Proof.
  induction 1 as [|row rows Hrow _ IH]; simpl; [lia|].
  simpl in IH. lia.
Qed.

Lemma verdict_fields (s : StaticReport) (t : option TestReport) :
  score (verdict s t) = Z.max 0 (Z.min 100 (fst (tally s t)))
  /\ level (verdict s t) = level_of (score (verdict s t))
  /\ notes (verdict s t) = snd (tally s t).
Proof.
  unfold verdict. destruct (tally s t) as [sc ns]. simpl. auto.
Qed.

(** The same, written out: 100 less the total of the rows, and their
    notes. *)
Lemma tally_spec (s : StaticReport) (t : option TestReport) :
  tally s t
  = ((100 - total_deduction (spec_deductions s t))%Z,
     map snd (spec_deductions s t)).
Proof. rewrite tally_rows. unfold apply_rows. reflexivity. Qed.

(** C1.  For every static report and optional test report the score of
    the verdict lies between 0 and 100, and the level is the one the four
    thresholds give for that score: Excellent from 90, Good from 75, Fair
    from 55, Poor below. *)
Theorem verdict_score_clamped_level_by_thresholds
  (s : StaticReport) (t : option TestReport) :
  (0 <= score (verdict s t) <= 100)%Z
  /\ ((90 <= score (verdict s t))%Z -> level (verdict s t) = "Excellent")
  /\ ((75 <= score (verdict s t) < 90)%Z -> level (verdict s t) = "Good")
  /\ ((55 <= score (verdict s t) < 75)%Z -> level (verdict s t) = "Fair")
  /\ ((score (verdict s t) < 55)%Z -> level (verdict s t) = "Poor").
Proof.
  destruct (verdict_fields s t) as (Hs & Hl & _).
  rewrite Hl. unfold level_of.
  split; [rewrite Hs; lia|].
  repeat split; intros H.
  - destruct (Z.leb_spec 90 (score (verdict s t))); [reflexivity | lia].
  - destruct (Z.leb_spec 90 (score (verdict s t))); [lia|].
    destruct (Z.leb_spec 75 (score (verdict s t))); [reflexivity | lia].
  - destruct (Z.leb_spec 90 (score (verdict s t))); [lia|].
    destruct (Z.leb_spec 75 (score (verdict s t))); [lia|].
    destruct (Z.leb_spec 55 (score (verdict s t))); [reflexivity | lia].
  - destruct (Z.leb_spec 90 (score (verdict s t))); [lia|].
    destruct (Z.leb_spec 75 (score (verdict s t))); [lia|].
    destruct (Z.leb_spec 55 (score (verdict s t))); [lia | reflexivity].
Qed.

Lemma verdict_score_clamped_level_by_thresholds_witness :
  score (verdict example_report (Some passed_test)) = 100%Z
  /\ level (verdict example_report (Some passed_test)) = "Excellent".
Proof.
  split; [reflexivity|].
  apply (verdict_score_clamped_level_by_thresholds
           example_report (Some passed_test)).
  vm_compute. discriminate.
Defined.

(** C9.  The score of the verdict is 100 exactly when its list of notes is
    empty: the body of [verdict] takes the rows of the table that apply
    off 100 and adds their notes, one per row, every such row takes at
    least one point, and nothing else touches the score or the notes. *)
Theorem verdict_full_score_iff_no_notes
  (s : StaticReport) (t : option TestReport) :
  (score (verdict s t) = 100%Z <-> notes (verdict s t) = [])
  /\ tally s t
     = ((100 - total_deduction (spec_deductions s t))%Z,
        map snd (spec_deductions s t))
  /\ Forall (fun row => (1 <= fst row)%Z) (spec_deductions s t)
  /\ List.length (notes (verdict s t)) = List.length (spec_deductions s t).
Proof.
  destruct (verdict_fields s t) as (Hs & _ & Hn).
  pose proof (tally_spec s t) as Ht.
  pose proof (spec_deductions_positive s t) as Hpos.
  pose proof (total_deduction_lower _ Hpos) as Hlow.
  rewrite Hs, Hn, Ht. cbn [fst snd].
  split; [|split; [reflexivity | split; [exact Hpos | apply length_map]]].
  destruct (spec_deductions s t) as [|row rows]; cbn [map].
  - split; reflexivity.
  - cbn [List.length] in Hlow. split; [lia | discriminate].
Qed.

Lemma same_verdict_inputs_deductions
  (s1 s2 : StaticReport) (t1 t2 : option TestReport) :
  same_verdict_inputs s1 s2 t1 t2 ->
  spec_deductions s1 t1 = spec_deductions s2 t2.
Proof.
  intros (Hsyn & Hmix & Hlong & Hrisk & Hast & Htest).
  assert (Ha : ast_deductions (ast_block s1) = ast_deductions (ast_block s2)).
  { unfold same_ast_facts in Hast. unfold ast_deductions.
    destruct (ast_block s1) as [d1 ? ?|?], (ast_block s2) as [d2 ? ?|?];
      try contradiction; [|reflexivity].
    destruct Hast as (Hm & Hf & Hn). rewrite Hm, Hf, Hn. reflexivity. }
  assert (Hb : test_deductions t1 = test_deductions t2).
  { unfold same_test_facts in Htest. unfold test_deductions.
    destruct t1 as [r1|], t2 as [r2|]; try contradiction; [|reflexivity].
    destruct Htest as (Ho & Hto). rewrite Ho, Hto. reflexivity. }
  unfold spec_deductions. rewrite Hsyn, Hmix, Hlong, Hrisk, Ha, Hb.
  reflexivity.
Qed.

(** C10.  Two inputs of [verdict] that agree on the syntax flag, on the
    mixed-indentation and long-line counters, on the number of risk flags,
    on the state of the tree checks (with the module docstring flag, the
    count of functions without docstring and the number of naming issues)
    and on the presence, success and time-out of the unit test get the same
    score, level and notes: nothing else in the reports (comment density,
    trailing white space, lines with tabs, class docstrings, complexity of
    the functions) influences the verdict. *)
Theorem verdict_depends_only_on_scored_fields
  (s1 s2 : StaticReport) (t1 t2 : option TestReport) :
  same_verdict_inputs s1 s2 t1 t2 ->
  verdict s1 t1 = verdict s2 t2.
Proof.
  intros H. apply same_verdict_inputs_deductions in H.
  unfold verdict. rewrite !tally_rows, H. reflexivity.
Qed.

Lemma verdict_depends_only_on_scored_fields_witness :
  comments example_report <> comments example_report_variant
  /\ verdict example_report (Some passed_test)
     = verdict example_report_variant (Some slower_passed_test).
Proof.
  split; [discriminate|].
  apply (verdict_depends_only_on_scored_fields
           example_report example_report_variant
           (Some passed_test) (Some slower_passed_test)).
  vm_compute. repeat split.
Defined.

(* ================================================================== *)
(** * The sandbox run *)
(* ================================================================== *)

Section Sandbox.

Variable subprocess_run : list string -> Path -> nat -> process_outcome * Q.
Variable stage : Path -> string -> result Path.
Variable sys_executable : string.

(** [safe_run] turns the two outcomes of a child process into a value. *)
Lemma safe_run_timeout (cmd : list string) (cwd : Path) (timeout_sec : nat)
      (out err : option captured) (dt : Q) :
  subprocess_run cmd cwd timeout_sec = (TimeoutExpired out err, dt) ->
  safe_run subprocess_run cmd cwd timeout_sec
  = Returns (mkRunResult false 124 (or_text out "")
               (or_text err "Process timed out.") dt true).
Proof. intros H. unfold safe_run. rewrite H. reflexivity. Qed.

(** A result with [timed_out] set comes from the [except] branch. *)
Lemma safe_run_timed_out (cmd : list string) (cwd : Path) (timeout_sec : nat)
      (r : RunResult) :
  safe_run subprocess_run cmd cwd timeout_sec = Returns r ->
  timed_out r = true ->
  ok r = false /\ returncode r = 124%Z.
Proof.
  unfold safe_run.
  destruct (subprocess_run cmd cwd timeout_sec) as [[rc o e|o e|e] dt];
    intros H; inversion H; subst; simpl; intros Ht;
    [discriminate | auto].
Qed.

(** The test of line 333, [(not r1.ok) and ("ModuleNotFoundError" in
    (r1.stderr + r1.stdout))], on a failed run: it has a value when both
    streams are [str], and raises [TypeError] when one of them is
    [bytes]. *)
Lemma search_of_text (r : RunResult) (word : string) :
  is_text (stderr r) = true -> is_text (stdout r) = true ->
  (both <- concat (stderr r) (stdout r) ;; str_in word both)
  = Returns (contains word (content (stderr r) ++ content (stdout r))).
Proof.
  destruct (stderr r), (stdout r); simpl; intros H1 H2;
    try discriminate; reflexivity.
Qed.

Lemma search_of_bytes (r : RunResult) (word : string) :
  is_text (stderr r) && is_text (stdout r) = false ->
  exists e,
    exn_class e = "TypeError"
    /\ (both <- concat (stderr r) (stdout r) ;; str_in word both) = Raises e.
Proof.
  destruct (stderr r), (stdout r); simpl; intros H;
    try discriminate; eexists; (split; [|reflexivity]); reflexivity.
Qed.

(** What [x or default] keeps of the bytes [TimeoutExpired] carries. *)
Lemma or_text_bytes (x : option captured) (default : string) :
  carries_bytes x = true -> is_text (or_text x default) = false.
Proof.
  destruct x as [[s|b]|]; simpl; try discriminate.
  destruct (is_empty b); simpl; [discriminate | reflexivity].
Qed.

(** A failed first run with a stream of bytes ends [run_basic_unit_test]
    with a [TypeError]. *)
Lemma run_basic_unit_test_type_error (program : Path) (timeout_sec : nat)
      (tdir : Path) (r1 : RunResult) :
  stage program "target_module" = Returns tdir ->
  safe_run subprocess_run
    [sys_executable; "-I"; "-m"; "unittest"; "discover"; "-v"]
    tdir timeout_sec = Returns r1 ->
  ok r1 = false ->
  is_text (stderr r1) && is_text (stdout r1) = false ->
  exists e,
    exn_class e = "TypeError"
    /\ run_basic_unit_test subprocess_run stage sys_executable program
         timeout_sec = Raises e.
Proof.
  intros Hstage Hrun Hok Hbytes.
  destruct (search_of_bytes r1 "ModuleNotFoundError" Hbytes) as (e & Hc & He).
  exists e. split; [exact Hc|].
  unfold run_basic_unit_test. rewrite Hstage. cbn [bind].
  rewrite Hrun. cbn [bind]. rewrite Hok. cbn [negb].
  rewrite He. reflexivity.
Qed.

End Sandbox.

(** The rows of the sandbox run come last. *)
Lemma spec_deductions_split (s : StaticReport) (t : option TestReport) :
  spec_deductions s t
  = (spec_deductions s None ++ test_deductions t)%list.
Proof.
  unfold spec_deductions. cbn [test_deductions].
  rewrite app_nil_r, <- !app_assoc. reflexivity.
Qed.

(** What a failed and timed-out unit test adds to the tally. *)
Lemma tally_timed_out_test (s : StaticReport) (t : TestReport) :
  test_ok t = false ->
  test_timed_out t = true ->
  tally s (Some t)
  = ((fst (tally s None) - 50)%Z,
     (snd (tally s None)
      ++ ["Unit test failed (or crashed)."; "Unit test timed out."])%list).
Proof.
  intros Hok Hto. rewrite !tally_spec. cbn [fst snd].
  rewrite (spec_deductions_split s (Some t)), total_deduction_app, map_app.
  unfold test_deductions. rewrite Hok, Hto.
  cbn [negb when app]. unfold row_failed, row_timed_out.
  cbn [total_deduction fold_right fst map snd].
  f_equal. lia.
Qed.

(** C7 (a defect of the code).  When the child process runs past the
    timeout and [TimeoutExpired] carries bytes for one of the two streams,
    as it does on POSIX as soon as the child has written anything,
    [safe_run] still returns a result with [ok = False],
    [returncode = 124] and [timed_out = True], but the streams of this
    result are not both [str]: the test of line 333 of
    [run_basic_unit_test] raises [TypeError], no report of the unit test is
    made, and the pipeline ends with this exception instead of a verdict,
    so that nothing is taken off a score. *)
Theorem timed_out_run_with_bytes_raises_type_error
  (subprocess_run : list string -> Path -> nat -> process_outcome * Q)
  (stage : Path -> string -> result Path) (sys_executable : string)
  (program tdir : Path) (out err : option captured) (dt : Q) :
  stage program "target_module" = Returns tdir ->
  subprocess_run (cmd1 sys_executable) tdir 20
  = (TimeoutExpired out err, dt) ->
  carries_bytes out || carries_bytes err = true ->
  (exists r1,
      safe_run subprocess_run (cmd1 sys_executable) tdir 20 = Returns r1
      /\ ok r1 = false /\ returncode r1 = 124%Z /\ timed_out r1 = true
      /\ ~ captured_as_text r1)
  /\ exists e,
      exn_class e = "TypeError"
      /\ run_basic_unit_test subprocess_run stage sys_executable program 20
         = Raises e
      /\ forall py_compile ast_parse recursion_error cleandoc generate_tokens
                path_read_text source,
          read_text path_read_text program = Returns source ->
          py_compile source = Compiled ->
          _run_checks_thread py_compile ast_parse recursion_error cleandoc
            generate_tokens path_read_text subprocess_run stage
            sys_executable program
          = Raises e.
Proof.
  intros Hstage Hsub Hbytes.
  pose proof (safe_run_timeout subprocess_run _ _ _ _ _ _ Hsub) as Hrun.
  set (r1 := mkRunResult false 124 (or_text out "")
               (or_text err "Process timed out.") dt true) in *.
  assert (Hmixed : is_text (stderr r1) && is_text (stdout r1) = false).
  { cbn [r1 stderr stdout].
    apply orb_true_iff in Hbytes. destruct Hbytes as [H|H].
    - rewrite (or_text_bytes _ "" H). apply andb_false_r.
    - rewrite (or_text_bytes _ "Process timed out." H). reflexivity. }
  split.
  - exists r1. split; [exact Hrun|]. repeat split.
    intros [H1 H2]. rewrite H1, H2 in Hmixed. discriminate.
  - destruct (run_basic_unit_test_type_error subprocess_run stage
                sys_executable program 20 tdir r1 Hstage Hrun eq_refl Hmixed)
      as (e & Hclass & Hraise).
    exists e. split; [exact Hclass|]. split; [exact Hraise|].
    intros py_compile ast_parse recursion_error cleandoc generate_tokens
           path_read_text source Hread Hcompiled.
    unfold _run_checks_thread, static_analysis.
    rewrite Hread. cbn [bind].
    unfold syntax_check. rewrite Hcompiled. cbn [bind syn_ok syntax].
    rewrite Hraise. reflexivity.
Qed.

Lemma timed_out_run_with_bytes_raises_type_error_witness :
  run_basic_unit_test posix_hanging_subprocess example_stage
    example_executable "prog.py" 20
  = Raises (mkExn "TypeError" "can't concat str to bytes")
  /\ _run_checks_thread example_compile example_parse example_recursion
       example_cleandoc example_tokens example_read posix_hanging_subprocess
       example_stage example_executable "prog.py"
     = Raises (mkExn "TypeError" "can't concat str to bytes").
Proof.
  destruct (timed_out_run_with_bytes_raises_type_error
              posix_hanging_subprocess example_stage example_executable
              "prog.py" "/tmp/program_tester_0" None
              (Some (Bytes started_test)) (20 # 1)
              eq_refl eq_refl eq_refl)
    as (_ & e & _ & Hraise & Hpipeline).
  assert (He : e = mkExn "TypeError" "can't concat str to bytes").
  { vm_compute in Hraise. inversion Hraise. reflexivity. }
  subst e. split.
  - exact Hraise.
  - exact (Hpipeline example_compile example_parse example_recursion
             example_cleandoc example_tokens example_read example_source
             eq_refl eq_refl).
Defined.

(* ================================================================== *)
(** * The syntax check and the gate on the sandbox run *)
(* ================================================================== *)

(** C3, as stated, fails: [syntax_check] catches [SyntaxError] only, and
    [compile] raises [ValueError] for a source with a null character
    (before Python 3.12); the exception leaves [syntax_check]. *)
Lemma syntax_check_raises_on_null_character :
  syntax_check (null_checking_compile example_compile) null_source
  = Raises null_error
  /\ ~ syntax_check_never_raises.
Proof.
  split; [reflexivity|].
  intros H.
  destruct (H (null_checking_compile example_compile) null_source) as [r Hr].
  vm_compute in Hr. discriminate.
Qed.

(** C3, amended.  [syntax_check] returns [{ok: True, error: None}] when
    [compile] succeeds; when [compile] raises [SyntaxError] it returns
    [{ok: False}] with an error record that holds the line number, the
    offset, the text of the line (without its final newlines, empty when
    there is none) and the message of the exception; every other exception
    of [compile] leaves [syntax_check]. *)
Theorem syntax_check_outcomes
  (py_compile : string -> compile_outcome) (source : string) :
  (py_compile source = Compiled ->
   syntax_check py_compile source = Returns (mkSyntaxResult true None))
  /\ (forall e, py_compile source = RaisesSyntaxError e ->
        exists info,
          syntax_check py_compile source
          = Returns (mkSyntaxResult false (Some info))
          /\ err_type info = "SyntaxError"
          /\ err_msg info = se_str e
          /\ err_lineno info = se_lineno e
          /\ err_offset info = se_offset e
          /\ err_text info
             = rstrip (String newline EmptyString)
                 (or_default (se_text e) ""))
  /\ (forall e, py_compile source = RaisesOther e ->
        syntax_check py_compile source = Raises e).
Proof.
  unfold syntax_check. repeat split.
  - intros H. rewrite H. reflexivity.
  - intros e H. rewrite H. eexists. split; [reflexivity|]. simpl. auto.
  - intros e H. rewrite H. reflexivity.
Qed.

Lemma syntax_check_outcomes_witness :
  exists info,
    syntax_check rejecting_compile broken_source
    = Returns (mkSyntaxResult false (Some info))
    /\ err_lineno info = Some 1%Z
    /\ err_offset info = Some 10%Z
    /\ err_text info = "def twice(x:".
Proof.
  destruct (syntax_check_outcomes rejecting_compile broken_source)
    as (_ & Hsyn & _).
  destruct (Hsyn broken_error eq_refl)
    as (info & Hret & _ & _ & Hline & Hoff & Htext).
  exists info. repeat split; assumption.
Defined.

(** The two shapes of what [syntax_check] returns. *)
Lemma syntax_check_shape
  (py_compile : string -> compile_outcome) (source : string)
  (syn : SyntaxResult) :
  syntax_check py_compile source = Returns syn ->
  (syn_ok syn = true /\ syn_error syn = None
   /\ py_compile source = Compiled)
  \/ (syn_ok syn = false /\ syn_error syn <> None
      /\ exists e, py_compile source = RaisesSyntaxError e).
Proof.
  unfold syntax_check. destruct (py_compile source) as [|e|e]; intros H;
    inversion H; subst; simpl.
  - left. auto.
  - right. repeat split; [discriminate | eauto].
Qed.

(** A syntax error leaves at most 20 points. *)
Lemma verdict_syntax_error_score (s : StaticReport) (t : option TestReport) :
  syn_ok (syntax s) = false -> (score (verdict s t) <= 20)%Z.
Proof.
  intros Hsyn.
  destruct (verdict_fields s t) as (Hs & _ & _).
  pose proof (spec_deductions_positive s t) as Hpos.
  rewrite Hs, tally_spec. cbn [fst].
  unfold spec_deductions in *. rewrite Hsyn in *.
  cbn [negb when app] in *.
  inversion Hpos as [|row rows _ Hrest]; subst.
  apply total_deduction_lower in Hrest.
  unfold row_syntax. cbn [total_deduction fold_right fst].
  fold (total_deduction
          (when (negb (Nat.eqb (mixed_indentation (counts (style s))) 0))
             row_mixed
           ++ when (negb (Nat.eqb (long_lines_gt_100 (counts (style s))) 0))
                (row_long_lines (long_lines_gt_100 (counts (style s))))
           ++ when (negb (Nat.eqb (List.length (flags (risky s))) 0))
                (row_risky (List.length (flags (risky s))))
           ++ ast_deductions (ast_block s) ++ test_deductions t)%list).
  lia.
Qed.

Section Gate.

Variable py_compile : string -> compile_outcome.
Variable ast_parse : string -> result ast.
Variable recursion_error : ast -> option exn.
Variable cleandoc : string -> string.
Variable generate_tokens : string -> result (list (token_type * string)).
Variable path_read_text : Path -> bool -> result string.
Variable subprocess_run : list string -> Path -> nat -> process_outcome * Q.
Variable stage : Path -> string -> result Path.
Variable sys_executable : string.

Let analysis :=
  static_analysis py_compile ast_parse recursion_error cleandoc
    generate_tokens path_read_text.
Let checks :=
  _run_checks_thread py_compile ast_parse recursion_error cleandoc
    generate_tokens path_read_text subprocess_run stage sys_executable.

(** The [syntax] entry of the report is what [syntax_check] returned for
    the text of the file. *)
Lemma static_analysis_syntax (program : Path) (s : StaticReport) :
  analysis program = Returns s ->
  exists source,
    read_text path_read_text program = Returns source
    /\ syntax_check py_compile source = Returns (syntax s)
    /\ style s = style_check source
    /\ risky s = risky_patterns source.
Proof.
  unfold analysis, static_analysis.
  destruct (read_text path_read_text program) as [source|e]; simpl;
    [|discriminate].
  destruct (syntax_check py_compile source) as [syn|e] eqn:Hsyn; simpl;
    [|discriminate].
  intros H; inversion H; subst; simpl.
  exists source. repeat split. exact Hsyn.
Qed.

(** A file with a syntax error is analysed without an exception. *)
Lemma static_analysis_syntax_error (program : Path) (source : string)
      (e : SyntaxError) :
  read_text path_read_text program = Returns source ->
  py_compile source = RaisesSyntaxError e ->
  exists s,
    analysis program = Returns s
    /\ syn_ok (syntax s) = false
    /\ ast_block s = AstFailed "Skipped due to syntax error.".
Proof.
  intros Hread Hc. unfold analysis, static_analysis, syntax_check.
  rewrite Hread. simpl. rewrite Hc. simpl.
  eexists. split; [reflexivity|]. simpl. auto.
Qed.

(** The thread runs the unit test exactly when the syntax is valid. *)
Lemma run_checks_gate (program : Path) (s : StaticReport)
      (t : option TestReport) (v : Verdict) :
  checks program = Returns (s, t, v) ->
  analysis program = Returns s
  /\ v = verdict s t
  /\ (if syn_ok (syntax s)
      then exists r,
             run_basic_unit_test subprocess_run stage sys_executable
               program 20 = Returns r /\ t = Some r
      else t = None).
Proof.
  unfold checks, _run_checks_thread, analysis.
  destruct (static_analysis _ _ _ _ _ _ program) as [s'|e]; simpl;
    [|discriminate].
  destruct (syn_ok (syntax s')) eqn:Hok; simpl.
  - destruct (run_basic_unit_test _ _ _ program 20) as [r|e]; simpl;
      [|discriminate].
    intros H; inversion H; subst. rewrite Hok. eauto.
  - intros H; inversion H; subst. rewrite Hok. auto.
Qed.


End Gate.


(* ================================================================== *)
(** * The walk over the syntax tree and the complexity count *)
(* ================================================================== *)

Lemma list_sum_cons (x : nat) (l : list nat) :
  list_sum (x :: l) = x + list_sum l.
Proof. reflexivity. Qed.

Lemma size_children (node : ast) :
  size node = S (list_sum (map size (iter_child_nodes node))).
Proof.
  destruct node; cbn [size iter_child_nodes];
    rewrite ?map_app, ?list_sum_app; cbn [map]; unfold list_sum;
    cbn [fold_right]; lia.
Qed.

Lemma subtree_children (node : ast) :
  subtree node = node :: flat_map subtree (iter_child_nodes node).
Proof.
  destruct node; simpl; rewrite ?flat_map_app, ?app_nil_r; reflexivity.
Qed.

Lemma size_child_lt (node child : ast) :
  In child (iter_child_nodes node) -> size child < size node.
Proof.
  intros Hin. rewrite (size_children node).
  apply in_split in Hin. destruct Hin as (l1 & l2 & ->).
  rewrite map_app, list_sum_app. simpl. lia.
Qed.

(** Induction on trees: a property that holds for a node whenever it holds
    for its children holds for every node. *)
Lemma ast_children_ind (P : ast -> Prop) :
  (forall node, Forall P (iter_child_nodes node) -> P node) ->
  forall node, P node.
Proof.
  intros Hstep.
  assert (H : forall k node, size node <= k -> P node).
  { induction k as [|k IH]; intros node Hk.
    - destruct node; simpl in Hk; lia.
    - apply Hstep. apply Forall_forall. intros child Hin.
      apply IH. apply size_child_lt in Hin. lia. }
  intros node. apply (H (size node)). lia.
Qed.

Lemma length_subtree (node : ast) : List.length (subtree node) = size node.
Proof.
  induction node as [node IH] using ast_children_ind.
  rewrite subtree_children, size_children. simpl. f_equal.
  induction (iter_child_nodes node) as [|c cs IHcs]; simpl; [reflexivity|].
  inversion IH as [|? ? Hc Hcs]; subst.
  rewrite length_app, Hc, IHcs by assumption. reflexivity.
Qed.

(** With enough fuel the loop of [ast.walk] yields the nodes of the
    subtrees of the queue, each node once. *)
Lemma walk_loop_enough (fuel : nat) :
  forall todo,
    list_sum (map size todo) <= fuel ->
    Permutation (walk_loop fuel todo) (flat_map subtree todo).
Proof.
  induction fuel as [|fuel IH]; intros todo Hfuel.
  - destruct todo as [|node todo]; [constructor|].
    simpl in Hfuel. destruct node; simpl in Hfuel; lia.
  - destruct todo as [|node todo]; [constructor|].
    cbn [walk_loop flat_map].
    rewrite (subtree_children node). cbn [app]. constructor.
    etransitivity.
    + apply IH. rewrite map_app, list_sum_app.
      cbn [map] in Hfuel.
      rewrite list_sum_cons, (size_children node) in Hfuel. lia.
    + rewrite flat_map_app. apply Permutation_app_comm.
Qed.

(** More fuel than the queue needs changes nothing: the loop has ended. *)
Lemma walk_loop_more_fuel (fuel : nat) :
  forall extra todo,
    list_sum (map size todo) <= fuel ->
    walk_loop (fuel + extra) todo = walk_loop fuel todo.
Proof.
  induction fuel as [|fuel IH]; intros extra todo Hfuel.
  - destruct todo as [|node todo].
    + destruct extra; reflexivity.
    + simpl in Hfuel. destruct node; simpl in Hfuel; lia.
  - destruct todo as [|node todo]; [reflexivity|].
    cbn [walk_loop Nat.add]. f_equal. apply IH.
    rewrite map_app, list_sum_app.
    cbn [map] in Hfuel.
    rewrite list_sum_cons, (size_children node) in Hfuel. lia.
Qed.

Lemma fold_left_sum {A : Type} (f : A -> nat) (l : list A) (start : nat) :
  fold_left (fun inc n => inc + f n) l start = start + list_sum (map f l).
Proof.
  revert start. induction l as [|x l IH]; intros start; simpl; [lia|].
  rewrite IH. lia.
Qed.

Lemma list_sum_permutation (l1 l2 : list nat) :
  Permutation l1 l2 -> list_sum l1 = list_sum l2.
Proof. induction 1; simpl; lia. Qed.

(** [ast.walk] ends and yields every node of the tree below its argument
    exactly once: its output is a rearrangement of the nodes of the
    subtree, as many as the tree has nodes, and more iterations of its loop
    would yield nothing more. *)
Lemma walk_yields_each_node_once (node : ast) :
  Permutation (walk node) (subtree node)
  /\ List.length (walk node) = size node
  /\ forall extra, walk_loop (size node + extra) [node] = walk node.
Proof.
  assert (Hperm : Permutation (walk node) (subtree node)).
  { unfold walk. etransitivity.
    - apply walk_loop_enough. cbn [map]. rewrite list_sum_cons. simpl. lia.
    - cbn [flat_map]. rewrite app_nil_r. reflexivity. }
  split; [exact Hperm|]. split.
  - rewrite (Permutation_length Hperm). apply length_subtree.
  - intros extra. unfold walk. apply walk_loop_more_fuel.
    cbn [map]. rewrite list_sum_cons. simpl. lia.
Qed.

(** The loop of [_complexity_of] adds up what the nodes of the subtree
    contribute. *)
Lemma complexity_of_structural (fn : ast) :
  _complexity_of fn = structural_complexity fn.
Proof.
  unfold _complexity_of, structural_complexity.
  rewrite fold_left_sum. cbn [Nat.add].
  destruct (walk_yields_each_node_once fn) as (Hperm & _).
  rewrite (list_sum_permutation _ _ (Permutation_map increment Hperm)).
  reflexivity.
Qed.

(** X1.  The complexity [_complexity_of] reports for a node is one plus
    the sum, over all nodes of its subtree (nested function definitions
    included), of 1 for [If], [For], [While], [With], [AsyncWith], [Try],
    [ExceptHandler] and [Match] and of [max(1, len(values) - 1)] for
    [BoolOp]; so it is never below 1, and it is 1 for a function without
    any of these nodes. *)
Theorem complexity_is_structural_count (fn : ast) :
  _complexity_of fn = structural_complexity fn
  /\ 1 <= _complexity_of fn
  /\ (Forall (fun n => increment n = 0) (subtree fn) ->
      _complexity_of fn = 1).
Proof.
  rewrite complexity_of_structural. unfold structural_complexity.
  split; [reflexivity|]. split; [lia|].
  intros Hall. induction (subtree fn) as [|n l IH]; [reflexivity|].
  inversion Hall as [|? ? Hn Hl]; subst.
  cbn [map]. rewrite list_sum_cons, Hn. apply IH. exact Hl.
Qed.

Lemma complexity_is_structural_count_witness :
  _complexity_of (FunctionDef "twice" 2 [] [Node (Other "Return") []] []) = 1.
Proof.
  apply (complexity_is_structural_count
           (FunctionDef "twice" 2 [] [Node (Other "Return") []] [])).
  repeat constructor.
Defined.

(** A node of a subtree brings its whole subtree along. *)
Lemma subtree_contains_subtree (outer : ast) :
  forall inner,
    In inner (subtree outer) ->
    exists before after,
      subtree outer = (before ++ subtree inner ++ after)%list.
Proof.
  induction outer as [outer IH] using ast_children_ind.
  intros inner Hin. rewrite (subtree_children outer) in Hin.
  destruct Hin as [<- | Hin].
  - exists [], []. rewrite app_nil_r. reflexivity.
  - apply in_flat_map in Hin. destruct Hin as (child & Hchild & Hin).
    rewrite Forall_forall in IH.
    destruct (IH child Hchild inner Hin) as (b & a & Hsub).
    apply in_split in Hchild. destruct Hchild as (l1 & l2 & Hsplit).
    rewrite (subtree_children outer), Hsplit, flat_map_app.
    cbn [flat_map]. rewrite Hsub.
    exists (outer :: flat_map subtree l1 ++ b)%list,
           (a ++ flat_map subtree l2)%list.
    cbn [app]. rewrite <- !app_assoc. reflexivity.
Qed.

(** X2.  The control flow inside a nested function definition counts for
    the enclosing function too: a function is at least as complex as any
    function (or any other node) nested in it. *)
Theorem nested_complexity_counts_for_enclosing (outer inner : ast) :
  In inner (subtree outer) ->
  _complexity_of inner <= _complexity_of outer.
Proof.
  intros Hin.
  rewrite !complexity_of_structural.
  unfold structural_complexity.
  destruct (subtree_contains_subtree outer inner Hin) as (b & a & ->).
  rewrite !map_app, !list_sum_app. lia.
Qed.

Lemma nested_complexity_counts_for_enclosing_witness :
  _complexity_of example_inner = 4 /\ _complexity_of example_outer = 5
  /\ _complexity_of example_inner <= _complexity_of example_outer.
Proof.
  split; [reflexivity|]. split; [reflexivity|].
  apply (nested_complexity_counts_for_enclosing example_outer example_inner).
  simpl. auto.
Defined.

(* ================================================================== *)
(** * The visitor and the ranking of the functions *)
(* ================================================================== *)

Lemma traverse_children (node : ast) (acc : list ComplexityEntry) :
  traverse node acc
  = fold_left (fun acc n => traverse n acc) (iter_child_nodes node)
      (acc ++ own_entry node)%list.
Proof.
  destruct node; cbn [traverse iter_child_nodes own_entry append];
    rewrite ?fold_left_app, ?app_nil_r; reflexivity.
Qed.

Lemma traverse_all_entries (nodes : list ast) :
  Forall (fun n => forall acc,
            traverse n acc = (acc ++ flat_map own_entry (subtree n))%list)
         nodes ->
  forall acc,
    fold_left (fun acc n => traverse n acc) nodes acc
    = (acc ++ flat_map own_entry (flat_map subtree nodes))%list.
Proof.
  induction 1 as [|n nodes Hn _ IH]; intros acc; cbn [fold_left flat_map].
  - rewrite app_nil_r. reflexivity.
  - rewrite Hn, IH, flat_map_app, app_assoc. reflexivity.
Qed.

Lemma traverse_entries (node : ast) :
  forall acc,
    traverse node acc = (acc ++ flat_map own_entry (subtree node))%list.
Proof.
  induction node as [node IH] using ast_children_ind. intros acc.
  rewrite traverse_children, (traverse_all_entries _ IH),
    (subtree_children node).
  cbn [flat_map]. rewrite <- app_assoc. reflexivity.
Qed.

(** The two outcomes of [cv.visit(tree)]. *)
Lemma visit_outcome (recursion_error : ast -> option exn) (tree : ast) :
  visit recursion_error tree
  = match recursion_error tree with
    | Some e => Raises e
    | None => Returns (flat_map own_entry (subtree tree))
    end.
Proof.
  unfold visit. destruct (recursion_error tree); [reflexivity|].
  rewrite traverse_entries. reflexivity.
Qed.

Lemma visit_returns (recursion_error : ast -> option exn) (tree : ast)
      (entries : list ComplexityEntry) :
  visit recursion_error tree = Returns entries ->
  recursion_error tree = None
  /\ entries = flat_map own_entry (subtree tree).
Proof.
  rewrite visit_outcome. destruct (recursion_error tree); [discriminate|].
  intros H. inversion H. auto.
Qed.

(** The entries of the function definitions of a tree. *)
Lemma own_entries_spec (tree : ast) (name : string) (lineno : Z) (c : nat) :
  In (mkComplexityEntry name lineno c) (flat_map own_entry (subtree tree)) <->
  exists fn,
    In fn (subtree tree)
    /\ c = _complexity_of fn
    /\ exists args body rest,
         fn = FunctionDef name lineno args body rest
         \/ fn = AsyncFunctionDef name lineno args body rest.
Proof.
  rewrite in_flat_map. split.
  - intros (fn & Hin & Hown). exists fn. split; [exact Hin|].
    destruct fn; cbn [own_entry In] in Hown; try contradiction;
      destruct Hown as [Heq|[]]; inversion Heq; subst;
      (split; [reflexivity|]); do 3 eexists; eauto.
  - intros (fn & Hin & -> & args & body & rest & [-> | ->]);
      eexists; (split; [exact Hin|]); cbn [own_entry In]; auto.
Qed.

(** X3.  [cv.visit(tree)] on a new visitor ends in one of two ways.  When
    the interpreter carries the recursion through, the visitor has
    recorded one entry for every function definition of the tree,
    synchronous or asynchronous, methods and nested functions included,
    and for no other node; the entries come in the order in which the
    definitions are met going down the tree, parents first, and each holds
    the name, the line and the complexity of its function.  When the tree
    is nested too deeply for the recursion limit, the call raises the
    interpreter's [RecursionError]. *)
Theorem visitor_records_every_function
  (recursion_error : ast -> option exn) (tree : ast) :
  match recursion_error tree with
  | None =>
      visit recursion_error tree
      = Returns (flat_map own_entry (subtree tree))
  | Some e => visit recursion_error tree = Raises e
  end
  /\ forall entries,
       visit recursion_error tree = Returns entries ->
       recursion_error tree = None
       /\ entries = flat_map own_entry (subtree tree)
       /\ forall name lineno c,
            In (mkComplexityEntry name lineno c) entries <->
            exists fn,
              In fn (subtree tree)
              /\ c = _complexity_of fn
              /\ exists args body rest,
                   fn = FunctionDef name lineno args body rest
                   \/ fn = AsyncFunctionDef name lineno args body rest.
Proof.
  split.
  - rewrite visit_outcome. destruct (recursion_error tree); reflexivity.
  - intros entries H. destruct (visit_returns _ _ _ H) as [Hnone ->].
    split; [exact Hnone|]. split; [reflexivity|].
    intros name lineno c. apply own_entries_spec.
Qed.

Lemma visitor_records_every_function_witness :
  visit (limited_recursion 100) example_tree
  = Returns [mkComplexityEntry "twice" 2 1]
  /\ (exists fn,
         In fn (subtree example_tree)
         /\ 1 = _complexity_of fn
         /\ exists args body rest,
              fn = FunctionDef "twice" 2 args body rest
              \/ fn = AsyncFunctionDef "twice" 2 args body rest)
  /\ visit (limited_recursion 100) (deep_tree 200)
     = Raises (mkExn "RecursionError" "maximum recursion depth exceeded").
Proof.
  destruct (visitor_records_every_function (limited_recursion 100)
              example_tree) as [_ H].
  destruct (H [mkComplexityEntry "twice" 2 1]) as (_ & _ & Hin);
    [vm_compute; reflexivity|].
  split; [vm_compute; reflexivity|]. split.
  - apply Hin. left. reflexivity.
  - vm_compute. reflexivity.
Defined.

Lemma insert_desc_permutation (x : ComplexityEntry) (sorted : list _) :
  Permutation (insert_desc x sorted) (x :: sorted).
Proof.
  induction sorted as [|y rest IH]; cbn [insert_desc]; [reflexivity|].
  destruct (Nat.ltb (complexity x) (complexity y)); [|reflexivity].
  rewrite IH. apply perm_swap.
Qed.

Lemma insert_desc_head (x : ComplexityEntry) (sorted : list _)
      (z : ComplexityEntry) :
  complexity_ge z x ->
  HdRel complexity_ge z sorted ->
  HdRel complexity_ge z (insert_desc x sorted).
Proof.
  intros Hx Hs. destruct sorted as [|y rest]; cbn [insert_desc].
  - constructor. exact Hx.
  - destruct (Nat.ltb (complexity x) (complexity y)); constructor;
      [inversion Hs; assumption | exact Hx].
Qed.

Lemma insert_desc_sorted (x : ComplexityEntry) (sorted : list _) :
  Sorted complexity_ge sorted ->
  Sorted complexity_ge (insert_desc x sorted).
Proof.
  induction 1 as [|y rest Hrest IH Hhd]; cbn [insert_desc].
  - repeat constructor.
  - destruct (Nat.ltb_spec (complexity x) (complexity y)) as [Hlt|Hge].
    + constructor; [exact IH|].
      apply insert_desc_head; [unfold complexity_ge; lia | exact Hhd].
    + constructor; [constructor; assumption|].
      constructor. unfold complexity_ge. lia.
Qed.

Lemma insert_desc_stable (c : nat) (x : ComplexityEntry) (sorted : list _) :
  with_complexity c (insert_desc x sorted)
  = with_complexity c (x :: sorted).
Proof.
  unfold with_complexity.
  induction sorted as [|y rest IH]; cbn [insert_desc]; [reflexivity|].
  destruct (Nat.ltb_spec (complexity x) (complexity y)) as [Hlt|Hge];
    [|reflexivity].
  cbn [filter] in *. rewrite IH.
  destruct (Nat.eqb_spec (complexity x) c) as [Hx|Hx];
    destruct (Nat.eqb_spec (complexity y) c) as [Hy|Hy];
    try reflexivity; lia.
Qed.

Lemma sorted_desc_permutation (comps : list ComplexityEntry) :
  Permutation (sorted_desc comps) comps.
Proof.
  unfold sorted_desc.
  induction comps as [|x comps IH]; cbn [fold_right]; [constructor|].
  rewrite insert_desc_permutation. constructor. exact IH.
Qed.

Lemma sorted_desc_sorted (comps : list ComplexityEntry) :
  Sorted complexity_ge (sorted_desc comps).
Proof.
  unfold sorted_desc.
  induction comps as [|x comps IH]; cbn [fold_right]; [constructor|].
  apply insert_desc_sorted. exact IH.
Qed.

(** X4.  The ranking [sorted(comps, key=complexity, reverse=True)] keeps
    every entry, puts the entries in descending order of complexity, and
    leaves entries of equal complexity in the order they had. *)
Theorem ranking_is_a_stable_descending_sort (comps : list ComplexityEntry) :
  Permutation (sorted_desc comps) comps
  /\ Sorted complexity_ge (sorted_desc comps)
  /\ forall c, with_complexity c (sorted_desc comps) = with_complexity c comps.
Proof.
  split; [apply sorted_desc_permutation|].
  split; [apply sorted_desc_sorted|].
  intros c. unfold sorted_desc.
  induction comps as [|x comps IH]; cbn [fold_right]; [reflexivity|].
  rewrite insert_desc_stable. unfold with_complexity in *.
  cbn [filter]. rewrite IH. reflexivity.
Qed.

(* ================================================================== *)
(** * The style scan *)
(* ================================================================== *)

Lemma count_lines_cons (test : string -> bool) (line : string)
      (lines : list string) :
  count_lines test (line :: lines)
  = (if test line then 1 else 0) + count_lines test lines.
Proof. unfold count_lines. cbn [filter]. destruct (test line); reflexivity. Qed.

Lemma count_lines_le (test : string -> bool) (lines : list string) :
  count_lines test lines <= List.length lines.
Proof. unfold count_lines. apply filter_length_le. Qed.

(** What the loop of [style_check] has done when it ends. *)
Lemma style_loop_spec (lines : list string) :
  forall i st,
    let st' := style_loop i lines st in
    scan_long st' = scan_long st + count_lines is_long lines
    /\ scan_trailing st'
       = scan_trailing st + count_lines has_trailing_whitespace lines
    /\ scan_tabs st' = scan_tabs st + count_lines has_tab lines
    /\ has_tab_indent st'
       = has_tab_indent st || existsb starts_with_tab lines
    /\ has_space_indent st'
       = has_space_indent st || existsb starts_with_space lines
    /\ exists new,
         scan_issues st' = (scan_issues st ++ new)%list
         /\ List.length new
            = count_lines is_long lines
              + count_lines has_trailing_whitespace lines
         /\ Forall (names_line_between i (i + List.length lines)) new.
Proof.
  induction lines as [|line lines IH]; intros i st; cbn [style_loop].
  - cbn zeta. unfold count_lines. cbn [filter List.length existsb].
    rewrite !Nat.add_0_r, !orb_false_r. repeat split.
    exists []. rewrite app_nil_r. repeat split. constructor.
  - destruct (IH (S i) (style_line i line st))
      as (Hl & Ht & Hb & Hti & Hsi & new & Hnew & Hlen & Hall).
    cbn zeta. rewrite Hl, Ht, Hb, Hti, Hsi, !count_lines_cons.
    cbn [existsb].
    unfold style_line at 1 2 3 4 5.
    cbn [scan_long scan_trailing scan_tabs has_tab_indent has_space_indent].
    fold (is_long line). fold (has_trailing_whitespace line).
    fold (has_tab line). fold (starts_with_tab line).
    fold (starts_with_space line).
    repeat split.
    + destruct (is_long line); lia.
    + destruct (has_trailing_whitespace line); lia.
    + destruct (has_tab line); lia.
    + destruct (starts_with_tab line), (has_tab_indent st); reflexivity.
    + destruct (starts_with_space line), (has_space_indent st); reflexivity.
    + rewrite Hnew. unfold style_line. cbn [scan_issues].
      fold (is_long line). fold (has_trailing_whitespace line).
      assert (Hmono : Forall (names_line_between i
                                (i + List.length (line :: lines))) new).
      { eapply Forall_impl; [|exact Hall].
        intros iss (j & Hj & Hr). exists j. cbn [List.length].
        split; [exact Hj | lia]. }
      assert (Hi : forall ty de,
                 names_line_between i (i + List.length (line :: lines))
                   (mkStyleIssue (Some i) ty de)).
      { intros ty de. exists i. cbn [issue_line List.length].
        split; [reflexivity | lia]. }
      unfold append.
      destruct (is_long line), (has_trailing_whitespace line);
        rewrite <- ?app_assoc; eexists; (split; [reflexivity|]);
        cbn [app List.length]; (split; [lia|]);
        repeat (constructor; [apply Hi|]); exact Hmono.
Qed.

Lemma existsb_true_iff (test : string -> bool) (lines : list string) :
  existsb test lines = true <-> exists l, In l lines /\ test l = true.
Proof. apply existsb_exists. Qed.

Lemma mixed_issue_names_no_line (first last : nat) :
  ~ names_line_between first last mixed_issue.
Proof. intros (j & Hj & _). discriminate. Qed.

(** X5.  The counters of the style report count lines: [total_lines] is
    the number of lines of the file, and the counters of long lines, of
    lines with trailing white space and of lines with a tab are the numbers
    of lines that pass the respective test, so none exceeds
    [total_lines]. *)
Theorem style_counters_count_lines (source : string) :
  let lines := splitlines true source in
  let c := counts (style_check source) in
  total_lines c = List.length lines
  /\ long_lines_gt_100 c = count_lines is_long lines
  /\ trailing_whitespace_lines c = count_lines has_trailing_whitespace lines
  /\ tab_char_lines c = count_lines has_tab lines
  /\ long_lines_gt_100 c <= total_lines c
  /\ trailing_whitespace_lines c <= total_lines c
  /\ tab_char_lines c <= total_lines c.
Proof.
  cbn zeta. unfold style_check.
  destruct (style_loop_spec (splitlines true source) 1 scan_start)
    as (Hl & Ht & Hb & _).
  cbn zeta in *. cbn [counts total_lines long_lines_gt_100
                        trailing_whitespace_lines tab_char_lines].
  rewrite Hl, Ht, Hb. cbn [scan_start scan_long scan_trailing scan_tabs].
  cbn [Nat.add]. repeat split; apply count_lines_le.
Qed.

(** X6.  The mixed-indentation counter is 0 or 1, and it is 1 exactly when
    some line of the file starts with a tab and some line starts with a
    space. *)
Theorem mixed_indentation_iff_tab_and_space_lines (source : string) :
  let lines := splitlines true source in
  let mixed := mixed_indentation (counts (style_check source)) in
  (mixed = 0 \/ mixed = 1)
  /\ (mixed = 1 <->
      (exists l, In l lines /\ starts_with_tab l = true)
      /\ (exists l, In l lines /\ starts_with_space l = true)).
Proof.
  cbn zeta. unfold style_check.
  destruct (style_loop_spec (splitlines true source) 1 scan_start)
    as (_ & _ & _ & Hti & Hsi & _).
  cbn zeta in *. cbn [counts mixed_indentation].
  rewrite Hti, Hsi. cbn [scan_start has_tab_indent has_space_indent orb].
  rewrite <- !existsb_true_iff.
  destruct (existsb starts_with_tab _), (existsb starts_with_space _);
    cbn [andb]; (split; [auto|]); split; intros H;
    try discriminate; try (destruct H; discriminate); auto.
Qed.

Lemma In_firstn {A : Type} (n : nat) (l : list A) (x : A) :
  In x (firstn n l) -> In x l.
Proof.
  intros Hin. rewrite <- (firstn_skipn n l). apply in_or_app. left. exact Hin.
Qed.

Lemma firstn_app_last {A : Type} (n : nat) (l : list A) (x : A) :
  firstn n (l ++ [x])
  = if Nat.ltb (List.length l) n then (l ++ [x])%list else firstn n l.
Proof.
  rewrite firstn_app.
  destruct (Nat.ltb_spec (List.length l) n) as [Hlt|Hge].
  - rewrite firstn_all2 by lia.
    destruct (n - List.length l) eqn:E; [lia|].
    cbn [firstn]. rewrite firstn_nil. reflexivity.
  - replace (n - List.length l) with 0 by lia. cbn [firstn].
    apply app_nil_r.
Qed.

(** X7.  The list of issues of the style report is cut at 200 entries: it
    has [min(200, long + trailing + mixed)] entries.  Every entry but the
    whole-file one names a line of the file, and the whole-file
    [MixedIndentation] issue, which is added last, is in the report exactly
    when the mixed-indentation counter is 1 and fewer than 200 per-line
    issues come before it. *)
Theorem style_issues_capped_at_200 (source : string) :
  let r := style_check source in
  let c := counts r in
  List.length (issues r)
  = Nat.min 200 (long_lines_gt_100 c + trailing_whitespace_lines c
                 + mixed_indentation c)
  /\ Forall (fun issue =>
               issue = mixed_issue
               \/ names_line_between 1 (1 + total_lines c) issue)
            (issues r)
  /\ (In mixed_issue (issues r) <->
      mixed_indentation c = 1
      /\ long_lines_gt_100 c + trailing_whitespace_lines c < 200).
Proof.
  cbn zeta. unfold style_check.
  destruct (style_loop_spec (splitlines true source) 1 scan_start)
    as (Hl & Ht & _ & _ & _ & new & Hnew & Hlen & Hall).
  cbn zeta in *.
  cbn [counts issues total_lines long_lines_gt_100 trailing_whitespace_lines
         mixed_indentation].
  rewrite Hl, Ht, Hnew.
  cbn [scan_start scan_long scan_trailing scan_issues Nat.add app].
  rewrite <- Hlen. unfold take, append.
  assert (Hnot : ~ In mixed_issue new).
  { intros Hin. rewrite Forall_forall in Hall.
    exact (mixed_issue_names_no_line _ _ (Hall _ Hin)). }
  assert (Hsub : forall n, Forall (fun issue =>
               issue = mixed_issue
               \/ names_line_between 1
                    (1 + List.length (splitlines true source)) issue)
            (firstn n new)).
  { intros n. apply Forall_forall. intros iss Hin.
    right. rewrite Forall_forall in Hall. apply Hall.
    eapply In_firstn; eauto. }
  destruct (has_tab_indent _ && has_space_indent _).
  - rewrite firstn_app_last.
    destruct (Nat.ltb_spec (List.length new) 200) as [Hlt|Hge].
    + split; [|split].
      * rewrite length_app. cbn [List.length]. lia.
      * apply Forall_app_intro; [|constructor; [left; reflexivity|constructor]].
        specialize (Hsub (List.length new)).
        rewrite firstn_all in Hsub. exact Hsub.
      * split; [intros _; split; [reflexivity | exact Hlt]|].
        intros _. apply in_or_app. right. left. reflexivity.
    + split; [|split].
      * rewrite length_firstn. lia.
      * apply Hsub.
      * split; [|intros [_ Hlt]; lia].
        intros Hin. apply In_firstn in Hin. contradiction.
  - split; [|split].
    + rewrite length_firstn. lia.
    + apply Hsub.
    + split; [|intros [Hm _]; discriminate].
      intros Hin. apply In_firstn in Hin. contradiction.
Qed.

(* ================================================================== *)
(** * The risk patterns *)
(* ================================================================== *)

Lemma prefix_spec (p s : string) :
  String.prefix p s = true <-> exists after, s = p ++ after.
Proof.
  revert s. induction p as [|c p IH]; intros s.
  - split; [intros _; exists s; reflexivity|].
    intros _. destruct s; reflexivity.
  - destruct s as [|d s]; cbn [String.prefix].
    + split; [discriminate | intros (after & H); discriminate].
    + destruct (Ascii.ascii_dec c d) as [->|Hne].
      * rewrite IH. split; intros (after & H); exists after.
        -- cbn [String.append]. rewrite H. reflexivity.
        -- cbn [String.append] in H. inversion H. reflexivity.
      * split; [discriminate|].
        intros (after & H). cbn [String.append] in H. inversion H.
        congruence.
Qed.

(** [sub in s] is true exactly when [sub] occurs in [s]. *)
Lemma contains_spec (sub s : string) :
  contains sub s = true <-> occurs_in sub s.
Proof.
  unfold occurs_in. induction s as [|c s IH]; cbn [contains].
  - rewrite orb_false_r, prefix_spec. split.
    + intros (after & H). exists EmptyString, after. exact H.
    + intros (before & after & H). destruct before as [|b before];
        [exists after; exact H | discriminate].
  - rewrite orb_true_iff, prefix_spec, IH. split.
    + intros [(after & H) | (before & after & H)].
      * exists EmptyString, after. exact H.
      * exists (String c before), after. cbn [String.append]. rewrite H.
        reflexivity.
    + intros (before & after & H). destruct before as [|b before].
      * left. exists after. exact H.
      * right. cbn [String.append] in H. inversion H.
        exists before, after. reflexivity.
Qed.

Lemma fold_left_append_if {A B : Type} (test : A -> bool) (f : A -> B)
      (l : list A) :
  forall acc,
    fold_left (fun acc x => if test x then append acc (f x) else acc) l acc
    = (acc ++ map f (filter test l))%list.
Proof.
  induction l as [|x l IH]; intros acc; cbn [fold_left filter].
  - rewrite app_nil_r. reflexivity.
  - rewrite IH. destruct (test x); [|reflexivity].
    unfold append. cbn [map]. rewrite <- app_assoc. reflexivity.
Qed.

Lemma risky_patterns_flags (source : string) :
  flags (risky_patterns source)
  = map (fun km => mkRiskFlag (fst km) (snd km))
      (filter (fun km => contains (fst km) source) patterns).
Proof.
  unfold risky_patterns. cbn [flags].
  rewrite (fold_left_append_if (fun km => contains (fst km) source)
             (fun km => mkRiskFlag (fst km) (snd km))).
  reflexivity.
Qed.

(** X8.  [risky_patterns] flags a pattern of its table exactly when the
    pattern occurs somewhere in the source text; it gives one flag per
    pattern however often the pattern occurs, in the order of the table, so
    there are never more than six flags. *)
Theorem risk_flags_are_the_patterns_that_occur (source : string) :
  (forall key detail,
      In (mkRiskFlag key detail) (flags (risky_patterns source)) <->
      In (key, detail) patterns /\ occurs_in key source)
  /\ NoDup (flags (risky_patterns source))
  /\ List.length (flags (risky_patterns source)) <= 6
  /\ map flag_pattern (flags (risky_patterns source))
     = filter (fun key => contains key source) (map fst patterns).
Proof.
  rewrite risky_patterns_flags. split; [|split; [|split]].
  - intros key detail. rewrite in_map_iff. split.
    + intros ([k d] & Heq & Hin). apply filter_In in Hin.
      cbn [fst snd] in *. inversion Heq; subst.
      destruct Hin as [Hin Hc]. split; [exact Hin|].
      apply contains_spec. exact Hc.
    + intros [Hin Hocc]. exists (key, detail). split; [reflexivity|].
      apply filter_In. split; [exact Hin|].
      apply contains_spec. exact Hocc.
  - apply Finite.Injective_map_NoDup.
    + intros [k1 d1] [k2 d2] H. cbn [fst snd] in H. inversion H. reflexivity.
    + apply NoDup_filter. unfold patterns.
      repeat (constructor; [cbn [In]; intros H;
                            repeat (destruct H as [H|H]; [discriminate|]);
                            exact H|]).
      constructor.
  - rewrite length_map.
    etransitivity; [apply filter_length_le | reflexivity].
  - rewrite map_map. cbn [flag_pattern].
    induction patterns as [|[k d] ps IH]; cbn [filter map fst];
      [reflexivity|].
    destruct (contains k source); cbn [map fst]; rewrite IH; reflexivity.
Qed.

(* ================================================================== *)
(** * Docstrings and names *)
(* ================================================================== *)

Lemma startswith_underscore (name : string) :
  startswith name "_"
  = match name with
    | EmptyString => false
    | String c _ => Ascii.eqb c "_"%char
    end.
Proof.
  unfold startswith. destruct name as [|c rest]; [reflexivity|].
  cbn [String.prefix].
  destruct (Ascii.ascii_dec "_"%char c) as [<-|Hne].
  - destruct rest; reflexivity.
  - symmetry. apply Ascii.eqb_neq. congruence.
Qed.

Lemma startswith_two_underscores (name : string) :
  startswith name "__" = true -> startswith name "_" = true.
Proof.
  rewrite startswith_underscore. unfold startswith.
  destruct name as [|c rest]; cbn [String.prefix]; [discriminate|].
  destruct (Ascii.ascii_dec "_"%char c) as [<-|Hne]; [reflexivity|].
  discriminate.
Qed.

(** The second half of the exemption test for function names, the one for
    names that start and end with two underscores, never decides anything:
    a function name is exempt from the naming check exactly when it starts
    with an underscore. *)
Lemma exemption_is_leading_underscore (name : string) :
  startswith name "_" || (startswith name "__" && endswith name "__")
  = startswith name "_".
Proof.
  destruct (startswith name "_") eqn:H1; [reflexivity|].
  destruct (startswith name "__") eqn:H2; [|reflexivity].
  apply startswith_two_underscores in H2. congruence.
Qed.

Section Docstrings.

Variable cleandoc : string -> string.

Lemma get_docstring_presence (node : ast) :
  is_some (get_docstring cleandoc node) = is_some (raw_docstring node).
Proof. unfold get_docstring. destruct (raw_docstring node); reflexivity. Qed.

(** What one iteration of the loop over [tree.body] adds to the three
    lists. *)
Lemma doc_node_spec (node : ast) (st : DocScan) :
  doc_node cleandoc node st
  = mkDocScan (fn_info st ++ function_info node)
      (cls_info st ++ class_info node)
      (scan_naming_issues st ++ naming_issue_of node).
Proof.
  destruct st as [f c n].
  destruct node;
    cbn [doc_node function_info class_info naming_issue_of
           fn_info cls_info scan_naming_issues];
    rewrite ?app_nil_r; try reflexivity;
    rewrite ?exemption_is_leading_underscore, get_docstring_presence;
    unfold append;
    match goal with
    | |- context [negb ?a && negb ?b] =>
        destruct (negb a && negb b); rewrite ?app_nil_r; reflexivity
    end.
Qed.

Lemma doc_loop_spec (body : list ast) :
  forall st,
    fold_left (fun st node => doc_node cleandoc node st) body st
    = mkDocScan (fn_info st ++ flat_map function_info body)
        (cls_info st ++ flat_map class_info body)
        (scan_naming_issues st ++ flat_map naming_issue_of body).
Proof.
  induction body as [|node body IH]; intros st; cbn [fold_left flat_map].
  - rewrite !app_nil_r. destruct st; reflexivity.
  - rewrite IH, doc_node_spec.
    cbn [fn_info cls_info scan_naming_issues].
    rewrite <- !app_assoc. reflexivity.
Qed.

Lemma docstrings_and_naming_spec (tree : ast) :
  let r := docstrings_and_naming cleandoc tree in
  functions r = flat_map function_info (body_of tree)
  /\ classes r = flat_map class_info (body_of tree)
  /\ naming_issues r = flat_map naming_issue_of (body_of tree)
  /\ module_has_docstring r = is_some (raw_docstring tree)
  /\ missing_function_docstrings r = missing_docs (functions r)
  /\ missing_class_docstrings r = missing_docs (classes r).
Proof.
  cbn zeta. unfold docstrings_and_naming. rewrite doc_loop_spec.
  cbn [functions classes naming_issues module_has_docstring
         missing_function_docstrings missing_class_docstrings
         fn_info cls_info scan_naming_issues app].
  rewrite get_docstring_presence. repeat split.
Qed.

End Docstrings.

Lemma flat_map_length_le {A B : Type} (f : A -> list B) (l : list A) :
  (forall x, List.length (f x) <= 1) ->
  List.length (flat_map f l) <= List.length l.
Proof.
  intros Hf. induction l as [|x l IH]; cbn [flat_map List.length]; [lia|].
  rewrite length_app. specialize (Hf x). lia.
Qed.

Section Naming.

Variable cleandoc : string -> string.

(** X9.  [docstrings_and_naming] reports a function-name issue for a name
    and a line exactly when a function definition (synchronous or
    asynchronous) with this name and line stands at the top level of the
    module, the name does not start with an underscore, and the name does
    not match [SNAKE_CASE_RE]; and a class-name issue exactly when a
    top-level class has a name that does not start with an underscore and
    does not match [PASCAL_CASE_RE]. *)
Theorem naming_issues_are_top_level_names (tree : ast) :
  let issues := naming_issues (docstrings_and_naming cleandoc tree) in
  (forall name lineno,
      In (mkNamingIssue "FunctionNameNotSnakeCase" name lineno) issues <->
      (exists node,
          In node (body_of tree)
          /\ header node
             = Some (FunctionKind, name, lineno, raw_docstring node))
      /\ startswith name "_" = false /\ SNAKE_CASE_RE name = false)
  /\ (forall name lineno,
         In (mkNamingIssue "ClassNameNotPascalCase" name lineno) issues <->
         (exists node,
             In node (body_of tree)
             /\ header node
                = Some (ClassKind, name, lineno, raw_docstring node))
         /\ startswith name "_" = false /\ PASCAL_CASE_RE name = false).
Proof.
  cbn zeta.
  destruct (docstrings_and_naming_spec cleandoc tree) as (_ & _ & -> & _).
  split; intros name lineno; rewrite in_flat_map; split.
  - intros (node & Hin & Hissue).
    destruct node; cbn [naming_issue_of] in Hissue; try contradiction;
      match type of Hissue with
      | In _ (if negb ?a && negb ?b then _ else _) =>
          destruct a eqn:Ha; destruct b eqn:Hb;
          cbn [negb andb In] in Hissue; try contradiction
      end;
      destruct Hissue as [Heq|[]]; inversion Heq; subst;
      (split; [eexists; split; [exact Hin | reflexivity] | auto]).
  - intros ((node & Hin & Hh) & Hu & Hs). exists node. split; [exact Hin|].
    destruct node; cbn [header] in Hh; inversion Hh; subst;
      cbn [naming_issue_of]; rewrite Hu, Hs; cbn [negb andb In]; auto.
  - intros (node & Hin & Hissue).
    destruct node; cbn [naming_issue_of] in Hissue; try contradiction;
      match type of Hissue with
      | In _ (if negb ?a && negb ?b then _ else _) =>
          destruct a eqn:Ha; destruct b eqn:Hb;
          cbn [negb andb In] in Hissue; try contradiction
      end;
      destruct Hissue as [Heq|[]]; inversion Heq; subst;
      (split; [eexists; split; [exact Hin | reflexivity] | auto]).
  - intros ((node & Hin & Hh) & Hu & Hs). exists node. split; [exact Hin|].
    destruct node; cbn [header] in Hh; inversion Hh; subst;
      cbn [naming_issue_of]; rewrite Hu, Hs; cbn [negb andb In]; auto.
Qed.

Lemma header_function_info (n1 n2 : ast) :
  header n1 = header n2 ->
  function_info n1 = function_info n2
  /\ class_info n1 = class_info n2
  /\ naming_issue_of n1 = naming_issue_of n2.
Proof.
  intros H.
  destruct n1, n2; cbn [header] in H; try discriminate; inversion H;
    cbn [function_info class_info naming_issue_of]; subst;
    repeat split; try reflexivity; congruence.
Qed.

Lemma header_flat_maps (b1 b2 : list ast) :
  map header b1 = map header b2 ->
  flat_map function_info b1 = flat_map function_info b2
  /\ flat_map class_info b1 = flat_map class_info b2
  /\ flat_map naming_issue_of b1 = flat_map naming_issue_of b2.
Proof.
  revert b2. induction b1 as [|n1 b1 IH]; intros [|n2 b2] H;
    try discriminate; [repeat split|].
  cbn [map] in H. inversion H as [[Hh Ht]].
  destruct (IH b2 Ht) as (Hf & Hc & Hn).
  destruct (header_function_info n1 n2 Hh) as (Hf1 & Hc1 & Hn1).
  cbn [flat_map]. rewrite Hf, Hc, Hn, Hf1, Hc1, Hn1. repeat split.
Qed.

(** X10.  [docstrings_and_naming] looks at the top level of the module
    only, and there only at the kind, name, line and docstring of each
    definition: two modules with the same docstring whose top-level nodes
    agree on these get the same report, whatever their functions and
    classes contain.  So a method or a nested function is never checked for
    its name or its docstring. *)
Theorem report_depends_on_top_level_headers (t1 t2 : ast) :
  raw_docstring t1 = raw_docstring t2 ->
  map header (body_of t1) = map header (body_of t2) ->
  docstrings_and_naming cleandoc t1 = docstrings_and_naming cleandoc t2.
Proof.
  intros Hdoc Hbody. unfold docstrings_and_naming.
  rewrite !doc_loop_spec. cbn [fn_info cls_info scan_naming_issues app].
  destruct (header_flat_maps _ _ Hbody) as (-> & -> & ->).
  unfold get_docstring. rewrite Hdoc. reflexivity.
Qed.

(** X11.  The counts of the report are bounded by what stands at the top
    level of the module: there are at most as many function and class
    entries as top-level nodes, at most as many missing docstrings as
    entries, and at most one naming issue per entry. *)
Theorem doc_counts_bounded_by_top_level (tree : ast) :
  let r := docstrings_and_naming cleandoc tree in
  List.length (functions r) + List.length (classes r)
  <= List.length (body_of tree)
  /\ missing_function_docstrings r <= List.length (functions r)
  /\ missing_class_docstrings r <= List.length (classes r)
  /\ List.length (naming_issues r)
     <= List.length (functions r) + List.length (classes r).
Proof.
  cbn zeta.
  destruct (docstrings_and_naming_spec cleandoc tree)
    as (-> & -> & -> & _ & -> & ->).
  unfold missing_docs. repeat split; try apply filter_length_le.
  - induction (body_of tree) as [|n b IH]; cbn [flat_map List.length]; [lia|].
    rewrite !length_app.
    destruct n; cbn [function_info class_info List.length]; lia.
  - induction (body_of tree) as [|n b IH]; cbn [flat_map List.length]; [lia|].
    rewrite !length_app.
    destruct n; cbn [function_info class_info naming_issue_of List.length];
      try lia;
      match goal with
      | |- context [if ?c then _ else _] =>
          destruct c; cbn [List.length]; lia
      end.
Qed.

End Naming.

Lemma report_depends_on_top_level_headers_witness :
  SNAKE_CASE_RE "Area" = false
  /\ docstrings_and_naming example_cleandoc (class_with_method "Area")
     = docstrings_and_naming example_cleandoc (class_with_method "area")
  /\ naming_issues
       (docstrings_and_naming example_cleandoc (class_with_method "Area"))
     = [].
Proof.
  split; [reflexivity|]. split; [|reflexivity].
  apply (report_depends_on_top_level_headers example_cleandoc
           (class_with_method "Area") (class_with_method "area"));
    reflexivity.
Defined.

Lemma star_then_end_spec (cls : ascii -> bool) (s : string) :
  star_then_end cls s = true <->
  exists body,
    all_chars cls body = true
    /\ (s = body \/ s = body ++ String newline EmptyString).
Proof.
  induction s as [|c s IH]; cbn [star_then_end].
  - split; [intros _; exists EmptyString; auto|reflexivity].
  - destruct (cls c) eqn:Hc.
    + rewrite IH. split; intros (body & Hall & Hs).
      * exists (String c body). cbn [all_chars String.append].
        rewrite Hc, Hall. split; [reflexivity|].
        destruct Hs as [->| ->]; auto.
      * destruct body as [|b body].
        -- destruct Hs as [Hs|Hs]; [discriminate|].
           cbn [String.append] in Hs. inversion Hs; subst.
           exists EmptyString. auto.
        -- cbn [all_chars] in Hall. apply andb_true_iff in Hall.
           destruct Hall as [_ Hall]. exists body. split; [exact Hall|].
           destruct Hs as [Hs|Hs]; cbn [String.append] in Hs;
             inversion Hs; auto.
    + split.
      * intros H. apply andb_true_iff in H. destruct H as [He Hs].
        apply Ascii.eqb_eq in He. subst c.
        destruct s; [|discriminate]. exists EmptyString. auto.
      * intros (body & Hall & Hs). destruct body as [|b body].
        -- destruct Hs as [Hs|Hs]; [discriminate|].
           cbn [String.append] in Hs. inversion Hs; subst. reflexivity.
        -- cbn [all_chars] in Hall. apply andb_true_iff in Hall.
           destruct Hall as [Hb _].
           destruct Hs as [Hs|Hs]; cbn [String.append] in Hs;
             inversion Hs; congruence.
Qed.

Lemma re_match_spec (head tail : ascii -> bool) (s : string) :
  re_match head tail s = true <->
  exists c rest,
    head c = true /\ all_chars tail rest = true
    /\ (s = String c rest
        \/ s = String c (rest ++ String newline EmptyString)).
Proof.
  destruct s as [|c s]; cbn [re_match].
  - split; [discriminate|]. intros (c & rest & _ & _ & [H|H]); discriminate.
  - rewrite andb_true_iff, star_then_end_spec. split.
    + intros (Hh & body & Hall & Hs). exists c, body.
      repeat split; auto. destruct Hs as [->| ->]; auto.
    + intros (c' & rest & Hh & Hall & Hs).
      destruct Hs as [Hs|Hs]; inversion Hs; subst;
        (split; [exact Hh|]); exists rest; auto.
Qed.

(** X12.  A name matches [SNAKE_CASE_RE] exactly when it starts with a
    lower-case letter or an underscore and goes on with lower-case letters,
    digits and underscores only, up to its end or up to one final newline;
    and it matches [PASCAL_CASE_RE] exactly when it starts with an
    upper-case letter and goes on with letters and digits only, up to its
    end or up to one final newline. *)
Theorem naming_patterns_spec (name : string) :
  (SNAKE_CASE_RE name = true <->
   exists c rest,
     snake_head c = true /\ all_chars snake_tail rest = true
     /\ (name = String c rest
         \/ name = String c (rest ++ String newline EmptyString)))
  /\ (PASCAL_CASE_RE name = true <->
      exists c rest,
        is_upper c = true
        /\ all_chars (fun c => is_upper c || is_lower c || is_digit c) rest
           = true
        /\ (name = String c rest
            \/ name = String c (rest ++ String newline EmptyString))).
Proof.
  split; apply re_match_spec.
Qed.

(* ================================================================== *)
(** * The runner *)
(* ================================================================== *)

Lemma length_substring_le (s : string) :
  forall n m, String.length (String.substring n m s) <= m.
Proof.
  induction s as [|c s IH]; intros n m.
  - destruct n, m; cbn; lia.
  - destruct n as [|n]; cbn [String.substring].
    + destruct m as [|m]; cbn [String.length]; [lia|].
      specialize (IH 0 m). lia.
    + apply IH.
Qed.

Section Runner.

Variable subprocess_run : list string -> Path -> nat -> process_outcome * Q.
Variable stage : Path -> string -> result Path.
Variable sys_executable : string.

Lemma safe_run_ok (cmd : list string) (cwd : Path) (timeout_sec : nat)
      (r : RunResult) :
  safe_run subprocess_run cmd cwd timeout_sec = Returns r ->
  ok r = true ->
  returncode r = 0%Z /\ timed_out r = false.
Proof.
  unfold safe_run.
  destruct (subprocess_run cmd cwd timeout_sec) as [[rc o e|o e|e] dt];
    intros H; inversion H; subst; cbn [ok returncode timed_out];
    [|discriminate].
  intros Hok. apply Z.eqb_eq in Hok. auto.
Qed.

(** X13.  What [safe_run] returns is consistent: [ok] is true exactly when
    the return code is 0, a result with [timed_out] has the return code
    124 and is not [ok], and a child that ends by itself is never marked
    [timed_out], also when its own exit code is 124. *)
Theorem safe_run_result_is_consistent
  (cmd : list string) (cwd : Path) (timeout_sec : nat) (r : RunResult) :
  safe_run subprocess_run cmd cwd timeout_sec = Returns r ->
  (ok r = true <-> returncode r = 0%Z)
  /\ (timed_out r = true -> returncode r = 124%Z /\ ok r = false)
  /\ (forall rc out err dt,
         subprocess_run cmd cwd timeout_sec = (Completed rc out err, dt) ->
         timed_out r = false /\ returncode r = rc).
Proof.
  unfold safe_run.
  destruct (subprocess_run cmd cwd timeout_sec) as [[rc o e|o e|e] dt];
    intros H; inversion H; subst; cbn [ok returncode timed_out].
  - split; [apply Z.eqb_eq|]. split; [discriminate|].
    intros rc' out err dt' Heq. inversion Heq. auto.
  - split; [split; discriminate|]. split; [auto|].
    intros rc' out err dt' Heq. discriminate.
Qed.

(** The test of line 333 on a run whose streams are both [str]. *)
Lemma search_text_spec (r : RunResult) (word : string) :
  captured_as_text r ->
  (both <- concat (stderr r) (stdout r) ;; str_in word both)
  = Returns (contains word (content (stderr r) ++ content (stdout r))).
Proof. intros [H1 H2]. apply search_of_text; assumption. Qed.

Lemma captured_as_text_dec (r : RunResult) :
  captured_as_text r \/ is_text (stderr r) && is_text (stdout r) = false.
Proof.
  unfold captured_as_text.
  destruct (is_text (stderr r)), (is_text (stdout r)); auto.
Qed.

Lemma mentions_spec (r : RunResult) (word : string) :
  contains word (content (stderr r) ++ content (stdout r)) = true
  <-> mentions r word.
Proof. unfold mentions. apply contains_spec. Qed.

(** What [run_basic_unit_test] does, run by run. *)
Lemma run_basic_unit_test_cases (program : Path) (timeout_sec : nat)
      (t : TestReport) :
  run_basic_unit_test subprocess_run stage sys_executable program timeout_sec
  = Returns t
  <->
  exists tdir r1,
    stage program "target_module" = Returns tdir
    /\ safe_run subprocess_run (cmd1 sys_executable) tdir timeout_sec
       = Returns r1
    /\ (((ok r1 = true
          \/ (ok r1 = false /\ captured_as_text r1
              /\ ~ mentions r1 "ModuleNotFoundError"))
         /\ t = report_of (cmd1 sys_executable) r1)
        \/ (ok r1 = false /\ captured_as_text r1
            /\ mentions r1 "ModuleNotFoundError"
            /\ exists r2,
                 safe_run subprocess_run (cmd2 sys_executable) tdir
                   timeout_sec = Returns r2
                 /\ t = report_of (cmd2 sys_executable) r2)).
Proof.
  unfold run_basic_unit_test.
  fold (cmd1 sys_executable). fold (cmd2 sys_executable).
  destruct (stage program _) as [tdir|e]; cbn [bind].
  2:{ split; [discriminate|]. intros (tdir & r1 & H & _). discriminate. }
  destruct (safe_run _ (cmd1 _) tdir timeout_sec) as [r1|e] eqn:H1;
    cbn [bind].
  2:{ split; [discriminate|].
      intros (tdir' & r1 & [= <-] & H & _). congruence. }
  assert (Hshape :
    forall P : Path -> RunResult -> Prop,
      (exists tdir' r1', Returns tdir = Returns tdir'
         /\ safe_run subprocess_run (cmd1 sys_executable) tdir' timeout_sec
            = Returns r1' /\ P tdir' r1')
      <-> P tdir r1).
  { intros P. split.
    - intros (tdir' & r1' & [= <-] & Hr & HP).
      rewrite H1 in Hr. inversion Hr. subst. exact HP.
    - intros HP. exists tdir, r1. auto. }
  rewrite (Hshape (fun tdir r1 =>
    ((ok r1 = true \/ ok r1 = false /\ captured_as_text r1
        /\ ~ mentions r1 "ModuleNotFoundError")
     /\ t = report_of (cmd1 sys_executable) r1)
    \/ ok r1 = false /\ captured_as_text r1
       /\ mentions r1 "ModuleNotFoundError"
       /\ exists r2,
            safe_run subprocess_run (cmd2 sys_executable) tdir timeout_sec
            = Returns r2 /\ t = report_of (cmd2 sys_executable) r2)).
  clear Hshape.
  destruct (ok r1) eqn:Hok; cbn [negb bind].
  - (* the first run passed *)
    split.
    + intros [= <-]. left. split; [left; reflexivity | reflexivity].
    + intros [[_ ->] | (H & _)]; [reflexivity | discriminate].
  - destruct (captured_as_text_dec r1) as [Htext | Hbytes].
    + rewrite (search_text_spec r1 _ Htext). cbn [bind].
      destruct (contains _ _) eqn:Hc.
      * (* the second run *)
        apply mentions_spec in Hc.
        destruct (safe_run _ (cmd2 _) tdir timeout_sec) as [r2|e] eqn:H2;
          cbn [bind].
        -- split.
           ++ intros [= <-]. right. repeat split; try apply Htext; auto.
              exists r2. auto.
           ++ intros [[[H | (_ & _ & H)] _] | (_ & _ & _ & r2' & [= <-] & ->)];
                [discriminate | contradiction | reflexivity].
        -- split; [discriminate|].
           intros [[[H | (_ & _ & H)] _] | (_ & _ & _ & r2' & H & _)];
             [discriminate | contradiction | discriminate].
      * (* the first run failed for another reason *)
        assert (Hno : ~ mentions r1 "ModuleNotFoundError").
        { intros H. apply mentions_spec in H. congruence. }
        cbn [bind]. split.
        -- intros [= <-]. left. auto.
        -- intros [[_ ->] | (_ & _ & H & _)]; [reflexivity | contradiction].
    + (* a stream of bytes *)
      destruct (search_of_bytes r1 "ModuleNotFoundError" Hbytes)
        as (e & _ & He).
      rewrite He. cbn [bind]. split; [discriminate|].
      assert (Hnot : ~ captured_as_text r1).
      { intros [Ha Hb]. rewrite Ha, Hb in Hbytes. discriminate. }
      intros [[[H | (_ & H & _)] _] | (_ & H & _)];
        [discriminate | contradiction | contradiction].
Qed.

(** X14.  [run_basic_unit_test] returns a report in two cases only, and
    in both the report is the one of a run that was made.  It stages the
    file and runs the unit test in isolated mode; it reports this first
    run, under its command line, when the run passed, or failed with an
    output that is text and does not mention [ModuleNotFoundError].  When
    the first run failed and its output mentions [ModuleNotFoundError], it
    runs the test once more without [-I] and reports this second run,
    under the second command line: [ok], the return code, the time-out
    mark, the rounded time and the ends of the two streams are those of
    the second run, not of the first.  The two command lines differ, so
    the command in the report tells which run it describes.  In every
    other case (staging or a run raises, or the first run failed and one
    of its streams is [bytes]) there is no report. *)
Theorem retry_only_after_module_not_found
  (program : Path) (timeout_sec : nat) (t : TestReport) :
  (run_basic_unit_test subprocess_run stage sys_executable program
     timeout_sec = Returns t
   <->
   exists tdir r1,
     stage program "target_module" = Returns tdir
     /\ safe_run subprocess_run (cmd1 sys_executable) tdir timeout_sec
        = Returns r1
     /\ (((ok r1 = true
           \/ (ok r1 = false /\ captured_as_text r1
               /\ ~ mentions r1 "ModuleNotFoundError"))
          /\ t = report_of (cmd1 sys_executable) r1)
         \/ (ok r1 = false /\ captured_as_text r1
             /\ mentions r1 "ModuleNotFoundError"
             /\ exists r2,
                  safe_run subprocess_run (cmd2 sys_executable) tdir
                    timeout_sec = Returns r2
                  /\ t = report_of (cmd2 sys_executable) r2)))
  /\ cmd1 sys_executable <> cmd2 sys_executable
  /\ (forall cmd rr,
        test_command (report_of cmd rr) = cmd
        /\ test_ok (report_of cmd rr) = ok rr
        /\ test_returncode (report_of cmd rr) = returncode rr
        /\ test_timed_out (report_of cmd rr) = timed_out rr
        /\ test_seconds (report_of cmd rr) = round (seconds rr) 3
        /\ test_stdout (report_of cmd rr) = tail 20000 (stdout rr)
        /\ test_stderr (report_of cmd rr) = tail 20000 (stderr rr)).
Proof.
  split; [|split].
  - apply run_basic_unit_test_cases.
  - unfold cmd1, cmd2. intros H. inversion H.
  - intros cmd rr. repeat split.
Qed.

End Runner.

Lemma safe_run_result_is_consistent_witness :
  exists r,
    safe_run exit_124_subprocess ["true"] "/tmp" 20 = Returns r
    /\ returncode r = 124%Z /\ timed_out r = false /\ ok r = false.
Proof.
  eexists. split; [reflexivity|].
  destruct (safe_run_result_is_consistent exit_124_subprocess ["true"]
              "/tmp" 20 _ eq_refl) as (_ & _ & Hdone).
  destruct (Hdone 124%Z (Some "") (Some "exit 124") (1 # 2) eq_refl)
    as [Hto Hrc].
  split; [exact Hrc|]. split; [exact Hto | reflexivity].
Defined.

(** A first run that cannot find a module is followed by a second one,
    which is the one reported. *)
Lemma retry_only_after_module_not_found_witness :
  run_basic_unit_test needs_site_subprocess example_stage
    example_executable "prog.py" 20
  = Returns (report_of (cmd2 example_executable)
               (mkRunResult true 0 (Text "") (Text "OK") (3 # 10) false)).
Proof.
  apply (retry_only_after_module_not_found needs_site_subprocess
           example_stage example_executable "prog.py" 20).
  exists "/tmp/program_tester_0",
    (mkRunResult false 1 (Text "")
       (Text "ModuleNotFoundError: No module named 'numpy'") (1 # 5) false).
  split; [reflexivity|]. split; [reflexivity|]. right.
  split; [reflexivity|]. split; [split; reflexivity|]. split.
  - exists EmptyString, ": No module named 'numpy'". reflexivity.
  - eexists. split; reflexivity.
Defined.

Lemma substring_all (s : string) :
  forall m, String.length s <= m -> String.substring 0 m s = s.
Proof.
  induction s as [|c s IH]; intros m Hm.
  - destruct m; reflexivity.
  - destruct m as [|m]; cbn [String.length] in Hm; [lia|].
    cbn [String.substring]. rewrite IH by lia. reflexivity.
Qed.

Lemma substring_suffix (s : string) :
  forall k,
    k <= String.length s ->
    exists before,
      s = before ++ String.substring k (String.length s - k) s
      /\ String.length before = k.
Proof.
  induction s as [|c s IH]; intros k Hk.
  - cbn [String.length] in Hk. assert (k = 0) by lia. subst.
    exists EmptyString. split; reflexivity.
  - destruct k as [|k].
    + exists EmptyString. rewrite Nat.sub_0_r, substring_all by lia.
      split; reflexivity.
    + cbn [String.length] in *.
      destruct (IH k) as (before & Hs & Hlen); [lia|].
      exists (String c before).
      cbn [String.substring String.append String.length Nat.sub].
      rewrite <- Hs, Hlen. split; reflexivity.
Qed.

Lemma string_length_append (s1 s2 : string) :
  String.length (s1 ++ s2) = String.length s1 + String.length s2.
Proof.
  induction s1 as [|c s1 IH]; cbn [String.append String.length];
    [reflexivity|].
  rewrite IH. reflexivity.
Qed.

(** [s[-n:]] is the end of [s], [n] characters long, or all of [s] when
    [s] is shorter. *)
Lemma tail_chars_spec (n : nat) (s : string) :
  exists before,
    s = before ++ tail_chars n s
    /\ String.length (tail_chars n s) = Nat.min n (String.length s).
Proof.
  unfold tail_chars.
  destruct (Nat.le_gt_cases n (String.length s)) as [Hle|Hgt].
  - destruct (substring_suffix s (String.length s - n)) as (before & Hs & Hl);
      [lia|].
    replace (String.length s - (String.length s - n)) with n in Hs by lia.
    exists before. split; [exact Hs|].
    apply (f_equal String.length) in Hs.
    rewrite string_length_append in Hs. lia.
  - replace (String.length s - n) with 0 by lia.
    rewrite substring_all by lia.
    exists EmptyString. split; [reflexivity | lia].
Qed.

(** [c[-n:]] of a captured stream. *)
Lemma tail_spec (n : nat) (c : captured) :
  exists before,
    content c = before ++ content (tail n c)
    /\ String.length (content (tail n c))
       = Nat.min n (String.length (content c))
    /\ is_text (tail n c) = is_text c.
Proof.
  destruct c as [s|b]; cbn [tail content is_text];
    [destruct (tail_chars_spec n s) as (before & H1 & H2)
    |destruct (tail_chars_spec n b) as (before & H1 & H2)];
    exists before; auto.
Qed.

(** X15.  The report of the unit test keeps the end of what the run wrote:
    its [stdout] and [stderr] are the last 20000 characters (or bytes) of
    the output of the run it reports (all of it when it is shorter), of the
    same type as that output, so neither is longer than 20000. *)
Theorem report_keeps_the_last_20000_characters
  (subprocess_run : list string -> Path -> nat -> process_outcome * Q)
  (stage : Path -> string -> result Path) (sys_executable : string)
  (program : Path) (timeout_sec : nat) (t : TestReport) :
  run_basic_unit_test subprocess_run stage sys_executable program timeout_sec
  = Returns t ->
  String.length (content (test_stdout t)) <= 20000
  /\ String.length (content (test_stderr t)) <= 20000
  /\ exists cmd tdir rr before_out before_err,
       safe_run subprocess_run cmd tdir timeout_sec = Returns rr
       /\ test_command t = cmd
       /\ content (stdout rr) = before_out ++ content (test_stdout t)
       /\ content (stderr rr) = before_err ++ content (test_stderr t)
       /\ is_text (test_stdout t) = is_text (stdout rr)
       /\ is_text (test_stderr t) = is_text (stderr rr).
Proof.
  intros Hrun.
  assert (Hrep : exists cmd tdir rr,
             safe_run subprocess_run cmd tdir timeout_sec = Returns rr
             /\ t = report_of cmd rr).
  { apply run_basic_unit_test_cases in Hrun.
    destruct Hrun
      as (tdir & r1 & _ & H1 & [[_ ->] | (_ & _ & _ & r2 & H2 & ->)]);
      eauto. }
  destruct Hrep as (cmd & tdir & rr & Hsafe & ->).
  cbn [report_of test_stdout test_stderr test_command].
  destruct (tail_spec 20000 (stdout rr)) as (bo & Ho & Hlo & Hko).
  destruct (tail_spec 20000 (stderr rr)) as (be & He & Hle & Hke).
  split; [rewrite Hlo; apply Nat.le_min_l|].
  split; [rewrite Hle; apply Nat.le_min_l|].
  exists cmd, tdir, rr, bo, be. auto 10.
Qed.

Lemma report_keeps_the_last_20000_characters_witness :
  exists t,
    run_basic_unit_test example_subprocess example_stage example_executable
      "prog.py" 20 = Returns t
    /\ String.length (content (test_stdout t)) <= 20000
    /\ test_stderr t = Text "Ran 2 tests in 0.001s OK".
Proof.
  eexists. split; [vm_compute; reflexivity|].
  edestruct (report_keeps_the_last_20000_characters example_subprocess
               example_stage example_executable "prog.py" 20)
    as (Hout & _ & _); [vm_compute; reflexivity|].
  split; [exact Hout | reflexivity].
Defined.

(* ================================================================== *)
(** * Comments *)
(* ================================================================== *)

(** The comment tokens of a token list. *)
Lemma comment_fold_spec (toks : list (token_type * string)) :
  forall acc,
    fold_left
      (fun comments tok =>
         match fst tok with
         | COMMENT => append comments (strip (lstrip "#" (snd tok)))
         | OTHER_TOKEN => comments
         end)
      toks acc
    = (acc ++ map (fun tok => strip (lstrip "#" (snd tok)))
                (filter (fun tok => match fst tok with
                                    | COMMENT => true
                                    | OTHER_TOKEN => false
                                    end) toks))%list.
Proof.
  induction toks as [|[ty str] toks IH]; intros acc; cbn [fold_left filter].
  - rewrite app_nil_r. reflexivity.
  - rewrite IH. destruct ty; cbn [fst snd map]; [|reflexivity].
    unfold append. rewrite <- app_assoc. reflexivity.
Qed.

Lemma round_zero (total : positive) (ndigits : nat) :
  Qeq (round (Qmake 0 total) ndigits) 0.
Proof.
  unfold round, round_half_even.
  destruct ndigits as [|n]; cbn [Qnum Qden Qmult Z.mul];
    rewrite Z.div_0_l, Z.mod_0_l by discriminate; reflexivity.
Qed.

(** X16.  [comment_stats] never fails and never divides by zero: the
    number of lines it divides by is at least 1; there are at most 8 sample
    comments; when the tokenizer raises, the report has no comment at all
    and density 0; and when it does not, [comment_lines] is the number of
    comment tokens. *)
Theorem comment_stats_degrades_to_zero
  (generate_tokens : string -> result (list (token_type * string)))
  (source : string) :
  let r := comment_stats generate_tokens source in
  1 <= comment_total_lines r
  /\ List.length (sample_comments r) <= 8
  /\ List.length (sample_comments r) <= comment_lines r
  /\ (forall e, generate_tokens source = Raises e ->
        comment_lines r = 0 /\ sample_comments r = []
        /\ Qeq (comment_density r) 0)
  /\ (forall toks, generate_tokens source = Returns toks ->
        comment_lines r
        = List.length (filter (fun tok => match fst tok with
                                          | COMMENT => true
                                          | OTHER_TOKEN => false
                                          end) toks)).
Proof.
  cbn zeta. unfold comment_stats.
  cbn [comment_total_lines sample_comments comment_lines comment_density].
  unfold take. split; [apply Nat.le_max_l|].
  split; [apply firstn_le_length|].
  split; [rewrite length_firstn; apply Nat.le_min_r|].
  split.
  - intros e He. rewrite He. cbn [List.length firstn Z.of_nat].
    split; [reflexivity|]. split; [reflexivity|]. apply round_zero.
  - intros toks Ht. rewrite Ht, comment_fold_spec.
    cbn [app]. apply length_map.
Qed.

Lemma comment_stats_degrades_to_zero_witness :
  comment_lines (comment_stats failing_tokens example_source) = 0
  /\ comment_total_lines (comment_stats failing_tokens example_source) = 4.
Proof.
  destruct (comment_stats_degrades_to_zero failing_tokens example_source)
    as (_ & _ & _ & Hfail & _).
  destruct (Hfail _ eq_refl) as (Hzero & _).
  split; [exact Hzero | reflexivity].
Defined.

(* ================================================================== *)
(** * How the checks of a file can end *)
(* ================================================================== *)

Section Outcomes.

Variable py_compile : string -> compile_outcome.
Variable ast_parse : string -> result ast.
Variable recursion_error : ast -> option exn.
Variable cleandoc : string -> string.
Variable generate_tokens : string -> result (list (token_type * string)).
Variable path_read_text : Path -> bool -> result string.
Variable subprocess_run : list string -> Path -> nat -> process_outcome * Q.
Variable stage : Path -> string -> result Path.
Variable sys_executable : string.

(** X17.  The checks of a file end without a report in three cases only:
    the file cannot be read, [compile] raises something that is not a
    [SyntaxError], or the syntax is valid and the unit test cannot be run
    (staging or starting the child process raises, or the search of the
    output of a failed run raises [TypeError]).  In particular an
    exception of [ast.parse], of the visitor or of the tokenizer never ends
    the checks: it is recorded in the report. *)
Theorem checks_raise_only_on_fatal_errors (program : Path) (e : exn) :
  _run_checks_thread py_compile ast_parse recursion_error cleandoc
    generate_tokens path_read_text subprocess_run stage sys_executable
    program = Raises e
  <->
  read_text path_read_text program = Raises e
  \/ (exists source,
         read_text path_read_text program = Returns source
         /\ py_compile source = RaisesOther e)
  \/ (exists source,
         read_text path_read_text program = Returns source
         /\ py_compile source = Compiled
         /\ run_basic_unit_test subprocess_run stage sys_executable
              program 20 = Raises e).
Proof.
  unfold _run_checks_thread, static_analysis, syntax_check.
  destruct (read_text path_read_text program) as [source|e0]; cbn [bind].
  - destruct (py_compile source) as [|se|e1] eqn:Hc;
      cbn [bind syntax syn_ok].
    + destruct (run_basic_unit_test _ _ _ program 20) as [r|e2];
        cbn [bind]; split.
      * discriminate.
      * intros [H|[(src & H & H')|(src & H & _ & H')]]; try discriminate.
        inversion H; subst. congruence.
      * intros [= ->]. right. right. exists source. auto.
      * intros [H|[(src & H & H')|(src & H & _ & H')]];
          try discriminate; [inversion H; subst; congruence|].
        inversion H'. reflexivity.
    + split; [discriminate|].
      intros [H|[(src & H & H')|(src & H & H' & _)]]; try discriminate;
        inversion H; subst; congruence.
    + split.
      * intros [= ->]. right. left. exists source. auto.
      * intros [H|[(src & H & H')|(src & H & H' & _)]]; try discriminate;
          inversion H; subst; congruence.
  - split.
    + intros [= ->]. left. reflexivity.
    + intros [[= ->]|[(src & H & _)|(src & H & _)]];
        [reflexivity | discriminate | discriminate].
Qed.

(** A failure of [ast.parse] is a field of the report. *)
Lemma static_analysis_parse_failure (program : Path) (source : string)
      (e : exn) :
  read_text path_read_text program = Returns source ->
  py_compile source = Compiled ->
  ast_parse source = Raises e ->
  exists s,
    static_analysis py_compile ast_parse recursion_error cleandoc
      generate_tokens path_read_text program = Returns s
    /\ syn_ok (syntax s) = true
    /\ ast_block s = AstFailed (exn_str e).
Proof.
  intros Hr Hc Hp. unfold static_analysis, syntax_check.
  rewrite Hr. cbn [bind]. rewrite Hc. cbn [bind syn_ok]. rewrite Hp.
  eexists. split; [reflexivity|]. split; reflexivity.
Qed.

(** So is the [RecursionError] that ends the visitor. *)
Lemma static_analysis_visit_failure (program : Path) (source : string)
      (tree : ast) (e : exn) :
  read_text path_read_text program = Returns source ->
  py_compile source = Compiled ->
  ast_parse source = Returns tree ->
  recursion_error tree = Some e ->
  exists s,
    static_analysis py_compile ast_parse recursion_error cleandoc
      generate_tokens path_read_text program = Returns s
    /\ syn_ok (syntax s) = true
    /\ ast_block s = AstFailed (exn_str e).
Proof.
  intros Hr Hc Hp Hv. unfold static_analysis, syntax_check.
  rewrite Hr. cbn [bind]. rewrite Hc. cbn [bind syn_ok]. rewrite Hp.
  cbn [bind]. unfold visit. rewrite Hv.
  eexists. split; [reflexivity|]. split; reflexivity.
Qed.

End Outcomes.

(* ================================================================== *)
(** * The report of the static checks *)
(* ================================================================== *)

Lemma strongly_sorted_split {A : Type} (R : A -> A -> Prop) (l : list A) :
  StronglySorted R l ->
  forall n a b, In a (firstn n l) -> In b (skipn n l) -> R a b.
Proof.
  induction 1 as [|x l Hl IH Hx]; intros n a b Ha Hb.
  - rewrite firstn_nil in Ha. contradiction.
  - destruct n as [|n]; [contradiction|].
    cbn [firstn skipn In] in Ha, Hb. destruct Ha as [<-|Ha].
    + rewrite Forall_forall in Hx. apply Hx.
      rewrite <- (firstn_skipn n l). apply in_or_app. right. exact Hb.
    + eapply IH; eauto.
Qed.

Lemma complexity_ge_transitive :
  Relations_1.Transitive complexity_ge.
Proof. intros a b c H1 H2. unfold complexity_ge in *. lia. Qed.

Section Report.

Variable py_compile : string -> compile_outcome.
Variable ast_parse : string -> result ast.
Variable recursion_error : ast -> option exn.
Variable cleandoc : string -> string.
Variable generate_tokens : string -> result (list (token_type * string)).
Variable path_read_text : Path -> bool -> result string.

(** X18.  When the report has the block of tree checks, the syntax was
    valid, the file was parsed and the visitor got through its tree;
    [complexity_all] then holds one entry
    for every function definition of the tree, most complex first;
    [complexity_top5] is its first five entries (all of them when there are
    fewer), and no entry left out of the top five is more complex than one
    in it. *)
Theorem report_ranks_every_function
  (program : Path) (s : StaticReport) (ds : DocNamingReport)
  (top5 all : list ComplexityEntry) :
  static_analysis py_compile ast_parse recursion_error cleandoc
    generate_tokens path_read_text program = Returns s ->
  ast_block s = AstOk ds top5 all ->
  syn_ok (syntax s) = true
  /\ top5 = firstn 5 all
  /\ List.length top5 = Nat.min 5 (List.length all)
  /\ (forall a b,
         In a top5 -> In b (skipn 5 all) -> complexity b <= complexity a)
  /\ exists source tree,
       read_text path_read_text program = Returns source
       /\ ast_parse source = Returns tree
       /\ ds = docstrings_and_naming cleandoc tree
       /\ Permutation all (flat_map own_entry (subtree tree))
       /\ recursion_error tree = None.
Proof.
  unfold static_analysis.
  destruct (read_text path_read_text program) as [source|e]; cbn [bind];
    [|discriminate].
  destruct (syntax_check py_compile source) as [syn|e]; cbn [bind];
    [|discriminate].
  intros [= <-]. cbn [ast_block syntax].
  destruct (syn_ok syn); [|discriminate].
  destruct (ast_parse source) as [tree|e] eqn:Hp; cbn [bind];
    [|discriminate].
  destruct (visit recursion_error tree) as [entries|e] eqn:Hv; cbn [bind];
    [|discriminate].
  destruct (visit_returns _ _ _ Hv) as [Hnone ->].
  set (ranked := sorted_desc (flat_map own_entry (subtree tree))).
  intros H. assert (Hds : ds = docstrings_and_naming cleandoc tree)
    by (inversion H; reflexivity).
  assert (Htop : top5 = firstn 5 ranked) by (inversion H; reflexivity).
  assert (Hall : all = ranked) by (inversion H; reflexivity).
  clear H. subst ds top5 all. unfold ranked.
  split; [reflexivity|]. split; [reflexivity|].
  split; [apply length_firstn|]. split.
  - intros a b Ha Hb.
    apply (strongly_sorted_split complexity_ge
             (sorted_desc (flat_map own_entry (subtree tree))))
      with (n := 5); auto.
    apply Sorted_StronglySorted;
      [exact complexity_ge_transitive | apply sorted_desc_sorted].
  - exists source, tree.
    split; [reflexivity|]. split; [exact Hp|]. split; [reflexivity|].
    split; [apply sorted_desc_permutation | exact Hnone].
Qed.

End Report.

Lemma report_ranks_every_function_witness :
  exists s ds,
    static_analysis example_compile example_parse example_recursion
      example_cleandoc example_tokens example_read "prog.py" = Returns s
    /\ ast_block s
       = AstOk ds [mkComplexityEntry "twice" 2 1]
           [mkComplexityEntry "twice" 2 1]
    /\ syn_ok (syntax s) = true.
Proof.
  eexists. eexists. split; [vm_compute; reflexivity|].
  split; [reflexivity|].
  eapply (report_ranks_every_function example_compile example_parse
            example_recursion example_cleandoc example_tokens example_read
            "prog.py");
    [vm_compute; reflexivity | reflexivity].
Defined.

(* ================================================================== *)
(** * What the verdict tells *)
(* ================================================================== *)

(** The score is 100 exactly when no row of the table applies. *)
Lemma perfect_iff_no_rows (s : StaticReport) (t : option TestReport) :
  score (verdict s t) = 100%Z <-> spec_deductions s t = [].
Proof.
  destruct (verdict_fields s t) as (Hs & _ & _).
  pose proof (spec_deductions_positive s t) as Hpos.
  pose proof (total_deduction_lower _ Hpos) as Hlow.
  rewrite Hs, tally_spec. cbn [fst].
  destruct (spec_deductions s t) as [|row rows].
  - split; reflexivity.
  - cbn [List.length] in Hlow. split; [lia | discriminate].
Qed.

Lemma verdict_notes (s : StaticReport) (t : option TestReport) :
  notes (verdict s t) = map snd (spec_deductions s t).
Proof.
  destruct (verdict_fields s t) as (_ & _ & ->).
  rewrite tally_spec. reflexivity.
Qed.

(** The rows of the unit test bound the score from above. *)
Lemma score_at_most (s : StaticReport) (t : option TestReport) :
  (score (verdict s t) <= 100 - total_deduction (test_deductions t))%Z.
Proof.
  destruct (verdict_fields s t) as (Hs & _ & _).
  pose proof (total_deduction_lower _ (spec_deductions_positive s None)) as H.
  rewrite Hs, tally_spec, spec_deductions_split, total_deduction_app.
  cbn [fst].
  assert (0 <= total_deduction (test_deductions t) <= 50)%Z.
  { destruct t as [r|]; cbn [test_deductions]; [|cbn; lia].
    destruct (test_ok r), (test_timed_out r); cbn; lia. }
  lia.
Qed.

(** X19.  A unit test that fails caps the score at 70, so the level is
    Fair or Poor; a unit test that fails and times out caps the score at 50
    and a syntax error caps it at 20, so the level is Poor in both
    cases. *)
Theorem failures_cap_the_level (s : StaticReport) :
  (forall r, test_ok r = false ->
     (score (verdict s (Some r)) <= 70)%Z
     /\ (level (verdict s (Some r)) = "Fair"
         \/ level (verdict s (Some r)) = "Poor"))
  /\ (forall r, test_ok r = false -> test_timed_out r = true ->
        (score (verdict s (Some r)) <= 50)%Z
        /\ level (verdict s (Some r)) = "Poor")
  /\ (forall t, syn_ok (syntax s) = false ->
        (score (verdict s t) <= 20)%Z
        /\ level (verdict s t) = "Poor").
Proof.
  split; [|split].
  - intros r Hok.
    pose proof (score_at_most s (Some r)) as H.
    destruct (verdict_fields s (Some r)) as (_ & Hl & _).
    cbn [test_deductions] in H. rewrite Hok in H.
    assert (Hs : (score (verdict s (Some r)) <= 70)%Z).
    { destruct (test_timed_out r); cbn in H; lia. }
    split; [exact Hs|]. rewrite Hl. unfold level_of.
    destruct (Z.leb_spec 90 (score (verdict s (Some r)))); [lia|].
    destruct (Z.leb_spec 75 (score (verdict s (Some r)))); [lia|].
    destruct (Z.leb_spec 55 (score (verdict s (Some r)))); auto.
  - intros r Hok Hto.
    pose proof (score_at_most s (Some r)) as H.
    destruct (verdict_fields s (Some r)) as (_ & Hl & _).
    cbn [test_deductions] in H. rewrite Hok, Hto in H. cbn in H.
    split; [lia|]. rewrite Hl. unfold level_of.
    destruct (Z.leb_spec 90 (score (verdict s (Some r)))); [lia|].
    destruct (Z.leb_spec 75 (score (verdict s (Some r)))); [lia|].
    destruct (Z.leb_spec 55 (score (verdict s (Some r)))); [lia|reflexivity].
  - intros t Hsyn.
    pose proof (verdict_syntax_error_score s t Hsyn) as H.
    destruct (verdict_fields s t) as (_ & Hl & _).
    split; [exact H|]. rewrite Hl. unfold level_of.
    destruct (Z.leb_spec 90 (score (verdict s t))); [lia|].
    destruct (Z.leb_spec 75 (score (verdict s t))); [lia|].
    destruct (Z.leb_spec 55 (score (verdict s t))); [lia|reflexivity].
Qed.

Lemma failures_cap_the_level_witness :
  level (verdict example_report (Some failed_test)) = "Fair"
  /\ (score (verdict (mkStaticReport
                        (mkSyntaxResult false None)
                        (style example_report) (risky example_report)
                        (comments example_report)
                        (AstFailed "Skipped due to syntax error."))
                None) <= 20)%Z.
Proof.
  split.
  - destruct (failures_cap_the_level example_report) as (Hfail & _ & _).
    destruct (Hfail failed_test eq_refl) as [_ [H|H]];
      [exact H | vm_compute in H; discriminate].
  - destruct (failures_cap_the_level
                (mkStaticReport
                   (mkSyntaxResult false None)
                   (style example_report) (risky example_report)
                   (comments example_report)
                   (AstFailed "Skipped due to syntax error.")))
      as (_ & _ & Hsyn).
    destruct (Hsyn None eq_refl) as [H _]. exact H.
Defined.

(** X20.  The summary of the report says "No major issues detected."
    exactly when the score is 100; otherwise it lists the notes of the
    verdict, one line each, in their order. *)
Theorem summary_says_no_issues_iff_perfect
  (s : StaticReport) (t : option TestReport) :
  (In no_issues_line (render_summary (verdict s t)) <->
   score (verdict s t) = 100%Z)
  /\ (score (verdict s t) <> 100%Z ->
      skipn 3 (render_summary (verdict s t))
      = map bullet (notes (verdict s t))).
Proof.
  assert (Hnil : notes (verdict s t) = [] <-> score (verdict s t) = 100%Z).
  { rewrite perfect_iff_no_rows, verdict_notes.
    destruct (spec_deductions s t); split; try reflexivity; discriminate. }
  unfold render_summary.
  destruct (notes (verdict s t)) as [|n ns] eqn:Hn.
  - split.
    + split; [intros _; apply Hnil; reflexivity|].
      intros _. cbn [app In]. right. right. left. reflexivity.
    + intros Hne. exfalso. apply Hne, Hnil. reflexivity.
  - split.
    + split.
      * intros Hin. exfalso. cbn [app In] in Hin.
        destruct Hin as [H|[H|[H|Hin]]]; try discriminate.
        change (In no_issues_line (map bullet (n :: ns))) in Hin.
        apply in_map_iff in Hin. destruct Hin as (x & Hx & _).
        discriminate.
      * intros Hs. apply Hnil in Hs. discriminate.
    + intros _. reflexivity.
Qed.

Lemma summary_says_no_issues_iff_perfect_witness :
  skipn 3 (render_summary (verdict example_report (Some failed_test)))
  = [bullet "Unit test failed (or crashed)."].
Proof.
  destruct (summary_says_no_issues_iff_perfect example_report
              (Some failed_test)) as [_ H].
  rewrite H; [reflexivity | vm_compute; discriminate].
Defined.

(* ================================================================== *)
(** * The perfect score *)
(* ================================================================== *)

Lemma app_eq_nil_iff {A : Type} (l1 l2 : list A) :
  (l1 ++ l2)%list = [] <-> l1 = [] /\ l2 = [].
Proof.
  split; [apply app_eq_nil|]. intros [-> ->]. reflexivity.
Qed.

Lemma when_nil (cond : bool) (row : Row) :
  when cond row = [] <-> cond = false.
Proof. destruct cond; cbn [when]; split; auto; discriminate. Qed.

Lemma eqb_zero (n : nat) : negb (Nat.eqb n 0) = false <-> n = 0.
Proof. destruct n; cbn; split; auto; discriminate. Qed.

(** No row of the table applies exactly when each condition is off. *)
Lemma no_rows_iff (s : StaticReport) (t : option TestReport) :
  spec_deductions s t = [] <->
  syn_ok (syntax s) = true
  /\ mixed_indentation (counts (style s)) = 0
  /\ long_lines_gt_100 (counts (style s)) = 0
  /\ flags (risky s) = []
  /\ match ast_block s with
     | AstOk ds _ _ =>
         module_has_docstring ds = true
         /\ missing_function_docstrings ds = 0
         /\ naming_issues ds = []
     | AstFailed _ => True
     end
  /\ match t with
     | Some r => test_ok r = true /\ test_timed_out r = false
     | None => True
     end.
Proof.
  unfold spec_deductions.
  rewrite !app_eq_nil_iff, !when_nil, !eqb_zero, negb_false_iff,
    length_zero_iff_nil.
  assert (Ha : ast_deductions (ast_block s) = [] <->
               match ast_block s with
               | AstOk ds _ _ =>
                   module_has_docstring ds = true
                   /\ missing_function_docstrings ds = 0
                   /\ naming_issues ds = []
               | AstFailed _ => True
               end).
  { unfold ast_deductions. destruct (ast_block s) as [ds ? ?|?];
      [|split; auto].
    rewrite !app_eq_nil_iff, !when_nil, !eqb_zero, negb_false_iff,
      length_zero_iff_nil. reflexivity. }
  assert (Hb : test_deductions t = [] <->
               match t with
               | Some r => test_ok r = true /\ test_timed_out r = false
               | None => True
               end).
  { unfold test_deductions. destruct t as [r|]; [|split; auto].
    rewrite !app_eq_nil_iff, !when_nil, negb_false_iff. reflexivity. }
  rewrite Ha, Hb. reflexivity.
Qed.

(** The counters of the style report, written out. *)
Lemma style_check_counts (source : string) :
  let lines := splitlines true source in
  counts (style_check source)
  = mkStyleCounts (List.length lines) (count_lines is_long lines)
      (count_lines has_trailing_whitespace lines)
      (count_lines has_tab lines)
      (if existsb starts_with_tab lines && existsb starts_with_space lines
       then 1 else 0).
Proof.
  cbn zeta. unfold style_check.
  destruct (style_loop_spec (splitlines true source) 1 scan_start)
    as (Hl & Ht & Hb & Hti & Hsi & _).
  cbn zeta in *. cbn [counts]. rewrite Hl, Ht, Hb, Hti, Hsi.
  reflexivity.
Qed.

Lemma no_flags_iff (source : string) :
  flags (risky_patterns source) = [] <->
  forall key detail, In (key, detail) patterns -> ~ occurs_in key source.
Proof.
  rewrite risky_patterns_flags. split.
  - intros Hnil key detail Hin Hocc.
    apply contains_spec in Hocc.
    assert (Hf : In (key, detail)
                   (filter (fun km => contains (fst km) source) patterns)).
    { apply filter_In. auto. }
    apply (in_map (fun km => mkRiskFlag (fst km) (snd km))) in Hf.
    rewrite Hnil in Hf. contradiction.
  - intros Hnone.
    destruct (filter (fun km => contains (fst km) source) patterns)
      as [|[k d] l] eqn:Hf; [reflexivity|].
    assert (Hin : In (k, d) ((k, d) :: l)) by (left; reflexivity).
    rewrite <- Hf in Hin. apply filter_In in Hin. destruct Hin as [Hin Hc].
    exfalso. apply (Hnone k d Hin). apply contains_spec. exact Hc.
Qed.

Section Perfect.

Variable py_compile : string -> compile_outcome.
Variable ast_parse : string -> result ast.
Variable recursion_error : ast -> option exn.
Variable cleandoc : string -> string.
Variable generate_tokens : string -> result (list (token_type * string)).
Variable path_read_text : Path -> bool -> result string.
Variable subprocess_run : list string -> Path -> nat -> process_outcome * Q.
Variable stage : Path -> string -> result Path.
Variable sys_executable : string.

(** The fields of the report, as [static_analysis] fills them. *)
Lemma static_analysis_fields (program : Path) (s : StaticReport) :
  static_analysis py_compile ast_parse recursion_error cleandoc
    generate_tokens path_read_text program = Returns s ->
  exists source,
    read_text path_read_text program = Returns source
    /\ syntax_check py_compile source = Returns (syntax s)
    /\ style s = style_check source
    /\ risky s = risky_patterns source
    /\ ast_block s
       = if syn_ok (syntax s)
         then match ast_parse source with
              | Returns tree =>
                  match recursion_error tree with
                  | None =>
                      AstOk (docstrings_and_naming cleandoc tree)
                        (take 5 (sorted_desc
                                   (flat_map own_entry (subtree tree))))
                        (sorted_desc (flat_map own_entry (subtree tree)))
                  | Some e => AstFailed (exn_str e)
                  end
              | Raises e => AstFailed (exn_str e)
              end
         else AstFailed "Skipped due to syntax error.".
Proof.
  unfold static_analysis.
  destruct (read_text path_read_text program) as [source|e]; cbn [bind];
    [|discriminate].
  destruct (syntax_check py_compile source) as [syn|e] eqn:Hsyn; cbn [bind];
    [|discriminate].
  intros [= <-]. exists source. cbn [syntax style risky ast_block].
  split; [reflexivity|]. split; [exact Hsyn|].
  split; [reflexivity|]. split; [reflexivity|].
  destruct (syn_ok syn); [|reflexivity].
  destruct (ast_parse source) as [tree|e]; cbn [bind]; [|reflexivity].
  rewrite visit_outcome.
  destruct (recursion_error tree); reflexivity.
Qed.

(** When the checks of a file end with the score 100. *)
Lemma checks_perfect_iff
  (program : Path) (s : StaticReport) (t : option TestReport) (v : Verdict) :
  _run_checks_thread py_compile ast_parse recursion_error cleandoc
    generate_tokens path_read_text subprocess_run stage sys_executable program
  = Returns (s, t, v) ->
  (score v = 100%Z <->
   exists source r,
     read_text path_read_text program = Returns source
     /\ clean_file py_compile ast_parse recursion_error source
     /\ t = Some r /\ test_ok r = true /\ test_timed_out r = false).
Proof.
  intros Hrun.
  destruct (run_checks_gate _ _ _ _ _ _ _ _ _ _ _ _ _ Hrun)
    as (Ha & -> & Hgate).
  destruct (static_analysis_fields _ _ Ha)
    as (source & Hread & Hsyn & Hstyle & Hrisky & Hast).
  rewrite perfect_iff_no_rows, no_rows_iff, Hstyle, Hrisky, no_flags_iff.
  pose proof (style_check_counts source) as Hc. cbn zeta in Hc.
  rewrite Hc. cbn [mixed_indentation long_lines_gt_100].
  assert (Hmixed :
    (if existsb starts_with_tab (splitlines true source)
        && existsb starts_with_space (splitlines true source)
     then 1 else 0) = 0 <->
    ~ ((exists l, In l (splitlines true source) /\ starts_with_tab l = true)
       /\ (exists l, In l (splitlines true source)
                     /\ starts_with_space l = true))).
  { rewrite <- !existsb_true_iff.
    destruct (existsb starts_with_tab _), (existsb starts_with_space _);
      cbn [andb]; split; intros H; try discriminate; try reflexivity;
      try (intros [H1 H2]; discriminate).
    exfalso. apply H. auto. }
  assert (Hcompiled : syn_ok (syntax s) = true <-> py_compile source = Compiled).
  { destruct (syntax_check_shape _ _ _ Hsyn)
      as [(Hok & _ & Hcomp) | (Hok & _ & e & Hcomp)];
      rewrite Hok, Hcomp; split; auto; discriminate. }
  assert (Hdocs : syn_ok (syntax s) = true ->
    (match ast_block s with
     | AstOk ds _ _ =>
         module_has_docstring ds = true
         /\ missing_function_docstrings ds = 0
         /\ naming_issues ds = []
     | AstFailed _ => True
     end <->
     forall tree,
       ast_parse source = Returns tree -> recursion_error tree = None ->
       is_some (raw_docstring tree) = true
       /\ missing_docs (flat_map function_info (body_of tree)) = 0
       /\ flat_map naming_issue_of (body_of tree) = [])).
  { intros Hok. rewrite Hast, Hok.
    destruct (ast_parse source) as [tree|e].
    - destruct (recursion_error tree) as [e|] eqn:Hrec.
      + split; [|auto]. intros _ tree' [= <-] H. congruence.
      + destruct (docstrings_and_naming_spec cleandoc tree)
          as (Hf & _ & Hn & Hm & Hmf & _).
        cbn zeta in *. rewrite Hm, Hmf, Hf, Hn. split.
        * intros H tree' [= <-] _. exact H.
        * intros H. apply H; [reflexivity | exact Hrec].
    - split; [intros _ tree H; discriminate | auto]. }
  split.
  - intros (Hok & Hmix & Hlong & Hflags & Hdoc & Htest).
    rewrite Hok in Hgate. destruct Hgate as (r & _ & ->).
    exists source, r. split; [exact Hread|]. split; [|tauto].
    unfold clean_file.
    split; [apply Hcompiled; exact Hok|].
    split; [exact Hlong|]. split; [apply Hmixed; exact Hmix|].
    split; [exact Hflags|]. apply Hdocs; assumption.
  - intros (source' & r & Hread' & Hclean & -> & Hrok & Hrto).
    rewrite Hread in Hread'. injection Hread' as <-.
    destruct Hclean as (Hcomp & Hlong & Hmix & Hflags & Hdoc).
    assert (Hok : syn_ok (syntax s) = true) by (apply Hcompiled; exact Hcomp).
    split; [exact Hok|]. split; [apply Hmixed; exact Hmix|].
    split; [exact Hlong|]. split; [exact Hflags|].
    split; [apply Hdocs; assumption | auto].
Qed.

(** X21.  The checks of a file end with the score 100 exactly when the
    file is clean and its unit test passes: the file compiles, has no line
    longer than 100 characters, does not have both a line that starts with
    a tab and one that starts with a space, holds none of the risk
    patterns, has (when [ast.parse] accepts it and the visitor gets through
    its tree) a module docstring, a docstring for every top-level function
    and no naming issue, and the unit test ran, passed and did not time
    out.  A file that [ast.parse] rejects, or whose tree is nested too
    deeply for the visitor, is not checked for docstrings and names, and
    can have the score 100 without them. *)
Theorem perfect_score_iff_clean_and_passing
  (program : Path) (s : StaticReport) (t : option TestReport) (v : Verdict) :
  _run_checks_thread py_compile ast_parse recursion_error cleandoc
    generate_tokens path_read_text subprocess_run stage sys_executable program
  = Returns (s, t, v) ->
  (score v = 100%Z <->
   exists source r,
     read_text path_read_text program = Returns source
     /\ clean_file py_compile ast_parse recursion_error source
     /\ t = Some r /\ test_ok r = true /\ test_timed_out r = false).
Proof. apply checks_perfect_iff. Qed.

End Perfect.

(** The example file has the score 100, and so has a file without any
    docstring whose tree is too deep for the visitor. *)
Lemma perfect_score_iff_clean_and_passing_witness :
  (exists s t v,
      _run_checks_thread example_compile example_parse
        (limited_recursion 490) example_cleandoc example_tokens example_read
        example_subprocess example_stage example_executable "prog.py"
      = Returns (s, t, v)
      /\ score v = 100%Z
      /\ clean_file example_compile example_parse (limited_recursion 490)
           example_source)
  /\ (exists s t v,
         _run_checks_thread example_compile deep_parse
           (limited_recursion 490) example_cleandoc example_tokens deep_read
           example_subprocess example_stage example_executable "deep.py"
         = Returns (s, t, v)
         /\ score v = 100%Z
         /\ raw_docstring (deep_tree 600) = None
         /\ clean_file example_compile deep_parse (limited_recursion 490)
              (deep_source 600)).
Proof.
  split.
  - eexists. eexists. eexists. split; [vm_compute; reflexivity|].
    split; [reflexivity|].
    edestruct (perfect_score_iff_clean_and_passing example_compile
                 example_parse (limited_recursion 490) example_cleandoc
                 example_tokens example_read example_subprocess example_stage
                 example_executable "prog.py")
      as [Hperfect _]; [vm_compute; reflexivity|].
    destruct (Hperfect eq_refl) as (source & r & Hread & Hclean & _).
    injection Hread as <-. exact Hclean.
  - eexists. eexists. eexists. split; [vm_compute; reflexivity|].
    split; [reflexivity|]. split; [reflexivity|].
    edestruct (perfect_score_iff_clean_and_passing example_compile
                 deep_parse (limited_recursion 490) example_cleandoc
                 example_tokens deep_read example_subprocess example_stage
                 example_executable "deep.py")
      as [Hperfect _]; [vm_compute; reflexivity|].
    destruct (Hperfect eq_refl) as (source & r & Hread & Hclean & _).
    injection Hread as <-. exact Hclean.
Defined.

(* ================================================================== *)
(** * The lines of the source *)
(* ================================================================== *)

Lemma string_app_assoc (a b c : string) : (a ++ b) ++ c = a ++ (b ++ c).
Proof.
  induction a as [|x a IH]; cbn [String.append]; [reflexivity|].
  rewrite IH. reflexivity.
Qed.

Lemma string_app_nil_r (a : string) : a ++ EmptyString = a.
Proof.
  induction a as [|x a IH]; cbn [String.append]; [reflexivity|].
  rewrite IH. reflexivity.
Qed.

Lemma is_empty_app_char (cur : string) (c : ascii) (rest : string) :
  is_empty (cur ++ String c rest) = false.
Proof. destruct cur; reflexivity. Qed.

(** Splitting with the line ends kept loses nothing and gives no empty
    line. *)
Lemma splitlines_from_spec (n : nat) :
  forall s cur,
    String.length s <= n ->
    join (splitlines_from true cur s) = cur ++ s
    /\ Forall (fun line => is_empty line = false)
         (splitlines_from true cur s).
Proof.
  induction n as [|n IH]; intros s cur Hn.
  - destruct s; cbn [String.length] in Hn; [|lia].
    cbn [splitlines_from]. destruct cur as [|c cur]; cbn [is_empty].
    + split; [reflexivity | constructor].
    + split; [cbn [join fold_right]; rewrite !string_app_nil_r; reflexivity|].
      constructor; [reflexivity | constructor].
  - destruct s as [|c rest].
    + cbn [splitlines_from]. destruct cur as [|c cur]; cbn [is_empty].
      * split; [reflexivity | constructor].
      * split; [cbn [join fold_right]; rewrite !string_app_nil_r;
                reflexivity|].
        constructor; [reflexivity | constructor].
    + cbn [String.length] in Hn. cbn [splitlines_from keep].
      destruct (mem_char c line_boundaries).
      * destruct rest as [|d rest'].
        -- split; [cbn [join fold_right]; apply string_app_nil_r|].
           constructor; [apply is_empty_app_char | constructor].
        -- destruct (Ascii.eqb c carriage_return && Ascii.eqb d newline).
           ++ cbn [String.length] in Hn.
              destruct (IH rest' EmptyString) as [Hj Hf]; [lia|].
              split.
              ** cbn [join fold_right]. fold (join (splitlines_from true
                   EmptyString rest')). rewrite Hj.
                 cbn [String.append]. rewrite string_app_assoc.
                 reflexivity.
              ** constructor; [apply is_empty_app_char | exact Hf].
           ++ destruct (IH (String d rest') EmptyString) as [Hj Hf];
                [cbn [String.length] in *; lia|].
              split.
              ** cbn [join fold_right]. fold (join (splitlines_from true
                   EmptyString (String d rest'))). rewrite Hj.
                 cbn [String.append]. rewrite string_app_assoc.
                 reflexivity.
              ** constructor; [apply is_empty_app_char | exact Hf].
      * destruct (IH rest (cur ++ String c EmptyString)) as [Hj Hf]; [lia|].
        split; [|exact Hf].
        rewrite Hj, string_app_assoc. reflexivity.
Qed.

(** X22.  The lines the style scan looks at are the whole source: put
    together again they give the source back, none of them is empty, and
    the file has no line exactly when it is empty. *)
Theorem scanned_lines_make_up_the_source (source : string) :
  let lines := splitlines true source in
  join lines = source
  /\ Forall (fun line => is_empty line = false) lines
  /\ (total_lines (counts (style_check source)) = 0 <->
      source = EmptyString).
Proof.
  cbn zeta.
  destruct (splitlines_from_spec (String.length source) source EmptyString)
    as [Hj Hf]; [lia|].
  fold (splitlines true source) in Hj, Hf. cbn [String.append] in Hj.
  split; [exact Hj|]. split; [exact Hf|].
  pose proof (style_check_counts source) as Hc. cbn zeta in Hc.
  rewrite Hc. cbn [total_lines]. rewrite length_zero_iff_nil. split.
  - intros Hnil. rewrite Hnil in Hj. symmetry. exact Hj.
  - intros ->. reflexivity.
Qed.

(* ================================================================== *)
(** * Properties of the window *)
(* ================================================================== *)

Module GuiFacts.
Import Gui.

Lemma consistent_init : consistent init.
Proof.
  unfold consistent, init. cbn.
  split; [reflexivity|]. split; [discriminate|].
  intros _. split; [reflexivity|]. split; [reflexivity|].
  split; [discriminate | intros H; contradiction].
Qed.

Lemma consistent_step (a : App) (ev : event) :
  consistent a -> consistent (step a ev).
Proof.
  intros Ha. pose proof Ha as (Hcount & Hrun & Hidle).
  destruct ev as [fp|exists_| |]; cbn [step]; [| | exact Ha |].
  - destruct (btn_upload a) eqn:Hup; [|exact Ha].
    unfold on_upload. destruct (is_empty fp); [exact Ha|].
    destruct (is_running a) eqn:Hr.
    + destruct (Hrun eq_refl) as (Hd & _). congruence.
    + destruct (Hidle eq_refl) as (_ & Hinfo & _).
      unfold consistent. cbn [threads finished is_running btn_upload
                                btn_test btn_info program_path].
      split; [exact Hcount|]. split; [intros H; discriminate H|].
      intros _. split; [exact Hup|]. split; [exact Hinfo|].
      split; [intros _; discriminate | reflexivity].
  - destruct (btn_test a) eqn:Hbt; [|exact Ha].
    unfold on_test. destruct (program_path a) eqn:Hp; [|exact Ha].
    destruct (negb exists_); [exact Ha|].
    destruct (is_running a) eqn:Hr; [exact Ha|].
    unfold consistent, _set_running.
    cbn [threads finished is_running btn_upload btn_test btn_info
           program_path].
    split; [lia|]. split; [auto | intros H; discriminate H].
  - destruct (Nat.ltb_spec (finished a) (threads a)) as [Hlt|Hge];
      [|exact Ha].
    destruct (is_running a) eqn:Hr; [|lia].
    unfold consistent, run_finished, _set_running.
    cbn [threads finished is_running btn_upload btn_test btn_info
           program_path].
    split; [lia|]. split; [intros H; discriminate H|].
    intros _. split; [reflexivity|]. split; [reflexivity|].
    destruct (program_path a); split; intros H; congruence.
Qed.

Lemma consistent_run_from (events : list event) :
  forall a, consistent a -> consistent (fold_left step events a).
Proof.
  induction events as [|ev events IH]; intros a Ha; cbn [fold_left];
    [exact Ha|].
  apply IH, consistent_step, Ha.
Qed.

(** X23.  [on_test] starts the thread of the checks only when a file is
    selected, the file exists and no check is running; it then marks the
    window as running and disables the three buttons.  In every other case
    it leaves the window as it is, so a click while a check is running
    never starts a second one. *)
Theorem on_test_starts_at_most_one_run (exists_ : bool) (a : App) :
  (threads (on_test exists_ a) = S (threads a) <->
   program_path a <> None /\ exists_ = true /\ is_running a = false)
  /\ (threads (on_test exists_ a) = S (threads a) ->
      is_running (on_test exists_ a) = true
      /\ btn_upload (on_test exists_ a) = disabled
      /\ btn_test (on_test exists_ a) = disabled
      /\ btn_info (on_test exists_ a) = disabled)
  /\ (threads (on_test exists_ a) <> S (threads a) ->
      on_test exists_ a = a).
Proof.
  unfold on_test.
  destruct (program_path a) as [p|] eqn:Hp.
  - destruct exists_; cbn [negb].
    + destruct (is_running a) eqn:Hr.
      * split; [|split]; [|intros H; lia | reflexivity].
        split; [intros H; lia|]. intros (_ & _ & H). discriminate.
      * cbn. split; [|split]; [|auto | intros H; congruence].
        split; [intros _|reflexivity].
        split; [discriminate | auto].
    + split; [|split]; [|intros H; lia | reflexivity].
      split; [intros H; lia|]. intros (_ & H & _). discriminate.
  - split; [|split]; [|intros H; lia | reflexivity].
    split; [intros H; lia|]. intros (H & _). contradiction.
Qed.

Lemma on_test_starts_at_most_one_run_witness :
  threads (run [click_upload "prog.py"; click_test true]) = 1
  /\ is_running (run [click_upload "prog.py"; click_test true]) = true.
Proof.
  destruct (on_test_starts_at_most_one_run true
              (run [click_upload "prog.py"])) as (Hstart & Hbusy & _).
  assert (H : threads (on_test true (run [click_upload "prog.py"]))
              = S (threads (run [click_upload "prog.py"]))).
  { apply Hstart. split; [discriminate|]. split; reflexivity. }
  split; [exact H | apply Hbusy, H].
Defined.

(** X24.  Whatever the user clicks and whenever the runs end, the window
    stays consistent: at most one check is under way, and exactly one
    while [is_running] is set; while a check runs the three buttons are
    disabled; and while none runs the upload and info buttons are enabled,
    and the test button is enabled exactly when a file has been
    selected. *)
Theorem window_stays_consistent (events : list event) :
  consistent (run events)
  /\ threads (run events) <= S (finished (run events))
  /\ (btn_test (run events) = normal ->
      is_running (run events) = false /\ program_path (run events) <> None).
Proof.
  assert (H : consistent (run events)).
  { unfold run. apply consistent_run_from, consistent_init. }
  split; [exact H|]. destruct H as (Hcount & Hrun & Hidle).
  split.
  - destruct (is_running (run events)); lia.
  - intros Hbt. destruct (is_running (run events)) eqn:Hr.
    + destruct (Hrun eq_refl) as (_ & Hd & _). congruence.
    + split; [reflexivity|]. apply (Hidle eq_refl). exact Hbt.
Qed.

Lemma window_stays_consistent_witness :
  btn_test (run [click_upload "prog.py"; click_test true; click_test true;
                 run_ends]) = normal
  /\ threads (run [click_upload "prog.py"; click_test true; click_test true;
                   run_ends]) = 1
  /\ program_path (run [click_upload "prog.py"; click_test true;
                        click_test true; run_ends]) <> None.
Proof.
  split; [reflexivity|]. split; [reflexivity|].
  apply (window_stays_consistent
           [click_upload "prog.py"; click_test true; click_test true;
            run_ends]).
  reflexivity.
Defined.

End GuiFacts.

(* ================================================================== *)
(** * The minimal valid file *)
(* ================================================================== *)

(** C4 (counterexample).  The checks of the example file, which has a
    module docstring, one documented function with a snake-case name, no
    long line, no mixed indentation and no risk pattern, and whose unit
    test passes, end with the score 100, and [verdict] returns no note at
    all, not one. *)
Lemma verdict_of_minimal_file_has_no_note :
  exists s t v,
    _run_checks_thread example_compile example_parse example_recursion
      example_cleandoc example_tokens example_read example_subprocess
      example_stage example_executable "prog.py" = Returns (s, Some t, v)
    /\ v = verdict s (Some t)
    /\ score v = 100%Z
    /\ notes v = []
    /\ List.length (notes v) <> 1.
Proof.
  eexists. eexists. eexists. split; [vm_compute; reflexivity|].
  split; [reflexivity|]. split; [reflexivity|]. split; [reflexivity|].
  cbn. discriminate.
Qed.

Section Minimal.

Variable py_compile : string -> compile_outcome.
Variable ast_parse : string -> result ast.
Variable recursion_error : ast -> option exn.
Variable cleandoc : string -> string.
Variable generate_tokens : string -> result (list (token_type * string)).
Variable path_read_text : Path -> bool -> result string.
Variable subprocess_run : list string -> Path -> nat -> process_outcome * Q.
Variable stage : Path -> string -> result Path.
Variable sys_executable : string.

(** A unit test that passes at the first run is reported as passed. *)
Lemma run_basic_unit_test_passes (program tdir : Path) (timeout_sec : nat)
      (out err : option string) (dt : Q) :
  stage program "target_module" = Returns tdir ->
  subprocess_run (cmd1 sys_executable) tdir timeout_sec
  = (Completed 0 out err, dt) ->
  exists t,
    run_basic_unit_test subprocess_run stage sys_executable program
      timeout_sec = Returns t
    /\ test_ok t = true /\ test_timed_out t = false.
Proof.
  intros Hstage Hsub. unfold run_basic_unit_test.
  fold (cmd1 sys_executable). rewrite Hstage. cbn [bind].
  unfold safe_run. rewrite Hsub. cbn [bind Z.eqb ok negb].
  eexists. split; [reflexivity|]. split; reflexivity.
Qed.

(** C4 (as amended).  For a file with a module docstring and one
    documented function whose name matches the snake-case pattern, without
    long lines, mixed indentation and risk patterns, and whose unit test
    passes at the first run, the checks end with a report; [verdict]
    returns the score 100, the level Excellent and an empty list of notes;
    and the summary [_render_report] writes for this verdict has one note
    line, "No major issues detected.". *)
Theorem minimal_valid_file_scores_100
  (program : Path) (source doc name fdoc : string) (lineno : Z) (fn : ast)
  (tdir : Path) (out err : option string) (dt : Q) :
  read_text path_read_text program = Returns source ->
  py_compile source = Compiled ->
  ast_parse source = Returns (Module [Expr (Constant (Str doc)); fn]) ->
  header fn = Some (FunctionKind, name, lineno, Some fdoc) ->
  SNAKE_CASE_RE name = true ->
  count_lines is_long (splitlines true source) = 0 ->
  ~ ((exists l, In l (splitlines true source) /\ starts_with_tab l = true)
     /\ (exists l, In l (splitlines true source)
                   /\ starts_with_space l = true)) ->
  (forall key detail, In (key, detail) patterns -> ~ occurs_in key source) ->
  stage program "target_module" = Returns tdir ->
  subprocess_run (cmd1 sys_executable) tdir 20 = (Completed 0 out err, dt) ->
  exists s t v,
    _run_checks_thread py_compile ast_parse recursion_error cleandoc
      generate_tokens path_read_text subprocess_run stage sys_executable
      program = Returns (s, Some t, v)
    /\ v = verdict s (Some t)
    /\ score v = 100%Z
    /\ level v = "Excellent"
    /\ notes v = []
    /\ rendered_notes v = ["No major issues detected."]
    /\ render_summary v
       = ["=== Summary ===" ++ String newline EmptyString;
          "Score: 100   Level: Excellent" ++ String newline EmptyString;
          no_issues_line].
Proof.
  intros Hread Hcomp Hparse Hheader Hsnake Hlong Hmix Hrisk Hstage Hsub.
  destruct (run_basic_unit_test_passes program tdir 20 out err dt Hstage Hsub)
    as (t & Hrun & Hok & Hto).
  assert (Hchecks : exists s,
    _run_checks_thread py_compile ast_parse recursion_error cleandoc
      generate_tokens path_read_text subprocess_run stage sys_executable
      program = Returns (s, Some t, verdict s (Some t))).
  { unfold _run_checks_thread, static_analysis.
    rewrite Hread. cbn [bind]. unfold syntax_check. rewrite Hcomp.
    cbn [bind syn_ok syntax]. rewrite Hrun. cbn [bind].
    eexists. reflexivity. }
  destruct Hchecks as (s & Hchecks).
  assert (Hscore : score (verdict s (Some t)) = 100%Z).
  { apply (checks_perfect_iff _ _ _ _ _ _ _ _ _ _ _ _ _ Hchecks).
    exists source, t. split; [exact Hread|]. split; [|auto].
    unfold clean_file. split; [exact Hcomp|]. split; [exact Hlong|].
    split; [exact Hmix|]. split; [exact Hrisk|].
    intros tree Htree _. rewrite Hparse in Htree. injection Htree as <-.
    cbn [raw_docstring is_some body_of flat_map function_info
           naming_issue_of app].
    destruct fn; cbn [header] in Hheader; try discriminate;
      injection Hheader as -> -> Hdoc;
      cbn [function_info naming_issue_of app]; rewrite Hdoc, Hsnake;
      rewrite andb_false_r; repeat split. }
  assert (Hnotes : notes (verdict s (Some t)) = []).
  { rewrite verdict_notes.
    apply perfect_iff_no_rows in Hscore. rewrite Hscore. reflexivity. }
  assert (Hlevel : level (verdict s (Some t)) = "Excellent").
  { destruct (verdict_fields s (Some t)) as (_ & -> & _).
    rewrite Hscore. reflexivity. }
  exists s, t, (verdict s (Some t)).
  split; [exact Hchecks|]. split; [reflexivity|]. split; [exact Hscore|].
  split; [exact Hlevel|]. split; [exact Hnotes|].
  unfold rendered_notes, render_summary.
  rewrite Hnotes, Hscore, Hlevel. split; reflexivity.
Qed.

End Minimal.

Lemma minimal_valid_file_scores_100_witness :
  exists s t v,
    _run_checks_thread example_compile example_parse example_recursion
      example_cleandoc example_tokens example_read example_subprocess
      example_stage example_executable "prog.py" = Returns (s, Some t, v)
    /\ v = verdict s (Some t)
    /\ score v = 100%Z
    /\ level v = "Excellent"
    /\ notes v = []
    /\ rendered_notes v = ["No major issues detected."]
    /\ render_summary v
       = ["=== Summary ===" ++ String newline EmptyString;
          "Score: 100   Level: Excellent" ++ String newline EmptyString;
          no_issues_line].
Proof.
  apply (minimal_valid_file_scores_100 example_compile example_parse
           example_recursion example_cleandoc example_tokens example_read
           example_subprocess example_stage example_executable
           "prog.py" example_source "A tiny module." "twice"
           "Return two times x." 2%Z
           (FunctionDef "twice" 2
              [ Node (Other "arguments") [Node (Other "arg") []] ]
              [ Expr (Constant (Str "Return two times x."));
                Node (Other "Return")
                  [ Node (Other "BinOp")
                      [ Node (Other "Name") [Node (Other "Load") []];
                        Node (Other "Add") [];
                        Node (Other "Name") [Node (Other "Load") []] ] ] ]
              [])
           "/tmp/program_tester_0" (Some "")
           (Some "Ran 2 tests in 0.001s OK") (1 # 10)).
  - reflexivity.
  - reflexivity.
  - reflexivity.
  - reflexivity.
  - reflexivity.
  - vm_compute. reflexivity.
  - intros [(l & Hin & Htab) _].
    assert (H : existsb starts_with_tab (splitlines true example_source)
                = true)
      by (apply existsb_true_iff; exists l; auto).
    vm_compute in H. discriminate.
  - apply no_flags_iff. vm_compute. reflexivity.
  - reflexivity.
  - reflexivity.
Defined.

(* ================================================================== *)
(** * The complexity that is reported *)
(* ================================================================== *)

Lemma count_nodes_cons (test : ast -> bool) (n : ast) (nodes : list ast) :
  count_nodes test (n :: nodes)
  = (if test n then 1 else 0) + count_nodes test nodes.
Proof. unfold count_nodes. cbn [filter]. destruct (test n); reflexivity. Qed.

(** What [_complexity_of] adds for a node, kind by kind. *)
Lemma increment_by_kind (n : ast) :
  increment n
  = (if is_conditional_branch n then 1 else 0)
    + (if is_plain_loop n then 1 else 0)
    + (if is_plain_exception_block n then 1 else 0)
    + (if is_exception_clause n then 1 else 0)
    + (if is_resource_block n then 1 else 0)
    + boolean_weight n
    + (if is_pattern_match n then 1 else 0).
Proof.
  destruct n as [| | | | | | |cls children]; try reflexivity.
  - cbn [increment is_conditional_branch is_plain_loop
           is_plain_exception_block is_exception_clause is_resource_block
           boolean_weight is_pattern_match]. lia.
  - destruct cls; reflexivity.
Qed.

Lemma sum_of_increments (nodes : list ast) :
  list_sum (map increment nodes)
  = count_nodes is_conditional_branch nodes
    + count_nodes is_plain_loop nodes
    + count_nodes is_plain_exception_block nodes
    + count_nodes is_exception_clause nodes
    + count_nodes is_resource_block nodes
    + list_sum (map boolean_weight nodes)
    + count_nodes is_pattern_match nodes.
Proof.
  induction nodes as [|n nodes IH]; [reflexivity|].
  cbn [map]. rewrite !list_sum_cons, !count_nodes_cons, IH, increment_by_kind.
  lia.
Qed.

Lemma complexity_of_counted (fn : ast) :
  _complexity_of fn = counted_complexity fn.
Proof.
  rewrite complexity_of_structural.
  unfold structural_complexity, counted_complexity. cbn zeta.
  rewrite sum_of_increments. lia.
Qed.

(** The loops and the exception-handling blocks, plain and not. *)
Lemma loops_split (nodes : list ast) :
  count_nodes is_loop nodes
  = count_nodes is_plain_loop nodes + count_nodes is_async_loop nodes.
Proof.
  induction nodes as [|n nodes IH]; [reflexivity|].
  rewrite !count_nodes_cons, IH.
  destruct n as [| | | | | | |cls children]; cbn; try lia.
  destruct cls; cbn; lia.
Qed.

Lemma exception_blocks_split (nodes : list ast) :
  count_nodes is_exception_block nodes
  = count_nodes is_plain_exception_block nodes
    + count_nodes is_exception_group_block nodes.
Proof.
  induction nodes as [|n nodes IH]; [reflexivity|].
  rewrite !count_nodes_cons, IH.
  destruct n as [| | | | | | |cls children]; cbn; try lia.
  destruct cls; cbn; lia.
Qed.


Section Reported.

Variable py_compile : string -> compile_outcome.
Variable ast_parse : string -> result ast.
Variable recursion_error : ast -> option exn.
Variable cleandoc : string -> string.
Variable generate_tokens : string -> result (list (token_type * string)).
Variable path_read_text : Path -> bool -> result string.


End Reported.


(* ================================================================== *)
(** * The names that are checked *)
(* ================================================================== *)

(** C6 (counterexample).  The method [Area] of a top-level class does not
    match the snake-case pattern and does not start with an underscore,
    and the report has no naming issue: the names of methods are not
    looked at. *)
Lemma method_names_are_not_checked :
  SNAKE_CASE_RE "Area" = false
  /\ startswith "Area" "_" = false
  /\ In (FunctionDef "Area" 2
           [ Node (Other "arguments") [Node (Other "arg") []] ]
           [ Node (Other "Return") [Constant NotStr] ] [])
        (subtree (class_with_method "Area"))
  /\ naming_issues
       (docstrings_and_naming example_cleandoc (class_with_method "Area"))
     = [].
Proof.
  split; [reflexivity|]. split; [reflexivity|]. split; [|reflexivity].
  cbn. auto.
Qed.

Section Names.

Variable cleandoc : string -> string.

(** C6 (as amended).  The names [docstrings_and_naming] checks are those
    of the statements at the top level of the module.  A function
    definition there, synchronous or asynchronous, is flagged exactly when
    its name does not start with an underscore (which covers the names in
    double underscores) and does not match the snake-case pattern; so a
    top-level [MyFunction] is flagged and a top-level [_Helper] is not.
    Every issue names a statement of the top level: a function that is
    defined inside a class or inside another function is never flagged. *)
Theorem top_level_function_names_are_checked (body : list ast) :
  let issues := naming_issues (docstrings_and_naming cleandoc (Module body)) in
  (forall fn name lineno,
      In fn body -> defines_function fn name lineno ->
      (In (mkNamingIssue "FunctionNameNotSnakeCase" name lineno) issues
       <-> startswith name "_" = false /\ SNAKE_CASE_RE name = false))
  /\ (forall fn lineno,
         In fn body -> defines_function fn "MyFunction" lineno ->
         In (mkNamingIssue "FunctionNameNotSnakeCase" "MyFunction" lineno)
            issues)
  /\ (forall lineno,
         ~ In (mkNamingIssue "FunctionNameNotSnakeCase" "_Helper" lineno)
              issues)
  /\ (forall name,
         startswith name "__" = true -> endswith name "__" = true ->
         forall lineno,
           ~ In (mkNamingIssue "FunctionNameNotSnakeCase" name lineno) issues)
  /\ (forall issue,
         In issue issues ->
         exists node kind doc,
           In node body
           /\ header node
              = Some (kind, naming_name issue, naming_lineno issue, doc)).
Proof.
  cbn zeta.
  destruct (docstrings_and_naming_spec cleandoc (Module body))
    as (_ & _ & -> & _).
  cbn [body_of].
  assert (Hflag : forall name lineno,
    In (mkNamingIssue "FunctionNameNotSnakeCase" name lineno)
       (flat_map naming_issue_of body) ->
    startswith name "_" = false /\ SNAKE_CASE_RE name = false).
  { intros name lineno Hin. apply in_flat_map in Hin.
    destruct Hin as (node & _ & Hissue).
    destruct node; cbn [naming_issue_of] in Hissue; try contradiction;
      match type of Hissue with
      | In _ (if negb ?a && negb ?b then _ else _) =>
          destruct a eqn:Ha; destruct b eqn:Hb;
          cbn [negb andb In] in Hissue; try contradiction
      end;
      destruct Hissue as [Heq|[]]; inversion Heq; subst; auto. }
  assert (Hdef : forall fn name lineno,
    In fn body -> defines_function fn name lineno ->
    startswith name "_" = false -> SNAKE_CASE_RE name = false ->
    In (mkNamingIssue "FunctionNameNotSnakeCase" name lineno)
       (flat_map naming_issue_of body)).
  { intros fn name lineno Hin (args & fbody & rest & [-> | ->]) Hu Hs;
      apply in_flat_map; eexists; (split; [exact Hin|]);
      cbn [naming_issue_of]; rewrite Hu, Hs; left; reflexivity. }
  split; [|split; [|split; [|split]]].
  - intros fn name lineno Hin Hfn. split; [apply Hflag|].
    intros [Hu Hs]. eapply Hdef; eauto.
  - intros fn lineno Hin Hfn. eapply Hdef; eauto.
  - intros lineno Hin. apply Hflag in Hin. destruct Hin as [Hu _].
    discriminate.
  - intros name H2 _ lineno Hin. apply Hflag in Hin. destruct Hin as [Hu _].
    apply startswith_two_underscores in H2. congruence.
  - intros issue Hin. apply in_flat_map in Hin.
    destruct Hin as (node & Hnode & Hissue).
    exists node.
    destruct node; cbn [naming_issue_of] in Hissue; try contradiction;
      match type of Hissue with
      | In _ (if ?c then _ else _) =>
          destruct c; cbn [In] in Hissue; try contradiction
      end;
      destruct Hissue as [<-|[]]; cbn [header naming_name naming_lineno];
      eauto.
Qed.

End Names.

Lemma top_level_function_names_are_checked_witness :
  In (mkNamingIssue "FunctionNameNotSnakeCase" "MyFunction" 1)
     (naming_issues
        (docstrings_and_naming example_cleandoc
           (Module [FunctionDef "MyFunction" 1 [] [Node (Other "Pass") []] [];
                    FunctionDef "_Helper" 3 [] [Node (Other "Pass") []] []]))).
Proof.
  destruct (top_level_function_names_are_checked example_cleandoc
              [FunctionDef "MyFunction" 1 [] [Node (Other "Pass") []] [];
               FunctionDef "_Helper" 3 [] [Node (Other "Pass") []] []])
    as (_ & Hmy & _).
  apply (Hmy (FunctionDef "MyFunction" 1 [] [Node (Other "Pass") []] [])).
  - left. reflexivity.
  - do 3 eexists. left. reflexivity.
Defined.

(* ================================================================== *)
(** * The whole-file issue of the style report *)
(* ================================================================== *)

Lemma no_whole_file_issue_among (first last : nat) (new : list StyleIssue) :
  Forall (names_line_between first last) new ->
  filter (fun issue => match issue_line issue with
                       | None => true
                       | Some _ => false
                       end) new = [].
Proof.
  induction 1 as [|issue new (j & Hj & _) _ IH]; [reflexivity|].
  cbn [filter]. rewrite Hj. exact IH.
Qed.

Lemma Forall_firstn {A : Type} (P : A -> Prop) (n : nat) (l : list A) :
  Forall P l -> Forall P (firstn n l).
Proof.
  intros H. apply Forall_forall. intros x Hin.
  rewrite Forall_forall in H. apply H. eapply In_firstn; eauto.
Qed.

(** C8 (counterexample).  A file of 200 lines with trailing white space,
    one line that starts with a tab and one that starts with a space: the
    mixed-indentation counter is 1, and the list of issues, cut after the
    200 issues of the lines, has no whole-file issue. *)
Lemma mixed_indentation_issue_can_be_cut :
  mixed_indentation (counts (style_check crowded_source)) = 1
  /\ existsb starts_with_tab (splitlines true crowded_source) = true
  /\ existsb starts_with_space (splitlines true crowded_source) = true
  /\ List.length (issues (style_check crowded_source)) = 200
  /\ whole_file_issues (style_check crowded_source) = [].
Proof. vm_compute. repeat split. Qed.

(** C8 (as amended).  The mixed-indentation counter of the style report is
    1 when some line of the file starts with a tab and some line starts
    with a space, and 0 otherwise; only the first character of a line is
    looked at.  The report has at most one issue without a line: the
    [MixedIndentation] issue, which is there exactly when the counter is 1
    and the lines of the file gave fewer than 200 issues (the list of
    issues is cut after 200 entries, and the whole-file issue comes
    last). *)
Theorem mixed_indentation_flag_and_issue (source : string) :
  let lines := splitlines true source in
  let r := style_check source in
  let mixed := mixed_indentation (counts r) in
  (mixed = 1 <->
   (exists l, In l lines /\ starts_with_tab l = true)
   /\ (exists l, In l lines /\ starts_with_space l = true))
  /\ (mixed = 0 <->
      ~ ((exists l, In l lines /\ starts_with_tab l = true)
         /\ (exists l, In l lines /\ starts_with_space l = true)))
  /\ whole_file_issues r
     = (if Nat.eqb mixed 1
           && Nat.ltb (count_lines is_long lines
                       + count_lines has_trailing_whitespace lines) 200
        then [mixed_issue] else []).
Proof.
  cbn zeta. unfold style_check, whole_file_issues.
  destruct (style_loop_spec (splitlines true source) 1 scan_start)
    as (_ & _ & _ & Hti & Hsi & new & Hnew & Hlen & Hall).
  cbn zeta in *. cbn [counts issues mixed_indentation].
  rewrite Hti, Hsi, Hnew.
  cbn [scan_start has_tab_indent has_space_indent scan_issues orb app].
  rewrite <- Hlen, <- !existsb_true_iff. unfold take, append.
  pose proof (no_whole_file_issue_among _ _ _ Hall) as Hnone.
  pose proof (no_whole_file_issue_among _ _ _ (Forall_firstn _ 200 _ Hall))
    as Hcut.
  destruct (existsb starts_with_tab _), (existsb starts_with_space _);
    cbn [andb Nat.eqb].
  - split; [split; auto|]. split; [split; [discriminate|]|].
    + intros H. exfalso. apply H. auto.
    + rewrite firstn_app_last.
      destruct (Nat.ltb (List.length new) 200); [|exact Hcut].
      rewrite filter_app, Hnone. reflexivity.
  - split; [split; [discriminate | intros [_ H]; discriminate]|].
    split; [split; [intros _ [_ H]; discriminate | reflexivity]|].
    exact Hcut.
  - split; [split; [discriminate | intros [H _]; discriminate]|].
    split; [split; [intros _ [H _]; discriminate | reflexivity]|].
    exact Hcut.
  - split; [split; [discriminate | intros [H _]; discriminate]|].
    split; [split; [intros _ [H _]; discriminate | reflexivity]|].
    exact Hcut.
Qed.
